(** * Token service and auth gate of the restaurant-management backend

    A shallow embedding of [helpers/tokenHelper.go] (GenerateAllTokens,
    UpdateAllTokens, ValidateToken) and of the gin middleware
    [middleware.Authentication], together with the parts of the libraries
    they call: [github.com/dgrijalva/jwt-go] (v3), [net/http] headers,
    the gin request context and the MongoDB upsert.

    Go strings and byte slices are modelled as [string] (a list of bytes),
    Unix timestamps as [Z], maps as [gmap].  Package-level state
    (SECRET_KEY, the wall clock, the "user" collection) lives in a [World]
    that is threaded through a small state-and-panic monad. *)

From Stdlib Require Import ZArith Ascii String DecimalString DecimalZ.
From Stdlib Require Import Decimal DecimalPos.
From stdpp Require Import base option list strings gmap sorting.

Local Open Scope string_scope.
Local Open Scope Z_scope.

(** ** Go values *)

(** A Go [error] is represented by the text its [Error()] method returns;
    a nil error is [None]. *)
Definition error : Type := string.

(** A call returning [(T, error)] where exactly one of the two is set. *)
Inductive res (A : Type) : Type :=
| Ok (v : A)
| Err (e : error).
Arguments Ok {A} v.
Arguments Err {A} e.

(** ** Package [strings] *)

Module strings.

(** [strings.Split(s, ".")]: the substrings between the dots, in order. *)
Fixpoint Split (s : string) : list string :=
  match s with
  | EmptyString => [EmptyString]
  | String c r =>
      if Ascii.eqb c "."
      then EmptyString :: Split r
      else match Split r with
           | x :: xs => String c x :: xs
           | [] => [String c EmptyString]
           end
  end.

(** [strings.Join(parts, ".")]. *)
Fixpoint Join (parts : list string) : string :=
  match parts with
  | [] => ""
  | [x] => x
  | x :: rest => x +:+ "." +:+ Join rest
  end.

Definition lower (c : ascii) : ascii :=
  let n := nat_of_ascii c in
  if ((65 <=? n) && (n <=? 90))%nat then ascii_of_nat (n + 32) else c.

(** [strings.ToLower] on the ASCII letters. *)
Fixpoint ToLower (s : string) : string :=
  match s with
  | EmptyString => EmptyString
  | String c r => String (lower c) (ToLower r)
  end.

(** [strings.HasPrefix(s, prefix)]. *)
Definition HasPrefix (s prefix : string) : bool := String.prefix prefix s.

(** No byte of [s] is a dot. *)
Fixpoint dotless (s : string) : bool :=
  match s with
  | EmptyString => true
  | String c r => negb (Ascii.eqb c ".") && dotless r
  end.

End strings.

(** ** The process state *)

(** BSON values stored in documents of the "user" collection. *)
Inductive bson : Type :=
| BString (s : string)
| BDateTime (t : Z).

Global Instance bson_eq_dec : EqDecision bson.
Proof. solve_decision. Defined.

(** A MongoDB document: field name to value. *)
Abbreviation Document := (gmap string bson).

(** Package-level state of the server process.
    - [SECRET_KEY]: the signing key read from the environment at start-up;
    - [clock]: what [time.Now().Unix()] reads, in seconds; it stands still
      during one call, and instants are far from the bounds of [int64], so
      they are kept in [Z];
    - [userCollection]: the documents of the "user" collection, in
      insertion order;
    - [db_fault]: the error the database driver answers with, if any. *)
Record World : Type := mkWorld {
  SECRET_KEY : string;
  clock : Z;
  userCollection : list Document;
  db_fault : option error;
}.

(** The result of running Go code: it returns, or it panics. *)
Inductive outcome (A : Type) : Type :=
| Returned (a : A)
| Panicked (v : string).
Arguments Returned {A} a.
Arguments Panicked {A} v.

(** Computations over the process state that may panic. *)
Definition M (A : Type) : Type := World → outcome A * World.

Global Instance M_ret : MRet M := λ A a w, (Returned a, w).
Global Instance M_bind : MBind M := λ A B f m w,
  match m w with
  | (Returned a, w') => f a w'
  | (Panicked v, w') => (Panicked v, w')
  end.

Definition panic {A : Type} (v : string) : M A := λ w, (Panicked v, w).
Definition gets {A : Type} (f : World → A) : M A := λ w, (Returned (f w), w).
Definition modify (f : World → World) : M unit := λ w, (Returned tt, f w).

(** [time.Now().Local().Unix()] *)
Definition time_Now : M Z := gets clock.

(** The run-time panic raised on a nil pointer dereference. *)
Definition nil_dereference : string :=
  "runtime error: invalid memory address or nil pointer dereference".

(** ** Package [jwt] (github.com/dgrijalva/jwt-go, v3)

    The control flow of the library functions the token helper calls
    ([NewWithClaims], [SignedString], [ParseWithClaims], [StandardClaims.Valid],
    the HS256 signing method) is transcribed; what they delegate to
    ([encoding/base64], [encoding/json], [crypto/hmac], the formatting of a
    [time.Duration]) is an interface, [Primitives]. *)

Module jwt.

(** A JSON value held in the token header: only strings are inspected. *)
Inductive jvalue : Type :=
| JString (s : string)
| JOther.

(** [ValidationError], with the bit flags of [Errors]. *)
Record ValidationError : Type := mkValidationError {
  Inner : option error;
  Errors : N;
  text : string;
}.

Definition ValidationErrorMalformed : N := 1.
Definition ValidationErrorUnverifiable : N := 2.
Definition ValidationErrorSignatureInvalid : N := 4.
Definition ValidationErrorExpired : N := 16.
Definition ValidationErrorIssuedAt : N := 32.
Definition ValidationErrorNotValidYet : N := 128.

Definition NewValidationError (errorText : string) (errorFlags : N) : ValidationError :=
  {| Inner := None; Errors := errorFlags; text := errorText |}.

(** [func (e ValidationError) Error() string] *)
Definition Error (e : ValidationError) : string :=
  match Inner e with
  | Some inner => inner
  | None => if decide (text e = "") then "token is invalid" else text e
  end.

(** [func (e *ValidationError) valid() bool] *)
Definition valid (e : ValidationError) : bool := (Errors e =? 0)%N.

Definition ErrInvalidKeyType : error := "key is of invalid type".
Definition ErrHashUnavailable : error := "the requested hash function is unavailable".
Definition ErrSignatureInvalid : error := "signature is invalid".

(** The standard claims; only the three instants are read by [Valid]. *)
Record StandardClaims : Type := mkStandardClaims {
  Audience : string;
  ExpiresAt : Z;
  Id : string;
  IssuedAt : Z;
  Issuer : string;
  NotBefore : Z;
  Subject : string;
}.

(** [StandardClaims{}] and [StandardClaims{ExpiresAt: exp}]. *)
Definition StandardClaims_zero : StandardClaims :=
  {| Audience := ""; ExpiresAt := 0; Id := ""; IssuedAt := 0;
     Issuer := ""; NotBefore := 0; Subject := "" |}.
Definition StandardClaims_exp (exp : Z) : StandardClaims :=
  {| Audience := ""; ExpiresAt := exp; Id := ""; IssuedAt := 0;
     Issuer := ""; NotBefore := 0; Subject := "" |}.

Definition verifyExp (exp now : Z) (required : bool) : bool :=
  if (exp =? 0)%Z then negb required else (now <=? exp)%Z.
Definition verifyIat (iat now : Z) (required : bool) : bool :=
  if (iat =? 0)%Z then negb required else (iat <=? now)%Z.
Definition verifyNbf (nbf now : Z) (required : bool) : bool :=
  if (nbf =? 0)%Z then negb required else (nbf <=? now)%Z.

(** A signing method: its name, [Sign] and [Verify].  Keys are byte
    slices throughout. *)
Record SigningMethod : Type := mkSigningMethod {
  Alg : string;
  Sign : string → string → res string;
  Verify : string → string → string → option error;
}.

(** What the library delegates to other packages, for a claims type [C]. *)
Class Primitives (C : Type) : Type := {
  (** unpadded base64url, [EncodeSegment] and [DecodeSegment] *)
  EncodeSegment : string → string;
  DecodeSegment : string → res string;
  (** [json.Marshal] and [json.Unmarshal] of the token header *)
  json_Marshal_header : gmap string jvalue → res string;
  json_Unmarshal_header : string → res (gmap string jvalue);
  (** [json.Marshal] of the claims; [Decoder.Decode] into a claims
      struct, giving the struct as the decoder leaves it *)
  json_Marshal_claims : C → res string;
  json_Decode_claims : string → C → C * option error;
  (** HMAC-SHA256 of a message under a key, and whether the hash is
      linked into the binary *)
  hmac_sha256 : string → string → string;
  sha256_Available : bool;
  (** the registered signing methods other than HS256 *)
  registered : string → option SigningMethod;
  (** [fmt.Sprintf("%v", d)] for a duration of [d] seconds *)
  fmt_Duration : Z → string;
}.

(** The [Claims] interface: [Valid() error], reading the clock. *)
Class Claims (C : Type) : Type := Claims_Valid : C → Z → option ValidationError.

Section Library.
Context {C : Type} `{!Primitives C, !Claims C}.

(** [func (c StandardClaims) Valid() error], at clock reading [now]. *)
Definition StandardClaims_Valid (c : StandardClaims) (now : Z) : option ValidationError :=
  let vErr := {| Inner := None; Errors := 0; text := "" |} in
  let vErr :=
    if verifyExp (ExpiresAt c) now false then vErr
    else {| Inner := Some ("token is expired by " +:+ fmt_Duration (now - ExpiresAt c));
            Errors := N.lor (Errors vErr) ValidationErrorExpired; text := text vErr |} in
  let vErr :=
    if verifyIat (IssuedAt c) now false then vErr
    else {| Inner := Some "Token used before issued";
            Errors := N.lor (Errors vErr) ValidationErrorIssuedAt; text := text vErr |} in
  let vErr :=
    if verifyNbf (NotBefore c) now false then vErr
    else {| Inner := Some "token is not valid yet";
            Errors := N.lor (Errors vErr) ValidationErrorNotValidYet; text := text vErr |} in
  if valid vErr then None else Some vErr.

(** [SigningMethodHS256]: [SigningMethodHMAC.Sign] and [.Verify]. *)
Definition SigningMethodHS256 : SigningMethod := {|
  Alg := "HS256";
  Sign signingString key :=
    if sha256_Available
    then Ok (EncodeSegment (hmac_sha256 key signingString))
    else Err ErrHashUnavailable;
  Verify signingString signature key :=
    match DecodeSegment signature with
    | Err err => Some err
    | Ok sig =>
        if sha256_Available
        then if decide (sig = hmac_sha256 key signingString)
             then None else Some ErrSignatureInvalid
        else Some ErrHashUnavailable
    end;
|}.

(** [GetSigningMethod(alg)] *)
Definition GetSigningMethod (alg : string) : option SigningMethod :=
  if decide (alg = "HS256") then Some SigningMethodHS256 else registered alg.

(** [*Token]; [Claims] is [None] while the interface field is nil. *)
Record Token : Type := mkToken {
  Raw : string;
  Method : option SigningMethod;
  Header : gmap string jvalue;
  Token_Claims : option C;
  Signature : string;
  Token_Valid : bool;
}.

(** [NewWithClaims(method, claims)] *)
Definition NewWithClaims (method : SigningMethod) (claims : C) : Token :=
  {| Raw := "";
     Method := Some method;
     Header := <["typ" := JString "JWT"]> (<["alg" := JString (Alg method)]> ∅);
     Token_Claims := Some claims;
     Signature := "";
     Token_Valid := false |}.

(** [func (t *Token) SigningString() (string, error)] *)
Definition SigningString (header : gmap string jvalue) (claims : C) : res string :=
  match json_Marshal_header header with
  | Err err => Err err
  | Ok jsonValue =>
      let part0 := EncodeSegment jsonValue in
      match json_Marshal_claims claims with
      | Err err => Err err
      | Ok jsonValue => Ok (strings.Join [part0; EncodeSegment jsonValue])
      end
  end.

(** [NewWithClaims(method, claims).SignedString(key)] *)
Definition SignedString (method : SigningMethod) (claims : C) (key : string) : res string :=
  match SigningString (Header (NewWithClaims method claims)) claims with
  | Err err => Err err
  | Ok sstr =>
      match Sign method sstr key with
      | Err err => Err err
      | Ok sig => Ok (strings.Join [sstr; sig])
      end
  end.

Definition malformed (err : error) : ValidationError :=
  {| Inner := Some err; Errors := ValidationErrorMalformed; text := "" |}.

(** [func (p *Parser) ParseUnverified(tokenString, claims)]: the token
    (nil when the segment count is wrong), the segments and the error.
    [claims] is the struct the caller passed in; [Token_Claims] points
    to it from the moment the header has been read. *)
Definition ParseUnverified (tokenString : string) (claims : C)
  : option Token * list string * option ValidationError :=
  let parts := strings.Split tokenString in
  match parts with
  | [part0; part1; part2] =>
      let token := mkToken tokenString None ∅ None "" false in
      match DecodeSegment part0 with
      | Err err =>
          if strings.HasPrefix (strings.ToLower tokenString) "bearer "
          then (Some token, parts,
                Some (NewValidationError "tokenstring should not contain 'bearer '"
                        ValidationErrorMalformed))
          else (Some token, parts, Some (malformed err))
      | Ok headerBytes =>
          match json_Unmarshal_header headerBytes with
          | Err err => (Some token, parts, Some (malformed err))
          | Ok header =>
              let token := mkToken tokenString None header (Some claims) "" false in
              match DecodeSegment part1 with
              | Err err => (Some token, parts, Some (malformed err))
              | Ok claimBytes =>
                  let '(claims, err) := json_Decode_claims claimBytes claims in
                  let token := mkToken tokenString None header (Some claims) "" false in
                  match err with
                  | Some err => (Some token, parts, Some (malformed err))
                  | None =>
                      match header !! "alg" with
                      | Some (JString method) =>
                          match GetSigningMethod method with
                          | Some m =>
                              (Some (mkToken tokenString (Some m) header (Some claims) "" false),
                               parts, None)
                          | None =>
                              (Some token, parts,
                               Some (NewValidationError "signing method (alg) is unavailable."
                                       ValidationErrorUnverifiable))
                          end
                      | _ =>
                          (Some token, parts,
                           Some (NewValidationError "signing method (alg) is unspecified."
                                   ValidationErrorUnverifiable))
                      end
                  end
              end
          end
      end
  | _ =>
      (None, parts,
       Some (NewValidationError "token contains an invalid number of segments"
               ValidationErrorMalformed))
  end.

(** [ParseWithClaims(tokenString, claims, keyFunc)] for a [keyFunc] that
    always returns [key], with the clock read by [Valid] at [now]. *)
Definition ParseWithClaims (tokenString : string) (claims : C) (key : string) (now : Z)
  : option Token * option ValidationError :=
  match ParseUnverified tokenString claims with
  | (token, _, Some err) => (token, Some err)
  | (None, _, None) => (None, None)
  | (Some token, parts, None) =>
      let vErr :=
        match Token_Claims token with
        | Some c => default (mkValidationError None 0 "") (Claims_Valid c now)
        | None => mkValidationError None 0 ""
        end in
      let signature := default "" (parts !! 2%nat) in
      let token := mkToken (Raw token) (Method token) (Header token)
                     (Token_Claims token) signature false in
      let vErr :=
        match Method token with
        | Some m =>
            match Verify m (strings.Join (take 2 parts)) signature key with
            | Some err =>
                {| Inner := Some err;
                   Errors := N.lor (Errors vErr) ValidationErrorSignatureInvalid;
                   text := text vErr |}
            | None => vErr
            end
        | None => vErr
        end in
      if valid vErr
      then (Some (mkToken (Raw token) (Method token) (Header token)
                    (Token_Claims token) signature true), None)
      else (Some token, Some vErr)
  end.
End Library.
End jwt.

(** ** The MongoDB collection ([go.mongodb.org/mongo-driver]) *)

Module mongo.

(** A filter [bson.M{k: v, ...}] matches the documents that hold every
    listed field with the listed value. *)
Definition matches (filter : list (string * bson)) (d : Document) : bool :=
  forallb (λ kv, bool_decide (d !! kv.1 = Some kv.2)) filter.

(** [{"$set": fields}] applied to a document. *)
Definition apply_set (fields : list (string * bson)) (d : Document) : Document :=
  foldl (λ acc kv, <[kv.1 := kv.2]> acc) d fields.

(** Update the first document that matches; [None] when none does. *)
Fixpoint update_first (filter fields : list (string * bson)) (docs : list Document)
  : option (list Document) :=
  match docs with
  | [] => None
  | d :: rest =>
      if matches filter d then Some (apply_set fields d :: rest)
      else cons d <$> update_first filter fields rest
  end.

(** [collection.UpdateOne(ctx, filter, {"$set": fields}, opts)] on the
    "user" collection.  With [upsert] and no match, a document made of
    the filter's fields and the [$set] fields is inserted (its generated
    [_id] is left out).  The driver's error, if any, is returned and the
    collection is left as it was. *)
Definition UpdateOne (filter fields : list (string * bson)) (upsert : bool)
  : M (option error) :=
  fault ← gets db_fault;
  match fault with
  | Some err => mret (Some err)
  | None =>
      modify (λ w,
        let docs := userCollection w in
        let docs' :=
          match update_first filter fields docs with
          | Some docs' => docs'
          | None =>
              if upsert then (docs ++ [apply_set fields (apply_set filter ∅)])%list else docs
          end in
        mkWorld (SECRET_KEY w) (clock w) docs' (db_fault w));;
      mret None
  end.

End mongo.

(** ** Package [helper]: helpers/tokenHelper.go *)

(** [type SignedDetails struct], with the embedded [jwt.StandardClaims]. *)
Record SignedDetails : Type := mkSignedDetails {
  Email : string;
  First_name : string;
  Last_name : string;
  Uid : string;
  StandardClaims : jwt.StandardClaims;
}.

(** [&SignedDetails{}] *)
Definition SignedDetails_zero : SignedDetails :=
  mkSignedDetails "" "" "" "" jwt.StandardClaims_zero.

(** [claims.ExpiresAt], through the embedded struct. *)
Definition ExpiresAt (c : SignedDetails) : Z := jwt.ExpiresAt (StandardClaims c).

Section helper.
Context `{!jwt.Primitives SignedDetails}.

(** [SignedDetails] implements [jwt.Claims] through the promoted
    [StandardClaims.Valid]. *)
Global Instance SignedDetails_Claims : jwt.Claims SignedDetails :=
  λ c now, jwt.StandardClaims_Valid (StandardClaims c) now.

(** [time.Hour * time.Duration(h)] in seconds. *)
Definition hours (h : Z) : Z := 3600 * h.

(** [func GenerateAllTokens(email, firstName, lastName, uid)
      (signedToken, signedRefreshToken string, err error)].
    The second [:=] assigns the same [err] as the first. *)
Definition GenerateAllTokens (email firstName lastName uid : string)
  : M (string * string * option error) :=
  now ← time_Now;
  let claims :=
    mkSignedDetails email firstName lastName uid
      (jwt.StandardClaims_exp (now + hours 24)) in
  now ← time_Now;
  let refreshClaims :=
    mkSignedDetails "" "" "" "" (jwt.StandardClaims_exp (now + hours 168)) in
  key ← gets SECRET_KEY;
  let '(token, err) :=
    match jwt.SignedString jwt.SigningMethodHS256 claims key with
    | Ok s => (s, None)
    | Err e => ("", Some e)
    end in
  let '(refreshToken, err) :=
    match jwt.SignedString jwt.SigningMethodHS256 refreshClaims key with
    | Ok s => (s, None)
    | Err e => ("", Some e)
    end in
  match err with
  | Some e => panic e
  | None => mret (token, refreshToken, err)
  end.

(** [func UpdateAllTokens(signedToken, signedRefreshToken, userId string)] *)
Definition UpdateAllTokens (signedToken signedRefreshToken userId : string) : M unit :=
  let updateObj := [("token", BString signedToken)] in
  let updateObj := (updateObj ++ [("refresh_token", BString signedRefreshToken)])%list in
  Updated_at ← time_Now;
  let updateObj := (updateObj ++ [("updated_at", BDateTime Updated_at)])%list in
  let upsert := true in
  let filter := [("user_id", BString userId)] in
  err ← mongo.UpdateOne filter updateObj upsert;
  match err with
  | Some e => panic e
  | None => mret tt
  end.

(** [func ValidateToken(signedToken string) (claims *SignedDetails, msg string)].
    [token.Claims] dereferences [token]; the type assertion fails on a nil
    interface and then leaves [claims] nil. *)
Definition ValidateToken (signedToken : string) : M (option SignedDetails * string) :=
  key ← gets SECRET_KEY;
  now ← time_Now;
  let '(token, err) := jwt.ParseWithClaims signedToken SignedDetails_zero key now in
  match token with
  | None => panic nil_dereference
  | Some token =>
      match jwt.Token_Claims token with
      | None =>
          let msg := "the token is invalid" in
          let msg := match err with Some e => jwt.Error e | None => msg end in
          mret (None, msg)
      | Some claims =>
          now ← time_Now;
          if (ExpiresAt claims <? now)%Z
          then
            let msg := "token is expired" in
            let msg := match err with Some e => jwt.Error e | None => msg end in
            mret (Some claims, msg)
          else mret (Some claims, "")
      end
  end.
End helper.

(** ** Package [net/http]: request headers *)

Module http.

Definition StatusInternalServerError : Z := 500.

(** A header map: canonical field name to the values received. *)
Abbreviation Header := (gmap string (list string)).

Definition is_lower (c : ascii) : bool :=
  let n := nat_of_ascii c in ((97 <=? n) && (n <=? 122))%nat.
Definition is_upper (c : ascii) : bool :=
  let n := nat_of_ascii c in ((65 <=? n) && (n <=? 90))%nat.
Definition is_digit (c : ascii) : bool :=
  let n := nat_of_ascii c in ((48 <=? n) && (n <=? 57))%nat.

(** The bytes allowed in a header field name (RFC 7230 token). *)
Definition validHeaderFieldByte (c : ascii) : bool :=
  is_lower c || is_upper c || is_digit c
  || bool_decide (c ∈ list_ascii_of_string "!#$%&'*+-.^_`|~").

Fixpoint all_valid (s : string) : bool :=
  match s with
  | EmptyString => true
  | String c r => validHeaderFieldByte c && all_valid r
  end.

(** Upper case at the start and after each dash, lower case elsewhere. *)
Fixpoint canonicalize (upper : bool) (s : string) : string :=
  match s with
  | EmptyString => EmptyString
  | String c r =>
      let c' :=
        if upper && is_lower c then ascii_of_nat (nat_of_ascii c - 32)
        else if negb upper && is_upper c then ascii_of_nat (nat_of_ascii c + 32)
        else c in
      String c' (canonicalize (Ascii.eqb c' "-") r)
  end.

(** [textproto.CanonicalMIMEHeaderKey]: a name holding another byte is
    returned unchanged. *)
Definition CanonicalMIMEHeaderKey (s : string) : string :=
  if all_valid s then canonicalize true s else s.

(** [func (h Header) Get(key string) string]: the first value, or "". *)
Definition Get (h : Header) (key : string) : string :=
  match h !! CanonicalMIMEHeaderKey key with
  | Some (v :: _) => v
  | _ => ""
  end.

End http.

(** ** Package [gin]: the request context *)

Module gin.

(** A response written with [c.JSON(code, gin.H{...})]. *)
Record Response : Type := mkResponse {
  status : Z;
  body : gmap string string;
}.

(** [*gin.Context]: the request headers, the key/value store of the
    request, the responses written so far and the handler index. *)
Record Context : Type := mkContext {
  Request_Header : http.Header;
  Keys : gmap string string;
  Writer : list Response;
  index : Z;
}.

Definition abortIndex : Z := 63.

(** [c.JSON(code, obj)] *)
Definition JSON (code : Z) (obj : gmap string string) (c : Context) : Context :=
  mkContext (Request_Header c) (Keys c) (Writer c ++ [mkResponse code obj])%list (index c).

(** [c.Abort()] *)
Definition Abort (c : Context) : Context :=
  mkContext (Request_Header c) (Keys c) (Writer c) abortIndex.

(** [c.IsAborted()] *)
Definition IsAborted (c : Context) : bool := (abortIndex <=? index c)%Z.

(** [c.Set(key, value)] ([Set] is reserved) *)
Definition Set_ (key value : string) (c : Context) : Context :=
  mkContext (Request_Header c) (<[key := value]> (Keys c)) (Writer c) (index c).

(** [gin.H{"error": msg}] *)
Definition H_error (msg : string) : gmap string string := {["error" := msg]}.

(** [gin.HandlerFunc].  The first argument is what [c.Next()] does when
    the handler calls it. *)
Definition HandlerFunc : Type := (Context → M Context) → Context → M Context.

(** [c.index++] *)
Definition advance (c : Context) : Context :=
  mkContext (Request_Header c) (Keys c) (Writer c) (index c + 1).

Definition out_of_fuel : string := "handler budget exhausted".

(** The loop of [c.Next()],
      [for c.index < int8(len(c.handlers)) { c.handlers[c.index](c); c.index++ }],
    over the chain [handlers] (fewer than 63, which gin asserts when routes
    are added).  [fuel] bounds the number of handlers run, nested calls
    included. *)
Fixpoint run (fuel : nat) (handlers : list HandlerFunc) (c : Context) : M Context :=
  if (index c <? Z.of_nat (length handlers))%Z
  then
    match fuel with
    | O => panic out_of_fuel
    | S fuel =>
        match (if (index c <? 0)%Z then None else handlers !! Z.to_nat (index c)) with
        | Some h =>
            c ← h (λ c, run fuel handlers (advance c)) c;
            run fuel handlers (advance c)
        | None => panic "runtime error: index out of range"
        end
    end
  else mret c.

(** [func (c *Context) Next()] *)
Definition Next (fuel : nat) (handlers : list HandlerFunc) (c : Context) : M Context :=
  run fuel handlers (advance c).

(** Serving a request: the index is reset to -1 and [c.Next()] is called. *)
Definition handleHTTPRequest (fuel : nat) (handlers : list HandlerFunc) (c : Context)
  : M Context :=
  Next fuel handlers (mkContext (Request_Header c) (Keys c) (Writer c) (-1)).

End gin.

(** ** Package [middleware] *)

Section middleware.
Context `{!jwt.Primitives SignedDetails}.

(** [func Authentication() gin.HandlerFunc], the returned handler.
    [next] is what [c.Next()] runs: the rest of the handler chain. *)
Definition Authentication : gin.HandlerFunc := λ next c,
  let clientToken := http.Get (gin.Request_Header c) "token" in
  if decide (clientToken = "")
  then
    let c := gin.JSON http.StatusInternalServerError
               (gin.H_error "No Authorization header provided") c in
    mret (gin.Abort c)
  else
    '(claims, err) ← ValidateToken clientToken;
    if decide (err ≠ "")
    then
      let c := gin.JSON http.StatusInternalServerError (gin.H_error err) c in
      mret (gin.Abort c)
    else
      match claims with
      | None => panic nil_dereference
      | Some claims =>
          let c := gin.Set_ "email" (Email claims) c in
          let c := gin.Set_ "first_name" (First_name claims) c in
          let c := gin.Set_ "last_name" (Last_name claims) c in
          let c := gin.Set_ "uid" (Uid claims) c in
          next c
      end.
End middleware.

(** ** What the properties assume of the primitives, and how results are read *)

Section laws.
Context `{!jwt.Primitives SignedDetails}.

(** The header [NewWithClaims(SigningMethodHS256, _)] builds. *)
Definition HS256_header : gmap string jwt.jvalue :=
  jwt.Header (jwt.NewWithClaims jwt.SigningMethodHS256 SignedDetails_zero).

(** The codecs decode what they encode, a segment holds no dot, and
    SHA-256 is linked in. *)
Record Lawful : Prop := {
  segment_roundtrip : ∀ b, jwt.DecodeSegment (jwt.EncodeSegment b) = Ok b;
  segment_dotless : ∀ b, strings.dotless (jwt.EncodeSegment b) = true;
  header_roundtrip :
    ∃ hb, jwt.json_Marshal_header HS256_header = Ok hb
          ∧ jwt.json_Unmarshal_header hb = Ok HS256_header;
  claims_roundtrip :
    ∀ c : SignedDetails,
      ∃ cb, jwt.json_Marshal_claims c = Ok cb
            ∧ jwt.json_Decode_claims cb SignedDetails_zero = (c, None);
  sha256_linked : jwt.sha256_Available = true;
}.

(** The claims a token string carries, read without verification
    ([ParseUnverified]). *)
Definition claims_of (tokenString : string) : option SignedDetails :=
  match jwt.ParseUnverified tokenString SignedDetails_zero with
  | (Some token, _, None) => jwt.Token_Claims token
  | _ => None
  end.

(** A well-formed, correctly signed token: the parser reads it without
    error, to the claims [claims], and the signature in its third segment
    verifies under [key] with the method its header names. *)
Definition correctly_signed (key tokenString : string) (claims : SignedDetails) : Prop :=
  ∃ token parts m,
    jwt.ParseUnverified tokenString SignedDetails_zero = (Some token, parts, None)
    ∧ jwt.Token_Claims token = Some claims
    ∧ jwt.Method token = Some m
    ∧ jwt.Verify m (strings.Join (take 2 parts)) (default "" (parts !! 2%nat)) key = None.

(** ValidateToken as a function of the key, the clock and the string. *)
Definition validate (key : string) (now : Z) (signedToken : string)
  : outcome (option SignedDetails * string) :=
  (ValidateToken signedToken (mkWorld key now [] None)).1.
End laws.

(** The three ways [ValidateToken] returns: success (claims, empty
    message), the structural rejection of line 164 (nil claims, a message)
    and the expiry rejection of line 174 (the decoded claims, a message). *)
Definition Accepted (r : outcome (option SignedDetails * string)) (c : SignedDetails) : Prop :=
  r = Returned (Some c, "").
Definition InvalidToken (r : outcome (option SignedDetails * string)) : Prop :=
  ∃ msg, r = Returned (None, msg) ∧ msg ≠ "".
Definition ExpiredToken (r : outcome (option SignedDetails * string)) : Prop :=
  ∃ c msg, r = Returned (Some c, msg) ∧ msg ≠ "".

(** The documents of a collection that belong to a subject. *)
Definition records_of (userId : string) (docs : list Document) : list Document :=
  filter (λ d, d !! "user_id" = Some (BString userId)) docs.

(** The rejection the gate writes: status 500, the message under
    "error", and the chain aborted. *)
Definition reject (msg : string) (c : gin.Context) : gin.Context :=
  gin.Abort (gin.JSON http.StatusInternalServerError (gin.H_error msg) c).


(** The fields UpdateAllTokens writes, and whether a document holds them. *)
Definition token_fields (tok rtok : string) (now : Z) : list (string * bson) :=
  [("token", BString tok); ("refresh_token", BString rtok); ("updated_at", BDateTime now)].

Definition holds_pair (tok rtok : string) (d : Document) : Prop :=
  d !! "token" = Some (BString tok) ∧ d !! "refresh_token" = Some (BString rtok).


(** ** A reference instance of the primitives

    Unpadded base64url, HMAC-SHA256 (FIPS 180-4, RFC 2104), and a JSON
    encoder and decoder for the two objects a token holds, restricted to
    what those objects need: string and integer members, with the quote
    and the backslash escaped in strings. *)

Module reference.

(** *** base64url without padding (RFC 4648, section 5) *)

(** Six bits, most significant first. *)
Definition sextet : Type := (bool * bool * bool * bool * bool * bool)%type.

Definition N_of_sextet (x : sextet) : N :=
  let '(b5, b4, b3, b2, b1, b0) := x in
  (N.b2n b0 + 2 * (N.b2n b1 + 2 * (N.b2n b2 + 2 * (N.b2n b3
     + 2 * (N.b2n b4 + 2 * N.b2n b5)))))%N.

Definition sextet_of_N (n : N) : sextet :=
  (N.testbit n 5, N.testbit n 4, N.testbit n 3,
   N.testbit n 2, N.testbit n 1, N.testbit n 0).

(** The alphabet [A-Z a-z 0-9 - _]. *)
Definition enc6 (x : sextet) : ascii :=
  let n := N_of_sextet x in
  if (n <? 26)%N then ascii_of_N (65 + n)
  else if (n <? 52)%N then ascii_of_N (71 + n)
  else if (n <? 62)%N then ascii_of_N (n - 4)
  else if (n =? 62)%N then "-"%char else "_"%char.

Definition dec6 (c : ascii) : option sextet :=
  let n := N_of_ascii c in
  if ((65 <=? n) && (n <=? 90))%N then Some (sextet_of_N (n - 65))
  else if ((97 <=? n) && (n <=? 122))%N then Some (sextet_of_N (n - 71))
  else if ((48 <=? n) && (n <=? 57))%N then Some (sextet_of_N (n + 4))
  else if (n =? 45)%N then Some (sextet_of_N 62)
  else if (n =? 95)%N then Some (sextet_of_N 63)
  else None.

(** Three bytes give four characters; one or two trailing bytes give two
    or three. *)
Fixpoint encode (s : string) : string :=
  match s with
  | EmptyString => EmptyString
  | String (Ascii a0 a1 a2 a3 a4 a5 a6 a7) EmptyString =>
      String (enc6 (a7, a6, a5, a4, a3, a2))
        (String (enc6 (a1, a0, false, false, false, false)) EmptyString)
  | String (Ascii a0 a1 a2 a3 a4 a5 a6 a7)
      (String (Ascii b0 b1 b2 b3 b4 b5 b6 b7) EmptyString) =>
      String (enc6 (a7, a6, a5, a4, a3, a2))
        (String (enc6 (a1, a0, b7, b6, b5, b4))
           (String (enc6 (b3, b2, b1, b0, false, false)) EmptyString))
  | String (Ascii a0 a1 a2 a3 a4 a5 a6 a7)
      (String (Ascii b0 b1 b2 b3 b4 b5 b6 b7)
         (String (Ascii c0 c1 c2 c3 c4 c5 c6 c7) r)) =>
      String (enc6 (a7, a6, a5, a4, a3, a2))
        (String (enc6 (a1, a0, b7, b6, b5, b4))
           (String (enc6 (b3, b2, b1, b0, c7, c6))
              (String (enc6 (c5, c4, c3, c2, c1, c0)) (encode r))))
  end.

Fixpoint decode (s : string) : option string :=
  match s with
  | EmptyString => Some EmptyString
  | String _ EmptyString => None
  | String x1 (String x2 EmptyString) =>
      match dec6 x1, dec6 x2 with
      | Some (a7, a6, a5, a4, a3, a2), Some (a1, a0, _, _, _, _) =>
          Some (String (Ascii a0 a1 a2 a3 a4 a5 a6 a7) EmptyString)
      | _, _ => None
      end
  | String x1 (String x2 (String x3 EmptyString)) =>
      match dec6 x1, dec6 x2, dec6 x3 with
      | Some (a7, a6, a5, a4, a3, a2), Some (a1, a0, b7, b6, b5, b4),
        Some (b3, b2, b1, b0, _, _) =>
          Some (String (Ascii a0 a1 a2 a3 a4 a5 a6 a7)
                  (String (Ascii b0 b1 b2 b3 b4 b5 b6 b7) EmptyString))
      | _, _, _ => None
      end
  | String x1 (String x2 (String x3 (String x4 r))) =>
      match dec6 x1, dec6 x2, dec6 x3, dec6 x4, decode r with
      | Some (a7, a6, a5, a4, a3, a2), Some (a1, a0, b7, b6, b5, b4),
        Some (b3, b2, b1, b0, c7, c6), Some (c5, c4, c3, c2, c1, c0), Some t =>
          Some (String (Ascii a0 a1 a2 a3 a4 a5 a6 a7)
                  (String (Ascii b0 b1 b2 b3 b4 b5 b6 b7)
                     (String (Ascii c0 c1 c2 c3 c4 c5 c6 c7) t)))
      | _, _, _, _, _ => None
      end
  end.

(** The index of the first byte outside the alphabet, or the length. *)
Fixpoint bad_position (s : string) : N :=
  match s with
  | EmptyString => 0
  | String c r =>
      match dec6 c with
      | Some _ => (1 + bad_position r)%N
      | None => 0%N
      end
  end.

(** Decimal digits of an integer. *)
Definition decimal (z : Z) : string :=
  DecimalString.NilZero.string_of_int (Z.to_int z).

Definition EncodeSegment (seg : string) : string := encode seg.

Definition DecodeSegment (seg : string) : res string :=
  match decode seg with
  | Some b => Ok b
  | None => Err ("illegal base64 data at input byte "
                 +:+ decimal (Z.of_N (bad_position seg)))
  end.

(** *** JSON objects with string and integer members *)

Definition dquote : ascii := ascii_of_nat 34.
Definition backslash : ascii := ascii_of_nat 92.

(** The body of a string literal: quote and backslash are escaped. *)
Fixpoint escape (s : string) : string :=
  match s with
  | EmptyString => EmptyString
  | String c r =>
      if Ascii.eqb c dquote || Ascii.eqb c backslash
      then String backslash (String c (escape r))
      else String c (escape r)
  end.

Definition quote (s : string) : string :=
  String dquote (escape s +:+ String dquote EmptyString).

(** Reads the body of a string literal up to the closing quote: the
    string, and what follows the quote.  An escaped byte stands for
    itself. *)
Fixpoint unquote (s : string) : option (string * string) :=
  match s with
  | EmptyString => None
  | String c r =>
      if Ascii.eqb c dquote then Some (EmptyString, r)
      else if Ascii.eqb c backslash then
        match r with
        | String d r' =>
            match unquote r' with
            | Some (t, rest) => Some (String d t, rest)
            | None => None
            end
        | EmptyString => None
        end
      else
        match unquote r with
        | Some (t, rest) => Some (String c t, rest)
        | None => None
        end
  end.

Definition is_numeric (c : ascii) : bool := Ascii.eqb c "-" || http.is_digit c.

(** The longest prefix made of digits and minus signs, and the rest. *)
Fixpoint span_numeric (s : string) : string * string :=
  match s with
  | EmptyString => (EmptyString, EmptyString)
  | String c r =>
      if is_numeric c
      then let '(n, rest) := span_numeric r in (String c n, rest)
      else (EmptyString, s)
  end.

(** Every byte of a string is a digit or a minus sign. *)
Fixpoint numeric (s : string) : bool :=
  match s with
  | EmptyString => true
  | String c r => is_numeric c && numeric r
  end.

Inductive jv : Type :=
| JS (s : string)
| JN (z : Z).

Definition render_value (v : jv) : string :=
  match v with
  | JS s => quote s
  | JN z => decimal z
  end.

Definition render_member (m : string * jv) : string :=
  quote m.1 +:+ ":" +:+ render_value m.2.

Fixpoint render_members (l : list (string * jv)) : string :=
  match l with
  | [] => EmptyString
  | [m] => render_member m
  | m :: r => render_member m +:+ "," +:+ render_members r
  end.

Definition render_object (l : list (string * jv)) : string :=
  "{" +:+ render_members l +:+ "}".

Definition parse_value (s : string) : option (jv * string) :=
  match s with
  | EmptyString => None
  | String c r =>
      if Ascii.eqb c dquote
      then match unquote r with
           | Some (t, rest) => Some (JS t, rest)
           | None => None
           end
      else let '(n, rest) := span_numeric s in
           match DecimalString.NilZero.int_of_string n with
           | Some d => Some (JN (Z.of_int d), rest)
           | None => None
           end
  end.

(** The members up to the closing brace, which must end the input. *)
Fixpoint parse_members (fuel : nat) (s : string) : option (list (string * jv)) :=
  match fuel with
  | O => None
  | S fuel =>
      match s with
      | String c r =>
          if Ascii.eqb c dquote
          then match unquote r with
               | Some (k, String ":" r1) =>
                   match parse_value r1 with
                   | Some (v, String "," r2) => cons (k, v) <$> parse_members fuel r2
                   | Some (v, String "}" EmptyString) => Some [(k, v)]
                   | _ => None
                   end
               | _ => None
               end
          else None
      | EmptyString => None
      end
  end.

Definition parse_object (s : string) : option (list (string * jv)) :=
  match s with
  | String "{" (String "}" EmptyString) => Some []
  | String "{" r => parse_members (String.length r) r
  | _ => None
  end.

Definition syntax_error : error := "unexpected end of JSON input".

(** *** SHA-256 (FIPS 180-4) and HMAC (RFC 2104) over 32-bit words in [N] *)

Definition w32 (x : N) : N := N.land x 0xffffffff.
Definition add32 (x y : N) : N := w32 (x + y).
Definition rotr (k x : N) : N := N.lor (N.shiftr x k) (w32 (N.shiftl x (32 - k))).
Definition Ch (x y z : N) : N :=
  N.lxor (N.land x y) (N.land (N.lxor x 0xffffffff) z).
Definition Maj (x y z : N) : N :=
  N.lxor (N.lxor (N.land x y) (N.land x z)) (N.land y z).
Definition Sigma0 (x : N) : N := N.lxor (N.lxor (rotr 2 x) (rotr 13 x)) (rotr 22 x).
Definition Sigma1 (x : N) : N := N.lxor (N.lxor (rotr 6 x) (rotr 11 x)) (rotr 25 x).
Definition sigma0 (x : N) : N := N.lxor (N.lxor (rotr 7 x) (rotr 18 x)) (N.shiftr x 3).
Definition sigma1 (x : N) : N := N.lxor (N.lxor (rotr 17 x) (rotr 19 x)) (N.shiftr x 10).

(** The first sixty-four primes. *)
Definition is_prime (n : nat) : bool :=
  forallb (λ d, negb (n mod d =? 0)%nat) (seq 2 (n - 2)).
Definition primes64 : list N := N.of_nat <$> filter is_prime (seq 2 310).

(** The integer cube root of a number below [2^108], bit by bit. *)
Definition cube_root (n : N) : N :=
  foldl (λ r b, let r' := (r + N.shiftl 1 (N.of_nat b))%N in
                if (r' * r' * r' <=? n)%N then r' else r)
        0%N (reverse (seq 0 36)).

(** The first thirty-two bits of the fractional part of the cube root, and
    of the square root, of a prime. *)
Definition cube_root_fraction (p : N) : N := w32 (cube_root (N.shiftl p 96)).
Definition square_root_fraction (p : N) : N := w32 (N.sqrt (N.shiftl p 64)).

(** The round constants and the initial hash value. *)
Definition K256 : list N := Eval vm_compute in cube_root_fraction <$> primes64.
Definition H256 : list N := Eval vm_compute in square_root_fraction <$> take 8 primes64.

Definition bytes_of_string (s : string) : list N := N_of_ascii <$> list_ascii_of_string s.
Definition string_of_bytes (l : list N) : string :=
  string_of_list_ascii (ascii_of_N <$> l).

(** Big-endian bytes of a word of [n] bytes. *)
Fixpoint be_bytes (n : nat) (x : N) : list N :=
  match n with
  | O => []
  | S n => (be_bytes n (N.shiftr x 8) ++ [N.land x 0xff])%list
  end.

Fixpoint be_word (l : list N) (acc : N) : N :=
  match l with
  | [] => acc
  | b :: r => be_word r (N.lor (N.shiftl acc 8) b)
  end.

(** The message, the bit 1, zeros up to 56 modulo 64, the bit length. *)
Definition pad (msg : list N) : list N :=
  let len := length msg in
  let zeros := ((64 - (len + 9) mod 64) mod 64)%nat in
  (msg ++ [0x80%N] ++ replicate zeros 0%N ++ be_bytes 8 (8 * N.of_nat len)%N)%list.

(** Cut a list into pieces of [n] elements; [fuel] bounds the pieces. *)
Fixpoint chunks {A : Type} (fuel n : nat) (l : list A) : list (list A) :=
  match fuel with
  | O => []
  | S fuel =>
      match l with
      | [] => []
      | _ => take n l :: chunks fuel n (drop n l)
      end
  end.

(** The message schedule: sixteen words of the block, then forty-eight
    derived ones. *)
Definition schedule (block : list N) : list N :=
  let w0 := (λ ws, be_word ws 0%N) <$> chunks 16 4 block in
  foldl (λ w t,
           let x i := nth (t - i) w 0%N in
           (w ++ [add32 (add32 (sigma1 (x 2%nat)) (x 7%nat))
                    (add32 (sigma0 (x 15%nat)) (x 16%nat))])%list)
        w0 (seq 16 48).

Definition round (st : list N) (kw : N * N) : list N :=
  match st with
  | [a; b; c; d; e; f; g; h] =>
      let t1 := add32 (add32 (add32 h (Sigma1 e)) (Ch e f g)) (add32 kw.1 kw.2) in
      let t2 := add32 (Sigma0 a) (Maj a b c) in
      [add32 t1 t2; a; b; c; add32 d t1; e; f; g]
  | _ => st
  end.

Definition compress (h : list N) (block : list N) : list N :=
  zip_with add32 h (foldl round h (zip K256 (schedule block))).

Definition sha256 (msg : list N) : list N :=
  let padded := pad msg in
  let h := foldl compress H256 (chunks (length padded) 64 padded) in
  concat (be_bytes 4 <$> h).

Definition hmac (key msg : list N) : list N :=
  let k := if (64 <? length key)%nat then sha256 key else key in
  let k := (k ++ replicate (64 - length k) 0%N)%list in
  let ipad := N.lxor 0x36 <$> k in
  let opad := N.lxor 0x5c <$> k in
  sha256 (opad ++ sha256 (ipad ++ msg)).

Definition hmac_sha256 (key msg : string) : string :=
  string_of_bytes (hmac (bytes_of_string key) (bytes_of_string msg)).

Fixpoint hex_digits (l : list N) : string :=
  match l with
  | [] => EmptyString
  | b :: r =>
      let digit n := nth (N.to_nat n) (list_ascii_of_string "0123456789abcdef") "0"%char in
      String (digit (N.shiftr b 4)) (String (digit (N.land b 15)) (hex_digits r))
  end.

(** *** The token header and the claims as JSON *)

Definition key_le (a b : string * jwt.jvalue) : Prop := String.leb a.1 b.1 = true.

Global Instance key_le_dec : RelDecision key_le.
Proof. intros a b. unfold key_le. apply _. Defined.

Definition member_of_header (kv : string * jwt.jvalue) : option (string * jv) :=
  match kv.2 with
  | jwt.JString s => Some (kv.1, JS s)
  | jwt.JOther => None
  end.

Definition header_of_member (m : string * jv) : string * jwt.jvalue :=
  match m.2 with
  | JS s => (m.1, jwt.JString s)
  | JN _ => (m.1, jwt.JOther)
  end.

(** The members in key order, as [json.Marshal] writes a map. *)
Definition json_Marshal_header (h : gmap string jwt.jvalue) : res string :=
  match mapM member_of_header (merge_sort key_le (map_to_list h)) with
  | Some l => Ok (render_object l)
  | None => Err "json: unsupported value"
  end.

Definition json_Unmarshal_header (b : string) : res (gmap string jwt.jvalue) :=
  match parse_object b with
  | Some l => Ok (list_to_map (reverse (header_of_member <$> l)))
  | None => Err syntax_error
  end.

(** A member tagged [omitempty]. *)
Definition opt_string (k s : string) : list (string * jv) :=
  if (s =? "")%string then [] else [(k, JS s)].
Definition opt_int (k : string) (z : Z) : list (string * jv) :=
  if (z =? 0)%Z then [] else [(k, JN z)].

(** The members of [SignedDetails]: its four fields, then the fields of
    the embedded [StandardClaims] under their tags, empty ones left out. *)
Definition claims_members (c : SignedDetails) : list (string * jv) :=
  let sc := StandardClaims c in
  ([("Email", JS (Email c)); ("First_name", JS (First_name c));
    ("Last_name", JS (Last_name c)); ("Uid", JS (Uid c))]
   ++ opt_string "aud" (jwt.Audience sc)
   ++ opt_int "exp" (jwt.ExpiresAt sc)
   ++ opt_string "jti" (jwt.Id sc)
   ++ opt_int "iat" (jwt.IssuedAt sc)
   ++ opt_string "iss" (jwt.Issuer sc)
   ++ opt_int "nbf" (jwt.NotBefore sc)
   ++ opt_string "sub" (jwt.Subject sc))%list.

Definition json_Marshal_claims (c : SignedDetails) : res string :=
  Ok (render_object (claims_members c)).

Definition type_error (field : string) : error :=
  "json: cannot unmarshal into Go struct field SignedDetails." +:+ field.

(** Store one member into the struct; a member of the wrong type leaves
    the field as it is and the first such error is kept; an unknown
    member is skipped. *)
Definition set_member (acc : SignedDetails * option error) (m : string * jv)
  : SignedDetails * option error :=
  let '(c, err) := acc in
  let '(mkSignedDetails e f l u sc) := c in
  let '(jwt.mkStandardClaims aud exp jti iat iss nbf sub) := sc in
  let k := m.1 in
  let bad := (c, match err with Some _ => err | None => Some (type_error k) end) in
  let is_string_field :=
    existsb (String.eqb k) ["Email"; "First_name"; "Last_name"; "Uid"; "aud"; "jti"; "iss"; "sub"] in
  let is_int_field := existsb (String.eqb k) ["exp"; "iat"; "nbf"] in
  match m.2 with
  | JS s =>
      if (k =? "Email")%string then (mkSignedDetails s f l u sc, err)
      else if (k =? "First_name")%string then (mkSignedDetails e s l u sc, err)
      else if (k =? "Last_name")%string then (mkSignedDetails e f s u sc, err)
      else if (k =? "Uid")%string then (mkSignedDetails e f l s sc, err)
      else if (k =? "aud")%string
      then (mkSignedDetails e f l u (jwt.mkStandardClaims s exp jti iat iss nbf sub), err)
      else if (k =? "jti")%string
      then (mkSignedDetails e f l u (jwt.mkStandardClaims aud exp s iat iss nbf sub), err)
      else if (k =? "iss")%string
      then (mkSignedDetails e f l u (jwt.mkStandardClaims aud exp jti iat s nbf sub), err)
      else if (k =? "sub")%string
      then (mkSignedDetails e f l u (jwt.mkStandardClaims aud exp jti iat iss nbf s), err)
      else if is_int_field then bad else acc
  | JN z =>
      if (k =? "exp")%string
      then (mkSignedDetails e f l u (jwt.mkStandardClaims aud z jti iat iss nbf sub), err)
      else if (k =? "iat")%string
      then (mkSignedDetails e f l u (jwt.mkStandardClaims aud exp jti z iss nbf sub), err)
      else if (k =? "nbf")%string
      then (mkSignedDetails e f l u (jwt.mkStandardClaims aud exp jti iat iss z sub), err)
      else if is_string_field then bad else acc
  end.

Definition json_Decode_claims (b : string) (c : SignedDetails)
  : SignedDetails * option error :=
  match parse_object b with
  | Some l => foldl set_member (c, None) l
  | None => (c, Some syntax_error)
  end.

(** *** The rest of the interface *)

(** [time.Duration.String] for a whole number of seconds. *)
Definition fmt_Duration (d : Z) : string :=
  if (d =? 0)%Z then "0s"
  else
    let a := Z.abs d in
    let h := a / 3600 in
    let m := (a mod 3600) / 60 in
    let s := a mod 60 in
    (if (d <? 0)%Z then "-" else "")
    +:+ (if (0 <? h)%Z then decimal h +:+ "h" +:+ decimal m +:+ "m"
         else if (0 <? m)%Z then decimal m +:+ "m" else "")
    +:+ decimal s +:+ "s".

(** The asymmetric methods, which refuse a byte-slice key. *)
Definition key_refusing (alg : string) : jwt.SigningMethod := {|
  jwt.Alg := alg;
  jwt.Sign _ _ := Err jwt.ErrInvalidKeyType;
  jwt.Verify _ _ _ := Some jwt.ErrInvalidKeyType;
|}.

(** The methods registered besides HS256 (HS384 and HS512 are left out). *)
Definition registered (alg : string) : option jwt.SigningMethod :=
  if existsb (String.eqb alg)
       ["RS256"; "RS384"; "RS512"; "PS256"; "PS384"; "PS512"; "ES256"; "ES384"; "ES512"]
  then Some (key_refusing alg)
  else None.

Global Instance primitives : jwt.Primitives SignedDetails := {|
  jwt.EncodeSegment := EncodeSegment;
  jwt.DecodeSegment := DecodeSegment;
  jwt.json_Marshal_header := json_Marshal_header;
  jwt.json_Unmarshal_header := json_Unmarshal_header;
  jwt.json_Marshal_claims := json_Marshal_claims;
  jwt.json_Decode_claims := json_Decode_claims;
  jwt.hmac_sha256 := hmac_sha256;
  jwt.sha256_Available := true;
  jwt.registered := registered;
  jwt.fmt_Duration := fmt_Duration;
|}.

(** A server: its key, the clock at 2023-11-14 22:13:20 UTC, an empty
    collection, a database that answers. *)
Definition world : World := mkWorld "secret" 1700000000 [] None.

(** The access token and the refresh token [world] issues to Ann Lee. *)
Definition ann : SignedDetails :=
  mkSignedDetails "a@b.c" "Ann" "Lee" "u1" (jwt.StandardClaims_exp 1700086400).

Definition ann_signing_string : string :=
  "eyJhbGciOiJIUzI1NiIsInR5cCI6IkpXVCJ9"
  +:+ ".eyJFbWFpbCI6ImFAYi5jIiwiRmlyc3RfbmFtZSI6IkFubiIsIkxhc3RfbmFtZSI6IkxlZSIsIlVpZCI6InUxIiwiZXhwIjoxNzAwMDg2NDAwfQ".

Definition ann_token : string :=
  ann_signing_string +:+ ".289q-maVi5FfJlgMFasKmMMbPqyqRhkax4OO5j1fCm0".

Definition ann_refresh_token : string :=
  "eyJhbGciOiJIUzI1NiIsInR5cCI6IkpXVCJ9"
  +:+ ".eyJFbWFpbCI6IiIsIkZpcnN0X25hbWUiOiIiLCJMYXN0X25hbWUiOiIiLCJVaWQiOiIiLCJleHAiOjE3MDA2MDQ4MDB9"
  +:+ ".-DorXVMUyZq4oo396Kkw5JpXv7ZXv0cb2cOJzZxN7xY".

(** The same server at another time. *)
Definition world_at (now : Z) : World := mkWorld "secret" now [] None.

(** A request carrying [tok] in its [token] header, nothing else. *)
Definition request (tok : string) : gin.Context :=
  gin.mkContext {["Token" := [tok]]} ∅ [] (-1).

(** A request without that header. *)
Definition bare_request : gin.Context :=
  gin.mkContext {["Accept" := ["*/*"]]} ∅ [] (-1).

(** A downstream handler that answers 200. *)
Definition handler : gin.HandlerFunc := λ _ c,
  mret (gin.JSON 200 {["ok" := "yes"]} c).

(** A middleware that only passes on, as a logger does. *)
Definition logger : gin.HandlerFunc := λ next c, next c.

(** The chain of a protected route. *)
Definition chain : list gin.HandlerFunc := [logger; Authentication; handler].

(** The same primitives in a binary into which [crypto/sha256] is not
    linked: [crypto.SHA256.Available()] is false there, the one way
    [SigningMethodHMAC.Sign] fails for a key that is a byte slice. *)
Definition unlinked : jwt.Primitives SignedDetails := {|
  jwt.EncodeSegment := EncodeSegment;
  jwt.DecodeSegment := DecodeSegment;
  jwt.json_Marshal_header := json_Marshal_header;
  jwt.json_Unmarshal_header := json_Unmarshal_header;
  jwt.json_Marshal_claims := json_Marshal_claims;
  jwt.json_Decode_claims := json_Decode_claims;
  jwt.hmac_sha256 := hmac_sha256;
  jwt.sha256_Available := false;
  jwt.registered := registered;
  jwt.fmt_Duration := fmt_Duration;
|}.

End reference.

(** ** Package [path] *)

Module path.

(** The elements of a path: what lies between its slashes. *)
Fixpoint elements (p : string) : list string :=
  match p with
  | EmptyString => [EmptyString]
  | String c r =>
      if Ascii.eqb c "/"
      then EmptyString :: elements r
      else match elements r with
           | x :: xs => String c x :: xs
           | [] => [String c EmptyString]
           end
  end.

(** The elements kept so far, the last one first, after the element [e]:
    an empty element and [.] are dropped, [..] removes the element before
    it, is dropped at the root, and is kept at the start of a path that
    is not rooted. *)
Definition step (rooted : bool) (out : list string) (e : string) : list string :=
  if decide (e = "") then out
  else if decide (e = ".") then out
  else if decide (e = "..") then
    match out with
    | top :: rest => if decide (top = "..") then e :: out else rest
    | [] => if rooted then [] else [e]
    end
  else e :: out.

Fixpoint join (elems : list string) : string :=
  match elems with
  | [] => ""
  | [x] => x
  | x :: rest => x +:+ "/" +:+ join rest
  end.

(** [path.Clean(p)] *)
Definition Clean (p : string) : string :=
  if decide (p = "") then "."
  else
    let rooted := String.prefix "/" p in
    let out := join (rev (foldl (step rooted) [] (elements p))) in
    if rooted then "/" +:+ out
    else if decide (out = "") then "." else out.

(** [path.Join(a, b)]: empty elements are ignored, the rest is joined
    with a slash and cleaned. *)
Definition Join (a b : string) : string :=
  if decide (a = "") then (if decide (b = "") then "" else Clean b)
  else if decide (b = "") then Clean a
  else Clean (a +:+ "/" +:+ b).

End path.

(** ** Package [gin]: the engine and the registration of routes *)

Module engine.

(** A route: the method, the path and the chain that serves it. *)
Definition Route : Type := string * string * list gin.HandlerFunc.

(** [*gin.Engine] as registration sees it: the middleware of the root
    group, the routes in the order they were added, and the chain run for
    a request that matches none. *)
Record Engine : Type := mkEngine {
  Handlers : list gin.HandlerFunc;
  trees : list Route;
  allNoRoute : list gin.HandlerFunc;
}.

(** [gin.New()] *)
Definition New : Engine := mkEngine [] [] [].

(** [func (group *RouterGroup) combineHandlers(handlers)] *)
Definition combineHandlers (group : Engine) (handlers : list gin.HandlerFunc)
  : M (list gin.HandlerFunc) :=
  let finalSize := (length (Handlers group) + length handlers)%nat in
  if (gin.abortIndex <=? Z.of_nat finalSize)%Z
  then panic "too many handlers"
  else mret (Handlers group ++ handlers)%list.

(** [func (engine *Engine) Use(middleware ...HandlerFunc)]: the group's
    middleware grows, and the chain of unmatched requests is rebuilt from
    it ([noRoute] is empty in this program). *)
Definition Use (middleware : list gin.HandlerFunc) (engine : Engine) : M Engine :=
  let engine := mkEngine (Handlers engine ++ middleware)%list (trees engine)
                  (allNoRoute engine) in
  allNoRoute ← combineHandlers engine [];
  mret (mkEngine (Handlers engine) (trees engine) allNoRoute).

(** What [node.addRoute] of the route tree refuses besides a path that
    has handlers already: a wildcard that conflicts with the paths of the
    tree, a wildcard without a name, two wildcards in one segment, a
    catch-all that is not at the end.  Given the paths the tree of the
    method holds, in the order they were added, and the new path: the
    value it panics with, if it does.  The tree belongs to gin, and its
    rules differ between releases. *)
Class Tree : Type := conflict : list string → string → option string.

(** [lastChar(str)], for a string that is not empty. *)
Fixpoint lastChar (str : string) : option ascii :=
  match str with
  | EmptyString => None
  | String c EmptyString => Some c
  | String _ r => lastChar r
  end.

(** [joinPaths(absolutePath, relativePath)] *)
Definition joinPaths (absolutePath relativePath : string) : string :=
  if decide (relativePath = "") then absolutePath
  else
    let finalPath := path.Join absolutePath relativePath in
    if bool_decide (lastChar relativePath = Some "/"%char)
       && negb (bool_decide (lastChar finalPath = Some "/"%char))
    then finalPath +:+ "/"
    else finalPath.

(** [func (group *RouterGroup) calculateAbsolutePath(relativePath)] on
    the root group, whose base path [gin.New()] sets to "/". *)
Definition basePath : string := "/".
Definition calculateAbsolutePath (relativePath : string) : string :=
  joinPaths basePath relativePath.

(** The paths of the tree of [method]. *)
Definition paths_of (method : string) (routes : list Route) : list string :=
  (λ r : Route, r.1.2) <$> List.filter (λ r : Route, String.eqb r.1.1 method) routes.

(** [func (engine *Engine) addRoute(method, path, handlers)]: the three
    assertions, then the insertion into the tree of the method, which
    refuses a path that has handlers already and what [conflict] says. *)
Definition addRoute `{!Tree} (method path : string) (handlers : list gin.HandlerFunc)
    (engine : Engine) : M Engine :=
  if decide (path = "") then panic "runtime error: index out of range [0] with length 0"
  else if negb (String.prefix "/" path) then panic "path must begin with '/'"
  else if decide (method = "") then panic "HTTP method can not be empty"
  else if decide (handlers = []) then panic "there must be at least one handler"
  else if existsb (λ r : Route, String.eqb r.1.1 method && String.eqb r.1.2 path)
            (trees engine)
  then panic ("handlers are already registered for path '" +:+ path +:+ "'")
  else
    match conflict (paths_of method (trees engine)) path with
    | Some v => panic v
    | None =>
        mret (mkEngine (Handlers engine) (trees engine ++ [(method, path, handlers)])%list
                (allNoRoute engine))
    end.

(** [func (group *RouterGroup) handle(httpMethod, relativePath, handlers)]
    on the root group. *)
Definition handle `{!Tree} (httpMethod relativePath : string)
    (handlers : list gin.HandlerFunc) (engine : Engine) : M Engine :=
  let absolutePath := calculateAbsolutePath relativePath in
  handlers ← combineHandlers engine handlers;
  addRoute httpMethod absolutePath handlers engine.

Definition GET `{!Tree} (relativePath : string) (handlers : list gin.HandlerFunc)
    (engine : Engine) : M Engine := handle "GET" relativePath handlers engine.
Definition POST `{!Tree} (relativePath : string) (handlers : list gin.HandlerFunc)
    (engine : Engine) : M Engine := handle "POST" relativePath handlers engine.

(** [gin.Logger()]: it calls [c.Next()] and then writes a line to the
    log, which is outside the model. *)
Definition Logger : gin.HandlerFunc := λ next c, next c.

(** [c.Writer.Written()] *)
Definition Written (c : gin.Context) : bool := bool_decide (gin.Writer c ≠ []).

Definition default404Body : string := "404 page not found".

(** [serveError(c, code, defaultMessage)] after [c.handlers] has been set
    to [handlers]: the chain runs, and the plain-text page is written
    only when the chain wrote nothing.  The page, if written, is the
    second component. *)
Definition serveError (fuel : nat) (handlers : list gin.HandlerFunc) (code : Z)
    (defaultMessage : string) (c : gin.Context) : M (gin.Context * option (Z * string)) :=
  c ← gin.handleHTTPRequest fuel handlers c;
  if Written c then mret (c, None) else mret (c, Some (code, defaultMessage)).

End engine.

(** ** Package [routes] and [main] *)

Section program.
Context `{!jwt.Primitives SignedDetails, !engine.Tree}.

(** The handlers of the controller package, [controller.GetUsers()] and
    so on. *)
Variables GetUsers GetUser SignUp Login : gin.HandlerFunc.

(** [func UserRoutes(incomingRoutes *gin.Engine)] *)
Definition UserRoutes (incomingRoutes : engine.Engine) : M engine.Engine :=
  incomingRoutes ← engine.GET "/users" [GetUsers] incomingRoutes;
  incomingRoutes ← engine.GET "/users/:user_id" [GetUser] incomingRoutes;
  incomingRoutes ← engine.POST "/users/signup" [SignUp] incomingRoutes;
  engine.POST "/users/login" [Login] incomingRoutes.

(** The routes a function such as [FoodRoutes] adds, one call of
    [incomingRoutes.GET], [.POST] and the like for each. *)
Fixpoint register (routes : list engine.Route) (router : engine.Engine) : M engine.Engine :=
  match routes with
  | [] => mret router
  | (method, path, handlers) :: routes =>
      router ← engine.handle method path handlers router;
      register routes router
  end.

(** [func main()] up to [router.Run]: the router it serves.  [protected]
    lists the routes of the six registrations that follow the gate
    (FoodRoutes to InvoiceRoutes), each with the handlers it is given. *)
Definition main_router (protected : list engine.Route) : M engine.Engine :=
  let router := engine.New in
  router ← engine.Use [engine.Logger] router;
  router ← UserRoutes router;
  router ← engine.Use [Authentication] router;
  register protected router.
End program.

(** ** Package [models]: the user document *)

Module models.

(** [type User struct].  A [*string] is an [option string], nil being
    [None]; [ID] holds the 12 bytes of the ObjectID; the two instants are
    Unix seconds. *)
Record User : Type := mkUser {
  ID : string;
  First_name : option string;
  Last_name : option string;
  Password : option string;
  Email : option string;
  Avatar : option string;
  Phone : option string;
  Token : option string;
  Refresh_Token : option string;
  Created_at : Z;
  Updated_at : Z;
  User_id : string;
}.

(** [primitive.NilObjectID] and the zero [time.Time] (year 1). *)
Definition NilObjectID : string := string_of_list_ascii (replicate 12 (ascii_of_nat 0)).
Definition zero_time : Z := -62135596800.

(** [var user models.User] *)
Definition User_zero : User :=
  mkUser NilObjectID None None None None None None None None zero_time zero_time "".

End models.

(** ** The "user" collection as the controller uses it *)

Module driver.

(** A filter [bson.M{k: p}] whose value is a [*string]: a nil pointer is
    written as BSON null, which matches the documents without the field.
    Documents hold no explicit null: a field that is null is absent. *)
Definition matches (filter : list (string * option bson)) (d : Document) : bool :=
  forallb (λ kv, bool_decide (d !! kv.1 = kv.2)) filter.

Definition pointer (p : option string) : option bson := BString <$> p.

(** A pointer field of the struct as a field of the document. *)
Definition set_pointer (k : string) (p : option string) (d : Document) : Document :=
  match p with
  | Some s => <[k := BString s]> d
  | None => d
  end.

(** The document the driver writes for a [models.User]: [ID] under its
    tag [_id], every other field under its name in lower case.  The
    ObjectID is kept as the string of its bytes. *)
Definition Marshal (u : models.User) : Document :=
  <["user_id" := BString (models.User_id u)]>
    (<["updated_at" := BDateTime (models.Updated_at u)]>
       (<["created_at" := BDateTime (models.Created_at u)]>
          (set_pointer "refresh_token" (models.Refresh_Token u)
             (set_pointer "token" (models.Token u)
                (set_pointer "phone" (models.Phone u)
                   (set_pointer "avatar" (models.Avatar u)
                      (set_pointer "email" (models.Email u)
                         (set_pointer "password" (models.Password u)
                            (set_pointer "last_name" (models.Last_name u)
                               (set_pointer "first_name" (models.First_name u)
                                  {["_id" := BString (models.ID u)]})))))))))).

Definition decode_error (k : string) : error :=
  "error decoding key " +:+ k.

(** Reading one field into a string, a pointer or an instant; a field
    the document lacks leaves the zero value. *)
Definition string_field (d : Document) (k : string) (zero : string) : res string :=
  match d !! k with
  | None => Ok zero
  | Some (BString s) => Ok s
  | Some (BDateTime _) => Err (decode_error k)
  end.
Definition pointer_field (d : Document) (k : string) : res (option string) :=
  match d !! k with
  | None => Ok None
  | Some (BString s) => Ok (Some s)
  | Some (BDateTime _) => Err (decode_error k)
  end.
Definition time_field (d : Document) (k : string) : res Z :=
  match d !! k with
  | None => Ok models.zero_time
  | Some (BDateTime t) => Ok t
  | Some (BString _) => Err (decode_error k)
  end.

Definition and_then {A B : Type} (r : res A) (f : A → res B) : res B :=
  match r with
  | Ok a => f a
  | Err e => Err e
  end.

(** [SingleResult.Decode(&user)] into a zero [models.User].  A field of
    the wrong kind is an error; its text is never shown by the callers. *)
Definition Unmarshal (d : Document) : res models.User :=
  and_then (string_field d "_id" models.NilObjectID) (λ id,
  and_then (pointer_field d "first_name") (λ first_name,
  and_then (pointer_field d "last_name") (λ last_name,
  and_then (pointer_field d "password") (λ password,
  and_then (pointer_field d "email") (λ email,
  and_then (pointer_field d "avatar") (λ avatar,
  and_then (pointer_field d "phone") (λ phone,
  and_then (pointer_field d "token") (λ token,
  and_then (pointer_field d "refresh_token") (λ refresh_token,
  and_then (time_field d "created_at") (λ created_at,
  and_then (time_field d "updated_at") (λ updated_at,
  and_then (string_field d "user_id" "") (λ user_id,
  Ok (models.mkUser id first_name last_name password email avatar phone
        token refresh_token created_at updated_at user_id))))))))))))).

Definition ErrNoDocuments : error := "mongo: no documents in result".

(** [userCollection.CountDocuments(ctx, filter)] *)
Definition CountDocuments (filter : list (string * option bson)) : M (res Z) :=
  fault ← gets db_fault;
  match fault with
  | Some err => mret (Err err)
  | None =>
      docs ← gets userCollection;
      mret (Ok (Z.of_nat (length (List.filter (matches filter) docs))))
  end.

(** [userCollection.FindOne(ctx, filter).Decode(&user)]: the first match
    in the order of insertion. *)
Definition FindOne_Decode (filter : list (string * option bson)) : M (res models.User) :=
  fault ← gets db_fault;
  match fault with
  | Some err => mret (Err err)
  | None =>
      docs ← gets userCollection;
      match List.find (matches filter) docs with
      | Some d => mret (Unmarshal d)
      | None => mret (Err ErrNoDocuments)
      end
  end.

(** [userCollection.InsertOne(ctx, user)]: the inserted [_id], or the
    error of the driver; an [_id] already in the collection is refused. *)
Definition InsertOne (u : models.User) : M (res string) :=
  fault ← gets db_fault;
  match fault with
  | Some err => mret (Err err)
  | None =>
      docs ← gets userCollection;
      if existsb (λ d, bool_decide (d !! "_id" = Some (BString (models.ID u)))) docs
      then mret (Err "E11000 duplicate key error")
      else
        modify (λ w, mkWorld (SECRET_KEY w) (clock w)
                       (userCollection w ++ [Marshal u])%list (db_fault w));;
        mret (Ok (models.ID u))
  end.

End driver.

(** ** Package [strconv] *)

Module strconv.

Definition ErrSyntax : error := "invalid syntax".
Definition ErrRange : error := "value out of range".

Fixpoint all_digits (s : string) : bool :=
  match s with
  | EmptyString => true
  | String c r => http.is_digit c && all_digits r
  end.

(** The value of a string of decimal digits. *)
Fixpoint digits_value (acc : Z) (s : string) : Z :=
  match s with
  | EmptyString => acc
  | String c r => digits_value (10 * acc + (Z.of_nat (nat_of_ascii c) - 48)) r
  end.

(** [strconv.Atoi(s)] for a 64-bit [int]: an optional sign and decimal
    digits.  On a syntax error the value is 0; out of range it is the
    nearest bound.  The error is given by its cause, without the quoted
    input. *)
Definition Atoi (s : string) : Z * option error :=
  let '(neg, digits) :=
    match s with
    | String "-" r => (true, r)
    | String "+" r => (false, r)
    | _ => (false, s)
    end in
  if decide (digits = "") then (0, Some ErrSyntax)
  else if negb (all_digits digits) then (0, Some ErrSyntax)
  else
    let un := digits_value 0 digits in
    if negb neg && (2 ^ 63 <=? un) then (2 ^ 63 - 1, Some ErrRange)
    else if neg && (2 ^ 63 <? un) then (- 2 ^ 63, Some ErrRange)
    else (if neg then - un else un, None).

End strconv.

(** ** Package [controller] *)

Module controller.

(** What a handler passes to [c.JSON]: [gin.H{"error": msg}], a user,
    the result of an insertion, or a row of an aggregation (a [bson.M],
    kept as the JSON text written for it). *)
Inductive Body : Type :=
| ErrorBody (msg : string)
| UserBody (u : models.User)
| InsertedBody (InsertedID : string)
| RowBody (row : string).

Record Reply : Type := mkReply {
  code : Z;
  body : Body;
}.

(** [*gin.Context] as the controller uses it: the request body, the
    parameters of the route, the first value of each query parameter, and
    the calls of [c.JSON] so far. *)
Record Context : Type := mkContext {
  Request_Body : string;
  Params : gmap string string;
  Request_Query : gmap string string;
  Writer : list Reply;
}.

(** [c.JSON(code, obj)] *)
Definition JSON (code : Z) (obj : Body) (c : Context) : Context :=
  mkContext (Request_Body c) (Params c) (Request_Query c)
    (Writer c ++ [mkReply code obj])%list.

(** [c.Param(key)] and [c.Query(key)]: the empty string when absent. *)
Definition Param (c : Context) (key : string) : string := default "" (Params c !! key).
Definition Query (c : Context) (key : string) : string :=
  default "" (Request_Query c !! key).

Definition StatusOK : Z := 200.
Definition StatusBadRequest : Z := 400.

(** What the controller delegates to other packages. *)
Class Primitives : Type := {
  (** [c.BindJSON(&user)] on a zero user: the decoded body, or the error *)
  BindJSON : string → res models.User;
  (** [validate.Struct(user)] *)
  validate_Struct : models.User → option error;
  (** [bcrypt.GenerateFromPassword(password, cost)]; the salt it draws is
      read off the process state *)
  bcrypt_GenerateFromPassword : World → string → Z → res string;
  (** [bcrypt.CompareHashAndPassword(hashedPassword, password)] *)
  bcrypt_CompareHashAndPassword : string → string → option error;
  (** [primitive.NewObjectID()], read off the process state, and
      [ObjectID.Hex()] *)
  NewObjectID : World → string;
  Hex : string → string;
  (** [userCollection.Aggregate(ctx, pipeline)] for the pipeline of
      GetUsers, whose only variable parts are the two arguments of
      [$slice]: the error of the call, or else what [cursor.All] gives,
      an error or the rows *)
  Aggregate : World → Z → Z → res (res (list string));
}.

(** [*p] *)
Definition deref {A : Type} (p : option A) : M A :=
  match p with
  | Some a => mret a
  | None => panic nil_dereference
  end.

Section handlers.
Context `{!jwt.Primitives SignedDetails, !Primitives}.

(** [func HashPassword(password string) string] *)
Definition HashPassword (password : string) : M string :=
  r ← gets (λ w, bcrypt_GenerateFromPassword w password 14);
  match r with
  | Err err => panic err
  | Ok bytes => mret bytes
  end.

(** [func VerifyPassword(userPassword, providedPassword string) (bool, string)] *)
Definition VerifyPassword (userPassword providedPassword : string) : bool * string :=
  let err := bcrypt_CompareHashAndPassword providedPassword userPassword in
  let check := true in
  let msg := "" in
  match err with
  | Some _ => (false, "login or password is incorrect")
  | None => (check, msg)
  end.

(** [func GetUsers() gin.HandlerFunc], the returned handler.  The
    product assigned to [startIndex] is overwritten before it is read (in
    Go it wraps around at 64 bits).  After an error of [Aggregate] the
    handler goes on to [result.All] with a nil cursor.  [log.Fatal] ends
    the process: the handler then yields the error instead of a context. *)
Definition GetUsers (c : Context) : M (Context + error) :=
  let '(recordPerPage, err) := strconv.Atoi (Query c "recordPerPage") in
  let recordPerPage :=
    if bool_decide (err ≠ None) || (recordPerPage <? 1) then 10 else recordPerPage in
  let '(page, err1) := strconv.Atoi (Query c "page") in
  let page := if bool_decide (err1 ≠ None) || (page <? 1) then 1 else page in
  let startIndex := (page - 1) * recordPerPage in
  let '(startIndex, err) := strconv.Atoi (Query c "startIndex") in
  result ← gets (λ w, Aggregate w startIndex recordPerPage);
  match result with
  | Err _ =>
      let c := JSON http.StatusInternalServerError
                 (ErrorBody "error occured while listing user items") c in
      panic nil_dereference
  | Ok (Err err) => mret (inr err)
  | Ok (Ok allUsers) =>
      match allUsers with
      | [] => panic "runtime error: index out of range [0] with length 0"
      | row :: _ => mret (inl (JSON StatusOK (RowBody row) c))
      end
  end.

(** [func GetUser() gin.HandlerFunc], the returned handler.  The error
    branch does not return; the user then written is the zero user (of a
    document that fails to decode, Go keeps the fields read before the
    failure, which depend on the order of the document: they are not
    kept here). *)
Definition GetUser (c : Context) : M Context :=
  let userId := Param c "user_id" in
  r ← driver.FindOne_Decode [("user_id", Some (BString userId))];
  let '(user, c) :=
    match r with
    | Err _ =>
        (models.User_zero,
         JSON http.StatusInternalServerError
           (ErrorBody "error occured while listing user items") c)
    | Ok user => (user, c)
    end in
  mret (JSON StatusOK (UserBody user) c).

(** [func SignUp() gin.HandlerFunc], the returned handler.  The second
    [count, err =] assigns the variables of the first.  On a body it
    cannot bind, [c.BindJSON] sets the status 400 itself before the
    handler calls [c.JSON] with the same status. *)
Definition SignUp (c : Context) : M Context :=
  match BindJSON (Request_Body c) with
  | Err err => mret (JSON StatusBadRequest (ErrorBody err) c)
  | Ok user =>
      match validate_Struct user with
      | Some validationErr => mret (JSON StatusBadRequest (ErrorBody validationErr) c)
      | None =>
          r ← driver.CountDocuments [("email", driver.pointer (models.Email user))];
          match r with
          | Err err => panic err
          | Ok count =>
              password ← deref (models.Password user);
              password ← HashPassword password;
              r ← driver.CountDocuments [("phone", driver.pointer (models.Phone user))];
              match r with
              | Err err => panic err
              | Ok count =>
                  if (0 <? count)%Z
                  then mret (JSON http.StatusInternalServerError
                               (ErrorBody "this email or phone number already exsits") c)
                  else
                    Created_at ← time_Now;
                    Updated_at ← time_Now;
                    ID ← gets NewObjectID;
                    let User_id := Hex ID in
                    email ← deref (models.Email user);
                    first_name ← deref (models.First_name user);
                    last_name ← deref (models.Last_name user);
                    '(token, refreshToken, _) ←
                      GenerateAllTokens email first_name last_name User_id;
                    let user :=
                      models.mkUser ID (models.First_name user) (models.Last_name user)
                        (Some password) (models.Email user) (models.Avatar user)
                        (models.Phone user) (Some token) (Some refreshToken)
                        Created_at Updated_at User_id in
                    r ← driver.InsertOne user;
                    match r with
                    | Err _ =>
                        mret (JSON http.StatusInternalServerError
                                (ErrorBody "User item was not created") c)
                    | Ok resultInsertionNumber =>
                        mret (JSON StatusOK (InsertedBody resultInsertionNumber) c)
                    end
              end
          end
      end
  end.

(** [func Login() gin.HandlerFunc], the returned handler. *)
Definition Login (c : Context) : M Context :=
  match BindJSON (Request_Body c) with
  | Err err => mret (JSON StatusBadRequest (ErrorBody err) c)
  | Ok user =>
      r ← driver.FindOne_Decode [("email", driver.pointer (models.Email user))];
      match r with
      | Err _ =>
          mret (JSON http.StatusInternalServerError
                  (ErrorBody "user not found, login seems to be incorrect") c)
      | Ok foundUser =>
          userPassword ← deref (models.Password user);
          providedPassword ← deref (models.Password foundUser);
          let '(passwordIsValid, msg) := VerifyPassword userPassword providedPassword in
          if negb passwordIsValid
          then mret (JSON http.StatusInternalServerError (ErrorBody msg) c)
          else
            email ← deref (models.Email foundUser);
            first_name ← deref (models.First_name foundUser);
            last_name ← deref (models.Last_name foundUser);
            '(token, refreshToken, _) ←
              GenerateAllTokens email first_name last_name (models.User_id foundUser);
            UpdateAllTokens token refreshToken (models.User_id foundUser);;
            mret (JSON StatusOK (UserBody foundUser) c)
      end
  end.
End handlers.

End controller.

(** ** Error texts *)

Section worded.
Context `{!jwt.Primitives SignedDetails}.

(** Every error the codecs and the registered signing methods report has
    a text, as the errors of [encoding/base64], [encoding/json] and of the
    library's signing methods do. *)
Record Worded : Prop := {
  DecodeSegment_worded : ∀ seg e, jwt.DecodeSegment seg = Err e → e ≠ "";
  Unmarshal_header_worded : ∀ b e, jwt.json_Unmarshal_header b = Err e → e ≠ "";
  Decode_claims_worded :
    ∀ b c c' e, jwt.json_Decode_claims b c = (c', Some e) → e ≠ "";
  Verify_worded :
    ∀ alg m signingString signature key e,
      jwt.registered alg = Some m →
      jwt.Verify m signingString signature key = Some e → e ≠ "";
}.

(** [json.Marshal] cannot fail on what a token is made of: the header, a
    map of two strings, and a [SignedDetails], a struct of strings and
    integers. *)
Record Marshals : Prop := {
  header_marshals : ∃ hb, jwt.json_Marshal_header HS256_header = Ok hb;
  claims_marshal : ∀ c : SignedDetails, ∃ cb, jwt.json_Marshal_claims c = Ok cb;
}.
End worded.

(** The context the gate hands on: the four identity keys set from the
    claims. *)
Definition identified (claims : SignedDetails) (c : gin.Context) : gin.Context :=
  gin.Set_ "uid" (Uid claims)
    (gin.Set_ "last_name" (Last_name claims)
       (gin.Set_ "first_name" (First_name claims)
          (gin.Set_ "email" (Email claims) c))).

Section controller_laws.
Context `{!controller.Primitives}.

(** What bcrypt hashes, it recognises. *)
Definition bcrypt_sound : Prop :=
  ∀ w password hash,
    controller.bcrypt_GenerateFromPassword w password 14 = Ok hash →
    controller.bcrypt_CompareHashAndPassword hash password = None.

(** The user SignUp stores for the bound body [user]. *)
Definition registered_user (user : models.User) (w : World) (hash token refreshToken : string)
  : models.User :=
  models.mkUser (controller.NewObjectID w)
    (models.First_name user) (models.Last_name user) (Some hash)
    (models.Email user) (models.Avatar user) (models.Phone user)
    (Some token) (Some refreshToken) (clock w) (clock w)
    (controller.Hex (controller.NewObjectID w)).

(** The process state with another collection. *)
Definition with_collection (w : World) (docs : list Document) : World :=
  mkWorld (SECRET_KEY w) (clock w) docs (db_fault w).
End controller_laws.

(** ** Stand-ins for what the controller delegates, for the runs

    A binder for flat JSON objects with string members, the checks of the
    [validate] tags of [models.User] one field at a time, a keyed digest in
    the place of bcrypt, ObjectIDs made of the clock and a counter, and a
    route tree that compares routes segment by segment. *)

Module stand_in.

Definition member (l : list (string * reference.jv)) (k : string) : option string :=
  match List.find (λ m : string * reference.jv, String.eqb m.1 k) l with
  | Some (_, reference.JS s) => Some s
  | _ => None
  end.

Definition BindJSON (body : string) : res models.User :=
  match reference.parse_object body with
  | None => Err reference.syntax_error
  | Some l =>
      Ok (models.mkUser models.NilObjectID
            (member l "first_name") (member l "last_name") (member l "Password")
            (member l "email") (member l "avatar") (member l "phone")
            (member l "token") (member l "refresh_token")
            models.zero_time models.zero_time (default "" (member l "user_id")))
  end.

Definition failed (field tag : string) : error :=
  "Key: 'User." +:+ field +:+ "' Error:Field validation for '" +:+ field
  +:+ "' failed on the '" +:+ tag +:+ "' tag".

(** [required], [min] and [max] on a pointer to a string. *)
Definition check (field : string) (p : option string) (min : nat) (max : option nat)
  : option error :=
  match p with
  | None => Some (failed field "required")
  | Some s =>
      if (String.length s <? min)%nat then Some (failed field "min")
      else match max with
           | Some max => if (max <? String.length s)%nat then Some (failed field "max") else None
           | None => None
           end
  end.

Fixpoint has_at (s : string) : bool :=
  match s with
  | EmptyString => false
  | String c r => Ascii.eqb c "@" || has_at r
  end.

Definition validate_Struct (u : models.User) : option error :=
  match check "First_name" (models.First_name u) 2 (Some 100%nat) with
  | Some e => Some e
  | None =>
  match check "Last_name" (models.Last_name u) 2 (Some 100%nat) with
  | Some e => Some e
  | None =>
  match check "Password" (models.Password u) 6 None with
  | Some e => Some e
  | None =>
  match models.Email u with
  | None => Some (failed "Email" "required")
  | Some s =>
      if negb (has_at s) then Some (failed "Email" "email")
      else check "Phone" (models.Phone u) 0 None
  end end end end.

Definition digest (password : string) : string :=
  "$2a$14$" +:+ reference.hex_digits
                  (reference.bytes_of_string (reference.hmac_sha256 "bcrypt" password)).

Definition bcrypt_GenerateFromPassword (w : World) (password : string) (cost : Z)
  : res string :=
  if (72 <? String.length password)%nat
  then Err "bcrypt: password length exceeds 72 bytes"
  else Ok (digest password).

Definition bcrypt_CompareHashAndPassword (hashedPassword password : string) : option error :=
  if String.eqb hashedPassword (digest password) then None
  else Some "crypto/bcrypt: hashedPassword is not the hash of the given password".

(** Four bytes of clock, five of zeros, three of counter. *)
Definition NewObjectID (w : World) : string :=
  reference.string_of_bytes
    (reference.be_bytes 4 (Z.to_N (clock w)) ++ replicate 5 0%N
     ++ reference.be_bytes 3 (N.of_nat (length (userCollection w))))%list.

Definition Hex (id : string) : string :=
  reference.hex_digits (reference.bytes_of_string id).

(** One row per document; the pipeline projects a field no document
    has. *)
Definition Aggregate (w : World) (startIndex recordPerPage : Z) : res (res (list string)) :=
  match db_fault w with
  | Some err => Err err
  | None =>
      Ok (Ok ((λ _, "{" +:+ reference.quote "user_items" +:+ ":null}") <$> userCollection w))
  end.

(** The segments of a route, and whether one is a wildcard. *)
Definition wildcard (segment : string) : bool :=
  String.prefix ":" segment || String.prefix "*" segment.

(** Two routes part at a wildcard: at the first segment where they
    differ, one of the two is a parameter or a catch-all. *)
Fixpoint part_at_wildcard (p q : list string) : bool :=
  match p, q with
  | x :: p, y :: q =>
      if String.eqb x y then part_at_wildcard p q else wildcard x || wildcard y
  | _, _ => false
  end.

(** The tree, by whole segments: a route is refused when it parts at a
    wildcard from a route of the tree. *)
Global Instance tree : engine.Tree := λ registered new,
  match List.find (λ old, part_at_wildcard (path.elements old) (path.elements new))
          registered with
  | Some old =>
      Some ("'" +:+ new +:+ "' conflicts with existing wildcard in '" +:+ old +:+ "'")
  | None => None
  end.

Global Instance primitives : controller.Primitives := {|
  controller.BindJSON := BindJSON;
  controller.validate_Struct := validate_Struct;
  controller.bcrypt_GenerateFromPassword := bcrypt_GenerateFromPassword;
  controller.bcrypt_CompareHashAndPassword := bcrypt_CompareHashAndPassword;
  controller.NewObjectID := NewObjectID;
  controller.Hex := Hex;
  controller.Aggregate := Aggregate;
|}.

End stand_in.

(** ** The data of the runs *)

Module scenario.

(** Claims without an expiry, and the token [reference.world] would sign
    for them. *)
Definition undated : SignedDetails :=
  mkSignedDetails "a@b.c" "Ann" "Lee" "u1" jwt.StandardClaims_zero.

Definition undated_token : string :=
  Eval vm_compute in
    match jwt.SignedString jwt.SigningMethodHS256 undated "secret" with
    | Ok s => s
    | Err _ => ""
    end.

(** A request with the given values of the [token] header, at the gate's
    place in [reference.chain]. *)
Definition at_gate (values : list string) : gin.Context :=
  gin.mkContext {["Token" := values]} ∅ [] 1.

(** Three stored documents: Bob's, and two of the subject [u1]. *)
Definition bob : Document :=
  {["user_id" := BString "u2"; "email" := BString "bob@b.c"; "token" := BString "t0"]}.
Definition ann_first : Document :=
  {["user_id" := BString "u1"; "email" := BString "a@b.c"; "token" := BString "t0";
    "phone" := BString "555-0199"]}.
Definition ann_second : Document :=
  {["user_id" := BString "u1"; "token" := BString "t0"]}.

Definition stored : World :=
  mkWorld "secret" 1700000000 [bob; ann_first; ann_second] None.

(** The same server while the database is down. *)
Definition offline : World :=
  mkWorld "secret" 1700000000 [] (Some "server selection error").

(** The body of a sign-up and of a login, and requests carrying them. *)
Definition signup_body : string :=
  reference.render_object
    [("first_name", reference.JS "Ann"); ("last_name", reference.JS "Lee");
     ("Password", reference.JS "s3cret!"); ("email", reference.JS "a@b.c");
     ("phone", reference.JS "555-0100")].

(** The same sign-up with a password of 73 bytes, one more than bcrypt
    takes. *)
Definition long_password : string :=
  "correct horse battery staple, correct horse battery staple, correct horse".

Definition long_signup_body : string :=
  reference.render_object
    [("first_name", reference.JS "Ann"); ("last_name", reference.JS "Lee");
     ("Password", reference.JS long_password); ("email", reference.JS "a@b.c");
     ("phone", reference.JS "555-0100")].

Definition login_body (password : string) : string :=
  reference.render_object
    [("email", reference.JS "a@b.c"); ("Password", reference.JS password)].

Definition post (body : string) : controller.Context :=
  controller.mkContext body ∅ ∅ [].

(** A request for a route with [params] and the query [query]. *)
Definition get (params query : gmap string string) : controller.Context :=
  controller.mkContext "" params query [].

(** The bound sign-up. *)
Definition ann_user : models.User :=
  models.mkUser models.NilObjectID (Some "Ann") (Some "Lee") (Some "s3cret!")
    (Some "a@b.c") None (Some "555-0100") None None
    models.zero_time models.zero_time "".

Definition ann_long : models.User :=
  models.mkUser models.NilObjectID (Some "Ann") (Some "Lee") (Some long_password)
    (Some "a@b.c") None (Some "555-0100") None None
    models.zero_time models.zero_time "".

(** The state after Ann has signed up on [reference.world], and the same
    a day and an hour later. *)
Definition signed_up : World :=
  Eval vm_compute in (controller.SignUp (post signup_body) reference.world).2.

Definition next_day : World :=
  mkWorld "secret" 1700090000 (userCollection signed_up) None.

(** The document stored for her, and the user it decodes to. *)
Definition ann_document : Document :=
  Eval vm_compute in default ∅ (head (userCollection signed_up)).

Definition ann_stored : models.User :=
  Eval vm_compute in
    match driver.Unmarshal ann_document with
    | Ok u => u
    | Err _ => models.User_zero
    end.


Definition phone_taken : World :=
  mkWorld "secret" 1700000000 [{["phone" := BString "555-0100"]}] None.

End scenario.
(** * Properties *)

(** ** Splitting and joining *)

Lemma Split_dotless (s : string) :
  strings.dotless s = true → strings.Split s = [s].
Proof.
  induction s as [|c r IH]; simpl; [done|].
  destruct (Ascii.eqb c "."); simpl; [done|].
  intros Hr. by rewrite (IH Hr).
Qed.

Lemma Split_app (a b : string) :
  strings.dotless a = true →
  strings.Split (a +:+ "." +:+ b) = a :: strings.Split b.
Proof.
  induction a as [|c r IH]; simpl; [done|].
  destruct (Ascii.eqb c "."); simpl; [done|].
  intros Hr. by rewrite (IH Hr).
Qed.

Lemma Split_nonempty (s : string) : strings.Split s ≠ [].
Proof.
  destruct s as [|c r]; simpl; [done|].
  destruct (Ascii.eqb c "."); [done|]. by destruct (strings.Split r).
Qed.

Lemma append_cons (x : ascii) (a b : string) : String x a +:+ b = String x (a +:+ b).
Proof. reflexivity. Qed.

Lemma append_assoc (a b c : string) : (a +:+ b) +:+ c = a +:+ (b +:+ c).
Proof. induction a as [|x a IH]; [done|]. by rewrite !append_cons, IH. Qed.

Lemma Split_three (a b c : string) :
  strings.dotless a = true → strings.dotless b = true → strings.dotless c = true →
  strings.Split (strings.Join [strings.Join [a; b]; c]) = [a; b; c].
Proof.
  intros Ha Hb Hc. simpl.
  rewrite !append_assoc. rewrite !Split_app by done. by rewrite Split_dotless.
Qed.

(** ** Parsing what was signed *)

Section parsing.
Context `{!jwt.Primitives SignedDetails}.
Hypothesis laws : Lawful.

Lemma HS256_header_alg : HS256_header !! "alg" = Some (jwt.JString "HS256").
Proof. reflexivity. Qed.

(** A token whose first two segments encode the HS256 header and the
    claims [cl] parses to those claims, whatever the third segment. *)
Lemma ParseUnverified_segments (hb cb sig : string) (cl : SignedDetails) :
  jwt.json_Unmarshal_header hb = Ok HS256_header →
  jwt.json_Decode_claims cb SignedDetails_zero = (cl, None) →
  strings.dotless sig = true →
  let parts := [jwt.EncodeSegment hb; jwt.EncodeSegment cb; sig] in
  let raw := strings.Join [strings.Join (take 2 parts); sig] in
  jwt.ParseUnverified raw SignedDetails_zero
  = (Some (jwt.mkToken raw (Some jwt.SigningMethodHS256) HS256_header (Some cl) "" false),
     parts, None).
Proof.
  intros Hh Hc Hsig parts raw. unfold jwt.ParseUnverified.
  subst raw parts. cbn [take].
  rewrite Split_three by (done || apply laws).
  rewrite (segment_roundtrip laws), Hh, (segment_roundtrip laws), Hc.
  rewrite HS256_header_alg. unfold jwt.GetSigningMethod.
  by rewrite decide_True.
Qed.

(** [Valid] answers with an error only when a flag is set. *)
Lemma StandardClaims_Valid_flagged (c : jwt.StandardClaims) (now : Z) (e : jwt.ValidationError) :
  jwt.StandardClaims_Valid c now = Some e → jwt.valid e = false.
Proof.
  unfold jwt.StandardClaims_Valid. intros Hv.
  repeat match type of Hv with
         | context [if ?b then _ else _] => destruct b eqn:?
         end; by simplify_eq.
Qed.

(** Verification never changes the claims the token points to. *)
Lemma ParseWithClaims_segments (hb cb sig key : string) (cl : SignedDetails) (now : Z) :
  jwt.json_Unmarshal_header hb = Ok HS256_header →
  jwt.json_Decode_claims cb SignedDetails_zero = (cl, None) →
  strings.dotless sig = true →
  let raw := strings.Join [strings.Join [jwt.EncodeSegment hb; jwt.EncodeSegment cb]; sig] in
  ∃ token err,
    jwt.ParseWithClaims raw SignedDetails_zero key now = (Some token, err)
    ∧ jwt.Token_Claims token = Some cl.
Proof.
  intros Hh Hc Hsig raw. unfold jwt.ParseWithClaims.
  pose proof (ParseUnverified_segments hb cb sig cl Hh Hc Hsig) as HP.
  cbn [take] in HP. cbv zeta in HP. subst raw. rewrite HP. cbn -[jwt.Verify strings.Join].
  match goal with |- context [if ?b then _ else _] => destruct b end; eauto.
Qed.

(** For a correctly signed token the only error left is the one [Valid]
    reports. *)
Lemma ParseWithClaims_correctly_signed (key s : string) (cl : SignedDetails) (now : Z) :
  correctly_signed key s cl →
  ∃ token,
    jwt.ParseWithClaims s SignedDetails_zero key now
    = (Some token, jwt.StandardClaims_Valid (StandardClaims cl) now)
    ∧ jwt.Token_Claims token = Some cl.
Proof using Type.
  intros (token & parts & m & HP & HC & Hm & Hv).
  unfold jwt.ParseWithClaims. rewrite HP, HC, Hm. cbn [jwt.Method jwt.Token_Claims].
  rewrite ?Hm, Hv. unfold jwt.Claims_Valid, SignedDetails_Claims.
  destruct (jwt.StandardClaims_Valid (StandardClaims cl) now) as [e|] eqn:HV; cbn.
  - rewrite (StandardClaims_Valid_flagged _ _ _ HV). eauto.
  - eauto.
Qed.

(** What [Sign] produces is correctly signed. *)
Lemma SignedString_correctly_signed (key tok : string) (cl : SignedDetails) :
  jwt.SignedString jwt.SigningMethodHS256 cl key = Ok tok →
  correctly_signed key tok cl.
Proof.
  intros Hs.
  destruct (header_roundtrip laws) as (hb & Hm & Hh).
  destruct (claims_roundtrip laws cl) as (cb & Hcm & Hc).
  pose proof (ParseUnverified_segments hb cb
                (jwt.EncodeSegment
                   (jwt.hmac_sha256 key
                      (strings.Join [jwt.EncodeSegment hb; jwt.EncodeSegment cb])))
                cl Hh Hc (segment_dotless laws _)) as HP.
  cbn [take] in HP. cbv zeta in HP.
  assert (jwt.SignedString jwt.SigningMethodHS256 cl key
          = Ok (strings.Join
                  [strings.Join [jwt.EncodeSegment hb; jwt.EncodeSegment cb];
                   jwt.EncodeSegment
                     (jwt.hmac_sha256 key
                        (strings.Join [jwt.EncodeSegment hb; jwt.EncodeSegment cb]))])) as Hs'.
  { unfold jwt.SignedString, jwt.SigningString.
    change (jwt.Header (jwt.NewWithClaims jwt.SigningMethodHS256 cl)) with HS256_header.
    rewrite Hm, Hcm. cbn -[strings.Join]. by rewrite (sha256_linked laws). }
  set (raw := strings.Join _) in Hs', HP.
  assert (tok = raw) as -> by congruence.
  eexists _, _, _. split; [exact HP|]. split; [done|]. split; [done|].
  cbn -[strings.Join]. by rewrite (segment_roundtrip laws), (sha256_linked laws), decide_True.
Qed.

(** What [ValidateToken] returns once the parser has produced claims. *)
Lemma ValidateToken_parsed (s : string) (w : World) token err (cl : SignedDetails) :
  jwt.ParseWithClaims s SignedDetails_zero (SECRET_KEY w) (clock w) = (Some token, err) →
  jwt.Token_Claims token = Some cl →
  ValidateToken s w =
    (Returned (Some cl,
               if (ExpiresAt cl <? clock w)%Z
               then match err with Some e => jwt.Error e | None => "token is expired" end
               else ""), w).
Proof.
  intros HP HC. unfold ValidateToken, mbind, M_bind, gets, time_Now; cbn.
  rewrite HP, HC. unfold gets, mret, M_ret. by destruct (ExpiresAt cl <? clock w)%Z.
Qed.

(** Signing succeeds and yields three segments: header, claims, MAC. *)
Lemma SignedString_HS256 (cl : SignedDetails) (key : string) :
  ∃ hb cb,
    jwt.json_Unmarshal_header hb = Ok HS256_header
    ∧ jwt.json_Decode_claims cb SignedDetails_zero = (cl, None)
    ∧ jwt.SigningString HS256_header cl
      = Ok (strings.Join [jwt.EncodeSegment hb; jwt.EncodeSegment cb])
    ∧ let sstr := strings.Join [jwt.EncodeSegment hb; jwt.EncodeSegment cb] in
      jwt.SignedString jwt.SigningMethodHS256 cl key
      = Ok (strings.Join [sstr; jwt.EncodeSegment (jwt.hmac_sha256 key sstr)]).
Proof.
  destruct (header_roundtrip laws) as (hb & Hm & Hu).
  destruct (claims_roundtrip laws cl) as (cb & Hcm & Hcd).
  exists hb, cb. split; [done|]. split; [done|].
  assert (jwt.SigningString HS256_header cl
          = Ok (strings.Join [jwt.EncodeSegment hb; jwt.EncodeSegment cb])) as HS.
  { unfold jwt.SigningString. by rewrite Hm, Hcm. }
  split; [done|]. cbv zeta. unfold jwt.SignedString.
  change (jwt.Header (jwt.NewWithClaims jwt.SigningMethodHS256 cl)) with HS256_header.
  rewrite HS. cbn -[strings.Join]. by rewrite (sha256_linked laws).
Qed.

(** The error [Valid] reports has a text. *)
Lemma StandardClaims_Valid_text (c : jwt.StandardClaims) (now : Z) (e : jwt.ValidationError) :
  jwt.StandardClaims_Valid c now = Some e → jwt.Error e ≠ "".
Proof.
  unfold jwt.StandardClaims_Valid. intros Hv.
  repeat match type of Hv with
         | context [if ?b then _ else _] => destruct b eqn:?
         end; by simplify_eq.
Qed.

(** A correctly signed token: accepted up to and including [ExpiresAt],
    rejected by the expiry check after it. *)
Lemma ValidateToken_correctly_signed (cl : SignedDetails) (w : World) (tok : string) :
  correctly_signed (SECRET_KEY w) tok cl →
  ValidateToken tok w =
    (Returned (Some cl,
               if (ExpiresAt cl <? clock w)%Z
               then match jwt.StandardClaims_Valid (StandardClaims cl) (clock w) with
                    | Some e => jwt.Error e
                    | None => "token is expired"
                    end
               else ""), w).
Proof using Type.
  intros Hs.
  destruct (ParseWithClaims_correctly_signed _ _ _ (clock w) Hs) as (token & HP & HC).
  by rewrite (ValidateToken_parsed _ _ _ _ _ HP HC).
Qed.

Lemma ValidateToken_signed (cl : SignedDetails) (w : World) (tok : string) :
  jwt.SignedString jwt.SigningMethodHS256 cl (SECRET_KEY w) = Ok tok →
  ValidateToken tok w =
    (Returned (Some cl,
               if (ExpiresAt cl <? clock w)%Z
               then match jwt.StandardClaims_Valid (StandardClaims cl) (clock w) with
                    | Some e => jwt.Error e
                    | None => "token is expired"
                    end
               else ""), w).
Proof.
  intros Hs. apply ValidateToken_correctly_signed.
  by apply SignedString_correctly_signed.
Qed.
End parsing.

(** ** The reference primitives satisfy the laws *)

Section base64url.
Import reference.

Lemma dec6_enc6 (x : sextet) : dec6 (enc6 x) = Some x.
Proof. by destruct x as [[[[[[] []] []] []] []] []]. Qed.

Lemma enc6_not_dot (x : sextet) : Ascii.eqb (enc6 x) "." = false.
Proof. by destruct x as [[[[[[] []] []] []] []] []]. Qed.

(** Induction three bytes at a time. *)
Lemma string_ind3 (P : string → Prop) :
  P EmptyString →
  (∀ a, P (String a EmptyString)) →
  (∀ a b, P (String a (String b EmptyString))) →
  (∀ a b c r, P r → P (String a (String b (String c r)))) →
  ∀ s, P s.
Proof.
  intros H0 H1 H2 H3 s.
  cut (P s ∧ (∀ a, P (String a s)) ∧ (∀ a b, P (String a (String b s)))); [tauto|].
  induction s as [|c r (IH0 & IH1 & IH2)]; [by auto|].
  split; [apply IH1|]. split; [intros a; apply IH2|]. intros a b. by apply H3.
Qed.

Lemma decode_encode (s : string) : decode (encode s) = Some s.
Proof.
  induction s as [|a|a b|a b c r IH] using string_ind3.
  - done.
  - destruct a. cbn [encode decode]. by rewrite !dec6_enc6.
  - destruct a, b. cbn [encode decode]. by rewrite !dec6_enc6.
  - destruct a, b, c. cbn [encode decode]. by rewrite !dec6_enc6, IH.
Qed.

Lemma encode_dotless (s : string) : strings.dotless (encode s) = true.
Proof.
  induction s as [|a|a b|a b c r IH] using string_ind3.
  - done.
  - destruct a. cbn [encode strings.dotless]. by rewrite !enc6_not_dot.
  - destruct a, b. cbn [encode strings.dotless]. by rewrite !enc6_not_dot.
  - destruct a, b, c. cbn [encode strings.dotless]. by rewrite !enc6_not_dot, IH.
Qed.
End base64url.

Section json.
Import reference.

Lemma append_nil_l (a : string) : EmptyString +:+ a = a.
Proof. reflexivity. Qed.

(** Right-nested appends with the known bytes in front. *)
Ltac norm_append :=
  repeat (rewrite append_cons || rewrite append_assoc || rewrite append_nil_l).

Lemma length_append (a b : string) :
  String.length (a +:+ b) = (String.length a + String.length b)%nat.
Proof. induction a as [|c a IH]; [done|]. rewrite append_cons; cbn. by rewrite IH. Qed.

Lemma unquote_escape (s rest : string) :
  unquote (escape s +:+ String dquote rest) = Some (s, rest).
Proof.
  induction s as [|c s IH]; [done|]. cbn [escape].
  destruct (Ascii.eqb c dquote) eqn:Hq; cbn [orb].
  - rewrite !append_cons. cbn [unquote]. change (Ascii.eqb backslash dquote) with false.
    rewrite Ascii.eqb_refl. cbn match. by rewrite IH.
  - destruct (Ascii.eqb c backslash) eqn:Hb.
    + rewrite !append_cons. cbn [unquote]. change (Ascii.eqb backslash dquote) with false.
      rewrite Ascii.eqb_refl. cbn match. by rewrite IH.
    + rewrite append_cons. cbn [unquote]. by rewrite Hq, Hb, IH.
Qed.

Lemma numeric_uint (d : Decimal.uint) : numeric (NilEmpty.string_of_uint d) = true.
Proof. induction d; cbn; by rewrite ?IHd. Qed.

Lemma decimal_numeric (z : Z) : numeric (decimal z) = true ∧ decimal z ≠ EmptyString.
Proof.
  unfold decimal. destruct (Z.to_int z) as [d|d]; cbn.
  - destruct d; try done; cbn; by rewrite numeric_uint.
  - destruct d; try done; cbn; split; try done; by rewrite numeric_uint.
Qed.

Lemma span_numeric_app (n : string) (c : ascii) (rest : string) :
  numeric n = true → is_numeric c = false →
  span_numeric (n +:+ String c rest) = (n, String c rest).
Proof.
  intros Hn Hc. induction n as [|x n IH].
  - change (EmptyString +:+ String c rest) with (String c rest).
    cbn [span_numeric]. by rewrite Hc.
  - cbn [numeric] in Hn. apply andb_true_iff in Hn as [Hx Hn].
    rewrite append_cons. cbn [span_numeric]. by rewrite Hx, (IH Hn).
Qed.

Lemma to_int_proper (z : Z) : Z.to_int z ≠ Pos Nil ∧ Z.to_int z ≠ Neg Nil.
Proof.
  destruct z as [|p|p]; cbn; [done| |].
  - split; [|done]. intros [= Hp]. by apply (DecimalPos.Unsigned.to_uint_nonnil p).
  - split; [done|]. intros [= Hp]. by apply (DecimalPos.Unsigned.to_uint_nonnil p).
Qed.

Lemma int_of_decimal (z : Z) : NilZero.int_of_string (decimal z) = Some (Z.to_int z).
Proof. unfold decimal. apply NilZero.isi; apply to_int_proper. Qed.

Lemma parse_render_value (v : jv) (c : ascii) (rest : string) :
  is_numeric c = false →
  parse_value (render_value v +:+ String c rest) = Some (v, String c rest).
Proof.
  intros Hc. destruct v as [s|z]; cbn [render_value].
  - unfold quote. rewrite append_cons. cbn [parse_value]. rewrite Ascii.eqb_refl.
    rewrite append_assoc. change (String dquote "" +:+ String c rest)
      with (String dquote (String c rest)).
    by rewrite unquote_escape.
  - destruct (decimal_numeric z) as [Hnum Hne].
    pose proof (span_numeric_app _ _ rest Hnum Hc) as Hspan.
    destruct (decimal z) as [|x n] eqn:Hd; [done|].
    rewrite append_cons in *. cbn [parse_value].
    assert (Ascii.eqb x dquote = false) as ->.
    { cbn in Hnum. apply andb_true_iff in Hnum as [Hx _].
      destruct (Ascii.eqb_spec x dquote) as [->|]; [done|done]. }
    rewrite Hspan. rewrite <- Hd, int_of_decimal. by rewrite DecimalZ.of_to.
Qed.

Lemma render_member_app (m : string * jv) (rest : string) :
  render_member m +:+ rest
  = String dquote (escape m.1 +:+ String dquote (String ":" (render_value m.2 +:+ rest))).
Proof.
  unfold render_member, quote. by norm_append.
Qed.

Lemma parse_render_members (l : list (string * jv)) (fuel : nat) :
  l ≠ [] → (length l ≤ fuel)%nat →
  parse_members fuel (render_members l +:+ "}") = Some l.
Proof.
  revert fuel. induction l as [|m r IH]; intros fuel Hne Hfuel; [done|].
  destruct fuel as [|fuel]; [cbn in Hfuel; lia|].
  destruct m as [k v]. destruct r as [|m' r'].
  - cbn [render_members]. rewrite render_member_app.
    cbn [parse_members fst snd]. rewrite Ascii.eqb_refl, unquote_escape.
    rewrite parse_render_value by done. done.
  - change (render_members ((k, v) :: m' :: r'))
      with (render_member (k, v) +:+ "," +:+ render_members (m' :: r')).
    set (rs := render_members (m' :: r')) in *.
    rewrite append_assoc, render_member_app.
    cbn [parse_members fst snd]. rewrite Ascii.eqb_refl, unquote_escape.
    norm_append.
    rewrite parse_render_value by done.
    rewrite IH; [done|done|]. cbn [length] in *. lia.
Qed.

Lemma length_render_members (l : list (string * jv)) (x : string) :
  (length l ≤ String.length (render_members l +:+ x))%nat.
Proof.
  induction l as [|m r IH]; [cbn; lia|]. destruct r as [|m' r'].
  - cbn [render_members]. rewrite render_member_app. cbn. lia.
  - change (render_members (m :: m' :: r'))
      with (render_member m +:+ "," +:+ render_members (m' :: r')).
    set (rs := render_members (m' :: r')) in *.
    rewrite append_assoc, render_member_app. norm_append.
    cbn [String.length length] in *. rewrite !length_append. cbn [String.length].
    rewrite ?length_append in *. cbn [String.length]. rewrite ?length_append. lia.
Qed.

Lemma parse_render_object (l : list (string * jv)) :
  parse_object (render_object l) = Some l.
Proof.
  destruct l as [|m r]; [done|].
  unfold render_object. norm_append.
  pose proof (length_render_members (m :: r) "}") as Hlen.
  pose proof (parse_render_members (m :: r) _ ltac:(done) Hlen) as Hp.
  destruct r as [|m' r'].
  - cbn [render_members] in *. rewrite render_member_app in *. exact Hp.
  - change (render_members (m :: m' :: r'))
      with (render_member m +:+ "," +:+ render_members (m' :: r')) in *.
    rewrite append_assoc, render_member_app in *. exact Hp.
Qed.

Lemma Decode_Marshal_claims (c : SignedDetails) :
  json_Decode_claims (render_object (claims_members c)) SignedDetails_zero = (c, None).
Proof.
  unfold json_Decode_claims. rewrite parse_render_object.
  destruct c as [e f l u [aud exp jti iat iss nbf sub]].
  unfold claims_members, opt_string, opt_int; cbn [StandardClaims jwt.Audience
    jwt.ExpiresAt jwt.Id jwt.IssuedAt jwt.Issuer jwt.NotBefore jwt.Subject
    Email First_name Last_name Uid].
  destruct (String.eqb_spec aud ""), (Z.eqb_spec exp 0), (String.eqb_spec jti ""),
    (Z.eqb_spec iat 0), (String.eqb_spec iss ""), (Z.eqb_spec nbf 0),
    (String.eqb_spec sub ""); subst; reflexivity.
Qed.
End json.

(** The reference primitives are lawful. *)
Lemma reference_lawful : Lawful (H := reference.primitives).
Proof.
  split.
  - intros b. cbn. unfold reference.DecodeSegment, reference.EncodeSegment.
    by rewrite decode_encode.
  - intros b. apply encode_dotless.
  - eexists. split; [vm_compute; reflexivity|]. vm_compute. reflexivity.
  - intros c. eexists. split; [reflexivity|]. apply Decode_Marshal_claims.
  - reflexivity.
Qed.

(** ** The token service *)

Section token_service.
Context `{!jwt.Primitives SignedDetails}.
Hypothesis laws : Lawful.

(** With a segment count other than three the parser hands back a nil
    token, and [token.Claims] panics. *)
Lemma ValidateToken_segments (s : string) (w : World) :
  length (strings.Split s) ≠ 3%nat →
  ValidateToken s w = (Panicked nil_dereference, w).
Proof using Type.
  intros Hlen. unfold ValidateToken, mbind, M_bind, gets, time_Now; cbn.
  unfold jwt.ParseWithClaims, jwt.ParseUnverified.
  destruct (strings.Split s) as [|p0 [|p1 [|p2 [|p3 rest]]]]; cbn in *; done.
Qed.

(** A first segment that is not base64 is answered with the structural
    rejection, the message being the decoder's. *)
Lemma ValidateToken_invalid_header (s p0 p1 p2 : string) (e : error) (w : World) :
  strings.Split s = [p0; p1; p2] →
  jwt.DecodeSegment p0 = Err e →
  e ≠ "" →
  InvalidToken (ValidateToken s w).1.
Proof using Type.
  intros Hs Hd He. unfold InvalidToken, ValidateToken, mbind, M_bind, gets, time_Now; cbn.
  unfold jwt.ParseWithClaims, jwt.ParseUnverified. rewrite Hs, Hd.
  destruct (strings.HasPrefix _ _); cbn; eauto.
Qed.

(** The error of the parser is not looked at once the claims are there
    and not expired: any third segment will do. *)
Lemma ValidateToken_forged (cl : SignedDetails) (sstr sig : string) (w : World) :
  jwt.SigningString HS256_header cl = Ok sstr →
  strings.dotless sig = true →
  clock w ≤ ExpiresAt cl →
  ValidateToken (strings.Join [sstr; sig]) w = (Returned (Some cl, ""), w).
Proof.
  intros Hs Hsig Hexp.
  destruct (SignedString_HS256 laws cl (SECRET_KEY w)) as (hb & cb & Hh & Hc & Hs' & _).
  assert (sstr = strings.Join [jwt.EncodeSegment hb; jwt.EncodeSegment cb]) as ->
    by congruence.
  destruct (ParseWithClaims_segments laws hb cb sig (SECRET_KEY w) cl (clock w) Hh Hc Hsig)
    as (token & err & HP & HC).
  cbv zeta in HP.
  rewrite (ValidateToken_parsed _ _ _ _ _ HP HC).
  by rewrite (proj2 (Z.ltb_ge _ _)) by done.
Qed.

(** C1 (the code departs from it).  A malformed token is not always
    answered with InvalidToken.  A string whose segment count is not three
    makes ValidateToken panic.  And a token with the header and claims
    segments of a signed token but a third segment that does not verify
    under the server's key is accepted, with the claims it carries, as
    long as those claims have not expired. *)
Theorem ValidateToken_malformed (w : World) :
  (∀ s, length (strings.Split s) ≠ 3%nat →
        ValidateToken s w = (Panicked nil_dereference, w))
  ∧ (∀ cl sstr sig,
        jwt.SigningString HS256_header cl = Ok sstr →
        strings.dotless sig = true →
        jwt.Verify jwt.SigningMethodHS256 sstr sig (SECRET_KEY w) ≠ None →
        clock w ≤ ExpiresAt cl →
        Accepted (ValidateToken (strings.Join [sstr; sig]) w).1 cl).
Proof.
  split.
  - intros s. apply ValidateToken_segments.
  - intros cl sstr sig Hs Hsig _ Hexp. unfold Accepted.
    by rewrite (ValidateToken_forged cl sstr sig w Hs Hsig Hexp).
Qed.

(** Issuance returns, with both tokens signed over the claims built from
    the clock. *)
Lemma GenerateAllTokens_returns (email firstName lastName uid : string) (w : World) :
  ∃ token refreshToken,
    GenerateAllTokens email firstName lastName uid w
    = (Returned (token, refreshToken, None), w)
    ∧ jwt.SignedString jwt.SigningMethodHS256
        (mkSignedDetails email firstName lastName uid
           (jwt.StandardClaims_exp (clock w + hours 24))) (SECRET_KEY w) = Ok token
    ∧ jwt.SignedString jwt.SigningMethodHS256
        (mkSignedDetails "" "" "" "" (jwt.StandardClaims_exp (clock w + hours 168)))
        (SECRET_KEY w) = Ok refreshToken.
Proof.
  set (claims := mkSignedDetails email firstName lastName uid
                   (jwt.StandardClaims_exp (clock w + hours 24))).
  set (refreshClaims := mkSignedDetails "" "" "" ""
                          (jwt.StandardClaims_exp (clock w + hours 168))).
  destruct (SignedString_HS256 laws claims (SECRET_KEY w)) as (hb & cb & _ & _ & _ & Hs).
  destruct (SignedString_HS256 laws refreshClaims (SECRET_KEY w))
    as (hb' & cb' & _ & _ & _ & Hs').
  cbv zeta in Hs, Hs'. eexists _, _. split; [|split; [exact Hs|exact Hs']].
  unfold GenerateAllTokens, mbind, M_bind, gets, time_Now; cbn -[jwt.SignedString strings.Join].
  fold claims refreshClaims. by rewrite Hs, Hs'.
Qed.

(** C2.  For every identity, the access token GenerateAllTokens issues,
    validated under the same key at any time strictly before its
    [ExpiresAt] (issuance time plus 24 hours), is accepted with claims
    that carry the identity. *)
Theorem ValidateToken_GenerateAllTokens (email firstName lastName uid : string) (w : World) :
  ∃ token refreshToken,
    GenerateAllTokens email firstName lastName uid w
    = (Returned (token, refreshToken, None), w)
    ∧ ∀ w', SECRET_KEY w' = SECRET_KEY w →
            clock w' < clock w + hours 24 →
            ∃ claims,
              ValidateToken token w' = (Returned (Some claims, ""), w')
              ∧ ExpiresAt claims = clock w + hours 24
              ∧ Email claims = email ∧ First_name claims = firstName
              ∧ Last_name claims = lastName ∧ Uid claims = uid.
Proof.
  destruct (GenerateAllTokens_returns email firstName lastName uid w)
    as (token & refreshToken & HG & Hs & _).
  exists token, refreshToken. split; [done|].
  intros w' Hkey Hnow.
  exists (mkSignedDetails email firstName lastName uid
            (jwt.StandardClaims_exp (clock w + hours 24))).
  split; [|done].
  rewrite <- Hkey in Hs. rewrite (ValidateToken_signed laws _ _ _ Hs).
  unfold ExpiresAt; cbn. by rewrite (proj2 (Z.ltb_ge _ _)) by lia.
Qed.

(** C3 (as amended).  For every well-formed, correctly signed token,
    ValidateToken answers with the expiry rejection if and only if the
    clock is strictly after the token's [ExpiresAt]; up to and including
    [ExpiresAt] the token is accepted. *)
Theorem ValidateToken_expired_iff (cl : SignedDetails) (tok : string) (w : World) :
  correctly_signed (SECRET_KEY w) tok cl →
  (ExpiredToken (ValidateToken tok w).1 ↔ ExpiresAt cl < clock w)
  ∧ (clock w ≤ ExpiresAt cl → Accepted (ValidateToken tok w).1 cl).
Proof using Type.
  intros Hs. rewrite (ValidateToken_correctly_signed _ _ _ Hs). cbn [fst].
  unfold ExpiredToken, Accepted.
  destruct (Z.ltb_spec (ExpiresAt cl) (clock w)) as [Hlt|Hge].
  - split; [|lia]. split; [done|]. intros _. eexists _, _. split; [done|].
    destruct (jwt.StandardClaims_Valid _ _) as [e|] eqn:HV; [|done].
    by apply (StandardClaims_Valid_text _ _ _ HV).
  - split; [|done]. split; [|lia]. intros (c & msg & Heq & Hmsg). by simplify_eq.
Qed.

(** The scenario of the specification: issued at [T0], the access token
    is accepted at [T0 + 23h59m] and rejected as expired, with the
    library's message, at [T0 + 24h01m]. *)
Lemma ValidateToken_scenario (email firstName lastName uid : string) (w : World) :
  ∃ token refreshToken claims,
    GenerateAllTokens email firstName lastName uid w
    = (Returned (token, refreshToken, None), w)
    ∧ (let w' := mkWorld (SECRET_KEY w) (clock w + 86340) (userCollection w) (db_fault w) in
       ValidateToken token w' = (Returned (Some claims, ""), w'))
    ∧ (let w' := mkWorld (SECRET_KEY w) (clock w + 86460) (userCollection w) (db_fault w) in
       clock w + 86400 ≠ 0 →
       ValidateToken token w'
       = (Returned (Some claims, "token is expired by " +:+ jwt.fmt_Duration 60), w')).
Proof.
  destruct (GenerateAllTokens_returns email firstName lastName uid w)
    as (token & refreshToken & HG & Hs & _).
  eexists token, refreshToken, _. split; [done|]. split.
  - cbv zeta. set (w' := mkWorld _ _ _ _).
    rewrite (ValidateToken_signed laws _ w' _ Hs).
    unfold ExpiresAt, hours; cbn. by rewrite (proj2 (Z.ltb_ge _ _)) by lia.
  - cbv zeta. intros Hnz. set (w' := mkWorld _ _ _ _).
    rewrite (ValidateToken_signed laws _ w' _ Hs).
    unfold ExpiresAt, hours, jwt.StandardClaims_Valid, jwt.verifyExp; cbn.
    rewrite (proj2 (Z.ltb_lt _ _)) by lia.
    rewrite (proj2 (Z.eqb_neq _ _)) by lia.
    rewrite (proj2 (Z.leb_gt _ _)) by lia.
    replace (clock w + 86460 - (clock w + 3600 * 24)) with 60 by lia.
    reflexivity.
Qed.

(** C6.  Issuance signs an access token whose claims are the full
    identity with [ExpiresAt] = issuance time + 24 hours, and a refresh
    token whose claims hold empty identity fields and [ExpiresAt] =
    issuance time + 168 hours; no other standard claim is set in either. *)
Theorem GenerateAllTokens_claims (email firstName lastName uid : string) (w : World) :
  ∃ token refreshToken,
    GenerateAllTokens email firstName lastName uid w
    = (Returned (token, refreshToken, None), w)
    ∧ claims_of token
      = Some {| Email := email; First_name := firstName; Last_name := lastName;
                Uid := uid;
                StandardClaims :=
                  {| jwt.Audience := ""; jwt.ExpiresAt := clock w + 24 * 3600;
                     jwt.Id := ""; jwt.IssuedAt := 0; jwt.Issuer := "";
                     jwt.NotBefore := 0; jwt.Subject := "" |} |}
    ∧ claims_of refreshToken
      = Some {| Email := ""; First_name := ""; Last_name := ""; Uid := "";
                StandardClaims :=
                  {| jwt.Audience := ""; jwt.ExpiresAt := clock w + 168 * 3600;
                     jwt.Id := ""; jwt.IssuedAt := 0; jwt.Issuer := "";
                     jwt.NotBefore := 0; jwt.Subject := "" |} |}.
Proof.
  destruct (GenerateAllTokens_returns email firstName lastName uid w)
    as (token & refreshToken & HG & Hs & Hr).
  exists token, refreshToken. split; [done|].
  assert (∀ cl tok, jwt.SignedString jwt.SigningMethodHS256 cl (SECRET_KEY w) = Ok tok →
                    claims_of tok = Some cl) as Hclaims.
  { intros cl tok Htok.
    destruct (SignedString_HS256 laws cl (SECRET_KEY w)) as (hb & cb & Hh & Hc & _ & Hs').
    cbv zeta in Hs'.
    pose proof (ParseUnverified_segments laws hb cb _ cl Hh Hc
                  (segment_dotless laws
                     (jwt.hmac_sha256 (SECRET_KEY w)
                        (strings.Join [jwt.EncodeSegment hb; jwt.EncodeSegment cb])))) as HP.
    cbn [take] in HP. cbv zeta in HP.
    set (raw := strings.Join _) in Hs', HP.
    assert (tok = raw) as -> by congruence.
    unfold claims_of. by rewrite HP. }
  unfold hours, jwt.StandardClaims_exp in *. rewrite !(Z.mul_comm _ 3600).
  split; by apply Hclaims.
Qed.
End token_service.

Section token_service_unconditional.
Context `{!jwt.Primitives SignedDetails}.

(** When only the second signing fails, the error is seen and issuance
    panics. *)
Lemma GenerateAllTokens_refresh_signing_error
    (email firstName lastName uid : string) (w : World) (e : error) :
  jwt.SignedString jwt.SigningMethodHS256
    (mkSignedDetails "" "" "" "" (jwt.StandardClaims_exp (clock w + hours 168)))
    (SECRET_KEY w) = Err e →
  GenerateAllTokens email firstName lastName uid w = (Panicked e, w).
Proof.
  intros Hr. unfold GenerateAllTokens, mbind, M_bind, gets, time_Now.
  cbn -[jwt.SignedString]. rewrite Hr.
  match goal with
  | |- context [match ?x with Ok _ => _ | Err _ => _ end] => destruct x
  end; reflexivity.
Qed.



Lemma ValidateToken_validate (signedToken : string) (w : World) :
  ValidateToken signedToken w = (validate (SECRET_KEY w) (clock w) signedToken, w).
Proof.
  unfold validate, ValidateToken, mbind, M_bind, gets, time_Now; cbn.
  destruct (jwt.ParseWithClaims _ _ _ _) as [[token|] err]; [|done].
  destruct (jwt.Token_Claims token) as [claims|]; [|done].
  cbn. by destruct (ExpiresAt claims <? clock w).
Qed.

(** C8.  ValidateToken leaves the process state as it found it, and its
    result is the same in any two states that agree on the signing key
    and the clock, whatever the "user" collection holds and whether the
    database answers. *)
Theorem ValidateToken_pure (signedToken : string) (w w' : World) :
  (ValidateToken signedToken w).2 = w
  ∧ (SECRET_KEY w' = SECRET_KEY w → clock w' = clock w →
     (ValidateToken signedToken w').1 = (ValidateToken signedToken w).1).
Proof.
  rewrite !ValidateToken_validate. split; [done|].
  cbn. by intros -> ->.
Qed.
End token_service_unconditional.

(** ** The auth gate *)

Section auth_gate.
Context `{!jwt.Primitives SignedDetails}.

Lemma Get_absent (h : http.Header) :
  h !! "Token" = None → http.Get h "token" = "".
Proof.
  intros Hh. unfold http.Get.
  change (http.CanonicalMIMEHeaderKey "token") with "Token". by rewrite Hh.
Qed.

Lemma Authentication_empty (next : gin.Context → M gin.Context) (c : gin.Context) (w : World) :
  http.Get (gin.Request_Header c) "token" = "" →
  Authentication next c w
  = (Returned (reject "No Authorization header provided" c), w).
Proof. intros Hg. unfold Authentication. by rewrite Hg. Qed.

Lemma Authentication_rejected (next : gin.Context → M gin.Context) (c : gin.Context)
    (w : World) (claims : option SignedDetails) (msg : string) :
  http.Get (gin.Request_Header c) "token" ≠ "" →
  ValidateToken (http.Get (gin.Request_Header c) "token") w = (Returned (claims, msg), w) →
  msg ≠ "" →
  Authentication next c w = (Returned (reject msg c), w).
Proof.
  intros Hg Hv Hmsg. unfold Authentication. rewrite decide_False by done.
  unfold mbind, M_bind. rewrite Hv. by rewrite decide_True.
Qed.

(** Past the abort index the loop of [c.Next()] runs nothing. *)
Lemma run_aborted (fuel : nat) (handlers : list gin.HandlerFunc) (c : gin.Context) (w : World) :
  (length handlers < 63)%nat → gin.abortIndex ≤ gin.index c →
  gin.run fuel handlers c w = (Returned c, w).
Proof.
  unfold gin.abortIndex. intros Hlen Hidx.
  destruct fuel; cbn [gin.run]; by rewrite (proj2 (Z.ltb_ge _ _)) by lia.
Qed.

(** C4.  A request without the [token] header is answered with status 500
    and the body [{"error": "No Authorization header provided"}], and the
    chain is aborted: the handler does not call [c.Next()], and the loop
    that runs the chain stops after it, whatever handlers follow. *)
Theorem Authentication_missing_header
    (fuel : nat) (handlers : list gin.HandlerFunc) (c : gin.Context) (w : World) :
  gin.Request_Header c !! "Token" = None →
  0 ≤ gin.index c →
  handlers !! Z.to_nat (gin.index c) = Some Authentication →
  (length handlers < 63)%nat →
  let rejected :=
    gin.mkContext (gin.Request_Header c) (gin.Keys c)
      (gin.Writer c ++ [gin.mkResponse 500
                          {["error" := "No Authorization header provided"]}])%list in
  (∀ next, Authentication next c w = (Returned (rejected 63), w))
  ∧ gin.run (S fuel) handlers c w = (Returned (rejected 64), w).
Proof.
  intros Hh Hidx Hat Hlen rejected. pose proof (Get_absent _ Hh) as Hg.
  split; [intros next; by rewrite Authentication_empty|].
  pose proof (lookup_lt_Some _ _ _ Hat) as Hlt.
  cbn [gin.run]. rewrite (proj2 (Z.ltb_lt _ _)) by lia.
  rewrite (proj2 (Z.ltb_ge _ _)) by lia.
  match goal with
  | |- context [@lookup ?K ?A ?L ?I ?i ?l] =>
      change (@lookup K A L I i l) with (handlers !! Z.to_nat (gin.index c))
  end.
  rewrite Hat. unfold mbind at 1, M_bind. rewrite Authentication_empty by done.
  apply run_aborted; [done|]. cbn. unfold gin.abortIndex. lia.
Qed.

(** C9 (the code departs from it).  Not every failure is answered.  A
    request without the header, or with a token ValidateToken answers
    with a message, gets one response with status 500, never one in the
    4xx range, and the chain is aborted.  But a token that does not split
    into three segments makes the gate panic inside ValidateToken before
    anything is written: that request gets no response from it.  Whatever
    the request, the gate does one of three things: it answers 500 and
    aborts, it panics, or it hands an accepted token's identity on. *)
Theorem Authentication_failure_status
    (next : gin.Context → M gin.Context) (c : gin.Context) (w : World) :
  let clientToken := http.Get (gin.Request_Header c) "token" in
  let answered :=
    ∃ c' r,
      Authentication next c w = (Returned c', w)
      ∧ gin.Writer c' = (gin.Writer c ++ [r])%list
      ∧ gin.status r = 500
      ∧ ¬ (400 ≤ gin.status r < 500)
      ∧ gin.IsAborted c' = true in
  ((clientToken = ""
    ∨ ∃ claims msg, ValidateToken clientToken w = (Returned (claims, msg), w) ∧ msg ≠ "") →
   answered)
  ∧ (clientToken ≠ "" → length (strings.Split clientToken) ≠ 3%nat →
     Authentication next c w = (Panicked nil_dereference, w))
  ∧ (answered
     ∨ (∃ v, Authentication next c w = (Panicked v, w))
     ∨ (∃ claims,
          ValidateToken clientToken w = (Returned (Some claims, ""), w)
          ∧ Authentication next c w = next (identified claims c) w)).
Proof.
  intros clientToken answered.
  assert (clientToken = "" → answered) as Hempty.
  { intros Hempty. eexists _, _. split; [by apply Authentication_empty|].
    repeat split; cbn; unfold http.StatusInternalServerError; (lia || done). }
  assert (∀ claims msg,
            clientToken ≠ "" →
            ValidateToken clientToken w = (Returned (claims, msg), w) → msg ≠ "" →
            answered) as Hrejected.
  { intros claims msg Hne Hv Hmsg. eexists _, _.
    split; [by eapply Authentication_rejected|].
    repeat split; cbn; unfold http.StatusInternalServerError; (lia || done). }
  split; [|split].
  - intros [Hnone|(claims & msg & Hv & Hmsg)]; [by apply Hempty|].
    destruct (decide (clientToken = "")) as [Hnone|Hne]; [by apply Hempty|].
    by apply (Hrejected claims msg).
  - intros Hne Hlen. unfold Authentication. rewrite decide_False by done.
    unfold mbind, M_bind. fold clientToken.
    by rewrite (ValidateToken_segments _ _ Hlen).
  - destruct (decide (clientToken = "")) as [Hnone|Hne]; [left; by apply Hempty|].
    pose proof (ValidateToken_validate clientToken w) as Hv.
    destruct (validate (SECRET_KEY w) (clock w) clientToken) as [[claims msg]|v].
    + destruct (decide (msg = "")) as [->|Hmsg]; [|left; by apply (Hrejected claims msg)].
      right. destruct claims as [claims|].
      * right. exists claims. split; [done|].
        unfold Authentication. rewrite decide_False by done.
        unfold mbind, M_bind. fold clientToken. rewrite Hv.
        by rewrite decide_False by auto.
      * left. exists nil_dereference.
        unfold Authentication. rewrite decide_False by done.
        unfold mbind, M_bind. fold clientToken. rewrite Hv.
        by rewrite decide_False by auto.
    + right. left. exists v.
      unfold Authentication. rewrite decide_False by done.
      unfold mbind, M_bind. fold clientToken. by rewrite Hv.
Qed.

(** C10.  When ValidateToken answers with a message, or panics, the keys
    of the request context are left as they were; the four identity keys
    are set, all of them, exactly when it answers with claims and an
    empty message, and only then is the rest of the chain run. *)
Theorem Authentication_identity_keys
    (next : gin.Context → M gin.Context) (c : gin.Context) (w : World) :
  let clientToken := http.Get (gin.Request_Header c) "token" in
  clientToken ≠ "" →
  (∀ claims msg,
      ValidateToken clientToken w = (Returned (claims, msg), w) → msg ≠ "" →
      ∃ c', Authentication next c w = (Returned c', w) ∧ gin.Keys c' = gin.Keys c)
  ∧ (∀ v, ValidateToken clientToken w = (Panicked v, w) →
          Authentication next c w = (Panicked v, w))
  ∧ (∀ claims,
        ValidateToken clientToken w = (Returned (Some claims, ""), w) →
        Authentication next c w
        = next (gin.mkContext (gin.Request_Header c)
                  (<["uid" := Uid claims]>
                     (<["last_name" := Last_name claims]>
                        (<["first_name" := First_name claims]>
                           (<["email" := Email claims]> (gin.Keys c)))))
                  (gin.Writer c) (gin.index c)) w).
Proof.
  intros clientToken Hne. repeat split.
  - intros claims msg Hv Hmsg. eexists. split; [by eapply Authentication_rejected|done].
  - intros v Hv. unfold Authentication. rewrite decide_False by done.
    unfold mbind, M_bind. fold clientToken. by rewrite Hv.
  - intros claims Hv. unfold Authentication. rewrite decide_False by done.
    unfold mbind, M_bind. fold clientToken. rewrite Hv. by rewrite decide_False by auto.
Qed.
End auth_gate.

(** ** Persisting a token pair *)

Section persistence.

Lemma matches_user_id (uid : string) (d : Document) :
  mongo.matches [("user_id", BString uid)] d = true
  ↔ d !! "user_id" = Some (BString uid).
Proof.
  unfold mongo.matches; cbn. rewrite andb_true_r. apply bool_decide_eq_true.
Qed.

Lemma apply_set_user_id (tok rtok : string) (now : Z) (d : Document) :
  mongo.apply_set (token_fields tok rtok now) d !! "user_id" = d !! "user_id".
Proof. unfold mongo.apply_set; cbn. by rewrite !lookup_insert_ne. Qed.

Lemma apply_set_holds (tok rtok : string) (now : Z) (d : Document) :
  holds_pair tok rtok (mongo.apply_set (token_fields tok rtok now) d).
Proof.
  unfold holds_pair, mongo.apply_set; cbn. split.
  - rewrite !lookup_insert_ne by done. apply lookup_insert_eq.
  - rewrite !lookup_insert_ne by done. apply lookup_insert_eq.
Qed.

Lemma records_of_cons (u : string) (d : Document) (docs : list Document) :
  records_of u (d :: docs)
  = if decide (d !! "user_id" = Some (BString u))
    then d :: records_of u docs else records_of u docs.
Proof. unfold records_of. by rewrite filter_cons. Qed.

Lemma records_of_snoc (u : string) (docs : list Document) (d : Document) :
  records_of u (docs ++ [d])
  = (records_of u docs
     ++ if decide (d !! "user_id" = Some (BString u)) then [d] else [])%list.
Proof.
  unfold records_of. rewrite filter_app, filter_cons, filter_nil.
  by destruct (decide _).
Qed.

(** Updating the first match keeps, for every subject, the number of its
    records, and the subject's first record then holds the pair. *)
Lemma update_first_Some (uid tok rtok : string) (now : Z) (docs docs' : list Document) :
  mongo.update_first [("user_id", BString uid)] (token_fields tok rtok now) docs = Some docs' →
  (∀ u, length (records_of u docs') = length (records_of u docs))
  ∧ records_of uid docs ≠ []
  ∧ ∃ d rest, records_of uid docs' = d :: rest ∧ holds_pair tok rtok d.
Proof.
  revert docs'. induction docs as [|d docs IH]; intros docs'; cbn [mongo.update_first]; [done|].
  destruct (mongo.matches _ d) eqn:Hm.
  - intros Heq. apply (inj Some) in Heq. subst docs'.
    apply matches_user_id in Hm. split; [|split].
    + intros u. rewrite !records_of_cons, apply_set_user_id.
      by destruct (decide _).
    + rewrite records_of_cons, decide_True; done.
    + rewrite records_of_cons, apply_set_user_id, decide_True by done.
      eexists _, _. split; [done|]. apply apply_set_holds.
  - destruct (mongo.update_first _ _ docs) as [docs''|] eqn:Hu;
      cbn [fmap option_fmap option_map]; [|done].
    intros Heq. apply (inj Some) in Heq. subst docs'.
    destruct (IH _ eq_refl) as (Hlen & Hne & Hd).
    assert (d !! "user_id" ≠ Some (BString uid)) as Hd'.
    { intros Hd'. apply matches_user_id in Hd'. congruence. }
    split; [|split].
    + intros u. rewrite !records_of_cons. destruct (decide _); cbn; by rewrite Hlen.
    + by rewrite records_of_cons, decide_False.
    + by rewrite records_of_cons, decide_False.
Qed.

Lemma update_first_None (uid : string) (fields : list (string * bson)) (docs : list Document) :
  mongo.update_first [("user_id", BString uid)] fields docs = None →
  records_of uid docs = [].
Proof.
  induction docs as [|d docs IH]; cbn [mongo.update_first]; [done|].
  destruct (mongo.matches _ d) eqn:Hm; [done|].
  destruct (mongo.update_first _ _ docs); cbn [fmap option_fmap option_map]; [done|].
  intros _.
  rewrite records_of_cons, decide_False; [by apply IH|].
  intros Hd. apply matches_user_id in Hd. congruence.
Qed.

(** What one call of UpdateAllTokens does to the collection while the
    database answers. *)
Lemma UpdateAllTokens_once (tok rtok uid : string) (w : World) :
  db_fault w = None →
  ∃ docs',
    UpdateAllTokens tok rtok uid w
    = (Returned tt, mkWorld (SECRET_KEY w) (clock w) docs' None)
    ∧ length (records_of uid docs') = Nat.max 1 (length (records_of uid (userCollection w)))
    ∧ (∀ u, u ≠ uid →
            length (records_of u docs') = length (records_of u (userCollection w)))
    ∧ ∃ d rest, records_of uid docs' = d :: rest ∧ holds_pair tok rtok d.
Proof.
  intros Hdb.
  unfold UpdateAllTokens, mongo.UpdateOne, mbind, M_bind, gets, time_Now, modify; cbn.
  rewrite Hdb; cbn. fold (token_fields tok rtok (clock w)).
  destruct (mongo.update_first _ _ (userCollection w)) as [docs'|] eqn:Hu.
  - destruct (update_first_Some _ _ _ _ _ _ Hu) as (Hlen & Hne & Hd).
    exists docs'. split; [by rewrite Hdb|]. split; [|split; [by intros u _|done]].
    rewrite Hlen. destruct (records_of uid (userCollection w)); [done|cbn; lia].
  - pose proof (update_first_None _ _ _ Hu) as Hnone.
    set (new := mongo.apply_set (token_fields tok rtok (clock w))
                  (mongo.apply_set [("user_id", BString uid)] ∅)).
    assert (new !! "user_id" = Some (BString uid)) as Hid.
    { unfold new. rewrite apply_set_user_id. apply lookup_insert_eq. }
    exists (userCollection w ++ [new])%list. split; [by rewrite Hdb|].
    split; [|split].
    + by rewrite records_of_snoc, Hnone, decide_True.
    + intros u Hu'. rewrite records_of_snoc, decide_False; [by rewrite app_nil_r|].
      rewrite Hid. congruence.
    + rewrite records_of_snoc, Hnone, decide_True by done.
      eexists _, _. split; [done|]. apply apply_set_holds.
Qed.

(** C7.  While the database answers, persisting a pair for a subject and
    then another pair for the same subject leaves as many records for
    that subject as the first call did, which created one if there was
    none; the record found for the subject holds the latest pair; and a
    collection with at most one record per subject stays so. *)
Theorem UpdateAllTokens_overwrites
    (tok1 rtok1 tok2 rtok2 uid : string) (w : World) :
  db_fault w = None →
  ∃ w1 w2,
    UpdateAllTokens tok1 rtok1 uid w = (Returned tt, w1)
    ∧ UpdateAllTokens tok2 rtok2 uid w1 = (Returned tt, w2)
    ∧ length (records_of uid (userCollection w1))
      = Nat.max 1 (length (records_of uid (userCollection w)))
    ∧ length (records_of uid (userCollection w2))
      = length (records_of uid (userCollection w1))
    ∧ (∃ d rest, records_of uid (userCollection w1) = d :: rest ∧ holds_pair tok1 rtok1 d)
    ∧ (∃ d rest, records_of uid (userCollection w2) = d :: rest ∧ holds_pair tok2 rtok2 d)
    ∧ ((∀ u, (length (records_of u (userCollection w)) ≤ 1)%nat) →
       ∀ u, (length (records_of u (userCollection w2)) ≤ 1)%nat).
Proof.
  intros Hdb.
  destruct (UpdateAllTokens_once tok1 rtok1 uid w Hdb) as (docs1 & H1 & Hn1 & Ho1 & Hd1).
  set (w1 := mkWorld (SECRET_KEY w) (clock w) docs1 None) in *.
  destruct (UpdateAllTokens_once tok2 rtok2 uid w1 eq_refl) as (docs2 & H2 & Hn2 & Ho2 & Hd2).
  eexists w1, _. split; [done|]. split; [exact H2|].
  subst w1. cbn [userCollection clock SECRET_KEY] in *.
  repeat split; try done.
  - rewrite Hn2, Hn1. lia.
  - intros Hinv u. destruct (decide (u = uid)) as [->|Hu].
    + rewrite Hn2, Hn1. specialize (Hinv uid). lia.
    + rewrite Ho2, Ho1 by done. apply Hinv.
Qed.
End persistence.

(** ** Concrete runs on the reference instance *)

Section runs.
Import reference.

Example ann_token_issued :
  GenerateAllTokens "a@b.c" "Ann" "Lee" "u1" world
  = (Returned (ann_token, ann_refresh_token, None), world).
Proof. vm_compute. reflexivity. Qed.

Example ann_token_signed :
  jwt.SignedString jwt.SigningMethodHS256 ann "secret" = Ok ann_token.
Proof. vm_compute. reflexivity. Qed.

Example ann_signing_string_signed :
  jwt.SigningString HS256_header ann = Ok ann_signing_string.
Proof. vm_compute. reflexivity. Qed.

(** The library does report the forged signature; ValidateToken does not
    look. *)
Example forged_signature_reported :
  (jwt.ParseWithClaims (ann_signing_string +:+ ".AAAA") SignedDetails_zero
     "secret" 1700000000).2
  = Some (jwt.mkValidationError (Some jwt.ErrSignatureInvalid)
            jwt.ValidationErrorSignatureInvalid "").
Proof. vm_compute. reflexivity. Qed.

Lemma ValidateToken_malformed_witness :
  ValidateToken "a.b" world = (Panicked nil_dereference, world)
  ∧ Accepted (ValidateToken (ann_signing_string +:+ ".AAAA") world).1 ann.
Proof.
  destruct (ValidateToken_malformed reference_lawful world) as [Hsegments Hforged].
  split.
  - apply Hsegments. vm_compute. lia.
  - apply (Hforged ann ann_signing_string "AAAA").
    + vm_compute. reflexivity.
    + vm_compute. reflexivity.
    + vm_compute. discriminate.
    + vm_compute. discriminate.
Defined.

Lemma ValidateToken_GenerateAllTokens_witness :
  ∃ token refreshToken,
    GenerateAllTokens "a@b.c" "Ann" "Lee" "u1" world
    = (Returned (token, refreshToken, None), world)
    ∧ ∃ claims,
        ValidateToken token (world_at 1700086399)
        = (Returned (Some claims, ""), world_at 1700086399)
        ∧ ExpiresAt claims = 1700086400
        ∧ Email claims = "a@b.c" ∧ First_name claims = "Ann"
        ∧ Last_name claims = "Lee" ∧ Uid claims = "u1".
Proof.
  destruct (ValidateToken_GenerateAllTokens reference_lawful "a@b.c" "Ann" "Lee" "u1" world)
    as (token & refreshToken & Hissue & Hvalidate).
  exists token, refreshToken. split; [exact Hissue|].
  apply (Hvalidate (world_at 1700086399)).
  - reflexivity.
  - vm_compute. reflexivity.
Defined.

Example ann_token_correctly_signed (now : Z) :
  correctly_signed (SECRET_KEY (world_at now)) ann_token ann.
Proof.
  apply (SignedString_correctly_signed reference_lawful). vm_compute. reflexivity.
Qed.

Lemma ValidateToken_expired_iff_witness :
  (ExpiredToken (ValidateToken ann_token (world_at 1700086401)).1
   ↔ ExpiresAt ann < 1700086401)
  ∧ (1700086401 ≤ ExpiresAt ann →
     Accepted (ValidateToken ann_token (world_at 1700086401)).1 ann).
Proof.
  apply (ValidateToken_expired_iff ann ann_token (world_at 1700086401)).
  apply (SignedString_correctly_signed reference_lawful). vm_compute. reflexivity.
Defined.

(** At the very second of [ExpiresAt] the token is still accepted, so the
    expiry rejection is not what ValidateToken answers although the clock
    is at [ExpiresAt]. *)
Lemma ValidateToken_at_expiry :
  correctly_signed (SECRET_KEY (world_at 1700086400)) ann_token ann
  ∧ ¬ (ExpiredToken (ValidateToken ann_token (world_at 1700086400)).1
       ↔ ExpiresAt ann ≤ clock (world_at 1700086400)).
Proof.
  split; [apply ann_token_correctly_signed|].
  intros [_ Hexp].
  destruct Hexp as (c & msg & Hr & Hmsg); [vm_compute; discriminate|].
  vm_compute in Hr. congruence.
Qed.

Lemma Authentication_missing_header_witness :
  let rejected :=
    gin.mkContext {["Accept" := ["*/*"]]} ∅
      [gin.mkResponse 500 {["error" := "No Authorization header provided"]}] in
  (∀ next, Authentication next (gin.advance (gin.advance bare_request)) world
           = (Returned (rejected 63), world))
  ∧ gin.run 1 chain (gin.advance (gin.advance bare_request)) world
    = (Returned (rejected 64), world).
Proof.
  apply (Authentication_missing_header 0 chain (gin.advance (gin.advance bare_request)) world).
  - vm_compute. reflexivity.
  - vm_compute. discriminate.
  - reflexivity.
  - vm_compute. lia.
Defined.

(** The whole chain of a protected route: without the header the handler
    is not reached; with the token issued to Ann it is, and finds her
    identity in the context. *)
Example chain_without_header :
  gin.handleHTTPRequest 3 chain bare_request world
  = (Returned
       (gin.mkContext {["Accept" := ["*/*"]]} ∅
          [gin.mkResponse 500 {["error" := "No Authorization header provided"]}] 65),
     world).
Proof. vm_compute. reflexivity. Qed.

Example chain_with_token :
  gin.handleHTTPRequest 3 chain (request ann_token) world
  = (Returned
       (gin.mkContext {["Token" := [ann_token]]}
          (<["uid" := "u1"]>
             (<["last_name" := "Lee"]>
                (<["first_name" := "Ann"]> (<["email" := "a@b.c"]> ∅))))
          [gin.mkResponse 200 {["ok" := "yes"]}] 5),
     world).
Proof. vm_compute. reflexivity. Qed.



(** Without the hash both signings fail, and issuance panics with the
    error of the library. *)
Example issuance_without_hash :
  Marshals (H := unlinked)
  ∧ jwt.SignedString (Primitives0 := unlinked)
      (jwt.SigningMethodHS256 (Primitives0 := unlinked)) ann "secret"
    = Err jwt.ErrHashUnavailable
  ∧ GenerateAllTokens (H := unlinked) "a@b.c" "Ann" "Lee" "u1" world
    = (Panicked jwt.ErrHashUnavailable, world).
Proof.
  split; [|split].
  - split.
    + eexists. vm_compute. reflexivity.
    + intros c. eexists. reflexivity.
  - vm_compute. reflexivity.
  - vm_compute. reflexivity.
Qed.

Lemma GenerateAllTokens_claims_witness :
  ∃ token refreshToken,
    GenerateAllTokens "a@b.c" "Ann" "Lee" "u1" world
    = (Returned (token, refreshToken, None), world)
    ∧ claims_of token
      = Some {| Email := "a@b.c"; First_name := "Ann"; Last_name := "Lee"; Uid := "u1";
                StandardClaims :=
                  {| jwt.Audience := ""; jwt.ExpiresAt := 1700086400;
                     jwt.Id := ""; jwt.IssuedAt := 0; jwt.Issuer := "";
                     jwt.NotBefore := 0; jwt.Subject := "" |} |}
    ∧ claims_of refreshToken
      = Some {| Email := ""; First_name := ""; Last_name := ""; Uid := "";
                StandardClaims :=
                  {| jwt.Audience := ""; jwt.ExpiresAt := 1700604800;
                     jwt.Id := ""; jwt.IssuedAt := 0; jwt.Issuer := "";
                     jwt.NotBefore := 0; jwt.Subject := "" |} |}.
Proof.
  exact (GenerateAllTokens_claims reference_lawful "a@b.c" "Ann" "Lee" "u1" world).
Defined.

Lemma UpdateAllTokens_overwrites_witness :
  ∃ w1 w2,
    UpdateAllTokens "t1" "r1" "u1" world = (Returned tt, w1)
    ∧ UpdateAllTokens "t2" "r2" "u1" w1 = (Returned tt, w2)
    ∧ length (records_of "u1" (userCollection w1))
      = Nat.max 1 (length (records_of "u1" (userCollection world)))
    ∧ length (records_of "u1" (userCollection w2))
      = length (records_of "u1" (userCollection w1))
    ∧ (∃ d rest, records_of "u1" (userCollection w1) = d :: rest ∧ holds_pair "t1" "r1" d)
    ∧ (∃ d rest, records_of "u1" (userCollection w2) = d :: rest ∧ holds_pair "t2" "r2" d)
    ∧ ((∀ u, (length (records_of u (userCollection world)) ≤ 1)%nat) →
       ∀ u, (length (records_of u (userCollection w2)) ≤ 1)%nat).
Proof.
  apply (UpdateAllTokens_overwrites "t1" "r1" "t2" "r2" "u1" world).
  reflexivity.
Defined.

(** The two calls on the empty collection leave one document. *)
Example UpdateAllTokens_twice :
  userCollection
    (UpdateAllTokens "t2" "r2" "u1" (UpdateAllTokens "t1" "r1" "u1" world).2).2
  = [ <["updated_at" := BDateTime 1700000000]>
        (<["refresh_token" := BString "r2"]>
           (<["token" := BString "t2"]> (<["user_id" := BString "u1"]> ∅))) ].
Proof. vm_compute. reflexivity. Qed.

Lemma ValidateToken_pure_witness :
  (ValidateToken ann_token world).2 = world
  ∧ (ValidateToken ann_token
       (mkWorld "secret" 1700000000 [{["user_id" := BString "u1"]}] (Some "no reachable servers"))).1
    = (ValidateToken ann_token world).1.
Proof.
  destruct (ValidateToken_pure ann_token world
              (mkWorld "secret" 1700000000 [{["user_id" := BString "u1"]}]
                 (Some "no reachable servers"))) as [Hstate Hresult].
  split; [exact Hstate|]. apply Hresult; reflexivity.
Defined.

(** The token [a.b] gets no response; the token [!.b.c] gets the 500. *)
Lemma Authentication_failure_status_witness :
  Authentication (handler (λ c, mret c)) (request "a.b") world
  = (Panicked nil_dereference, world)
  ∧ ∃ c' r,
      Authentication (handler (λ c, mret c)) (request "!.b.c") world = (Returned c', world)
      ∧ gin.Writer c' = (gin.Writer (request "!.b.c") ++ [r])%list
      ∧ gin.status r = 500
      ∧ ¬ (400 ≤ gin.status r < 500)
      ∧ gin.IsAborted c' = true.
Proof.
  split.
  - destruct (Authentication_failure_status (handler (λ c, mret c)) (request "a.b") world)
      as (_ & Hpanics & _).
    apply Hpanics.
    + vm_compute. discriminate.
    + vm_compute. lia.
  - destruct (Authentication_failure_status (handler (λ c, mret c)) (request "!.b.c") world)
      as (Hanswered & _ & _).
    apply Hanswered.
    right. exists None, "illegal base64 data at input byte 0".
    split; [vm_compute; reflexivity|discriminate].
Defined.

Lemma Authentication_identity_keys_witness :
  (∃ c', Authentication (handler (λ c, mret c)) (request "!.b.c") world = (Returned c', world)
         ∧ gin.Keys c' = gin.Keys (request "!.b.c"))
  ∧ Authentication (handler (λ c, mret c)) (request "a.b") world = (Panicked nil_dereference, world)
  ∧ Authentication (handler (λ c, mret c)) (request ann_token) world
    = handler (λ c, mret c) (gin.mkContext (gin.Request_Header (request ann_token))
                 (<["uid" := "u1"]>
                    (<["last_name" := "Lee"]>
                       (<["first_name" := "Ann"]> (<["email" := "a@b.c"]> ∅))))
                 [] (-1)) world.
Proof.
  split; [|split].
  - destruct (Authentication_identity_keys (handler (λ c, mret c)) (request "!.b.c") world) as (Hfail & _ & _).
    + vm_compute. discriminate.
    + apply (Hfail None "illegal base64 data at input byte 0");
        [vm_compute; reflexivity|discriminate].
  - destruct (Authentication_identity_keys (handler (λ c, mret c)) (request "a.b") world) as (_ & Hpanic & _).
    + vm_compute. discriminate.
    + apply Hpanic. vm_compute. reflexivity.
  - destruct (Authentication_identity_keys (handler (λ c, mret c)) (request ann_token) world) as (_ & _ & Hok).
    + vm_compute. discriminate.
    + apply (Hok ann). vm_compute. reflexivity.
Defined.
End runs.

(** * Further properties *)

(** ** The token service *)
Section token_service_more.
Context `{!jwt.Primitives SignedDetails}.

(** Verification keeps the token, and the claims it points to, that the
    unverified parse produced. *)
Lemma ParseWithClaims_claims (s key : string) (now : Z) :
  match jwt.ParseUnverified s SignedDetails_zero with
  | (None, _, _) => (jwt.ParseWithClaims s SignedDetails_zero key now).1 = None
  | (Some token, _, _) =>
      ∃ token', (jwt.ParseWithClaims s SignedDetails_zero key now).1 = Some token'
                ∧ jwt.Token_Claims token' = jwt.Token_Claims token
  end.
Proof.
  unfold jwt.ParseWithClaims.
  destruct (jwt.ParseUnverified s SignedDetails_zero) as [[[token|] parts] [err|]]; cbn [fst].
  - eauto.
  - match goal with |- context [if ?b then _ else _] => destruct b end; cbn; eauto.
  - done.
  - done.
Qed.

(** The unverified parse reports errors that have a text. *)
Lemma ParseUnverified_worded (s : string) token parts (e : jwt.ValidationError) :
  Worded →
  jwt.ParseUnverified s SignedDetails_zero = (token, parts, Some e) →
  jwt.Error e ≠ "".
Proof.
  intros Hw. unfold jwt.ParseUnverified.
  destruct (strings.Split s) as [|p0 [|p1 [|p2 [|p3 rest]]]];
    try (intros [= <- <- <-]; done).
  destruct (jwt.DecodeSegment p0) as [hb|e0] eqn:H0.
  2:{ destruct (strings.HasPrefix _ _); intros [= <- <- <-]; [done|].
      cbn. by apply (DecodeSegment_worded Hw p0). }
  destruct (jwt.json_Unmarshal_header hb) as [hd|e1] eqn:H1.
  2:{ intros [= <- <- <-]. cbn. by apply (Unmarshal_header_worded Hw hb). }
  destruct (jwt.DecodeSegment p1) as [cb|e2] eqn:H2.
  2:{ intros [= <- <- <-]. cbn. by apply (DecodeSegment_worded Hw p1). }
  destruct (jwt.json_Decode_claims cb SignedDetails_zero) as [c [e3|]] eqn:H3.
  { intros [= <- <- <-]. cbn. by apply (Decode_claims_worded Hw cb SignedDetails_zero c). }
  destruct (hd !! "alg") as [[m|]|]; try (intros [= <- <- <-]; done).
  destruct (jwt.GetSigningMethod m); intros [= <- <- <-]; done.
Qed.

(** A token read without error has the method its header names. *)
Lemma ParseUnverified_method (s : string) (tk : jwt.Token) parts :
  jwt.ParseUnverified s SignedDetails_zero = (Some tk, parts, None) →
  ∃ alg m, jwt.Method tk = Some m ∧ jwt.GetSigningMethod alg = Some m.
Proof.
  unfold jwt.ParseUnverified.
  destruct (strings.Split s) as [|p0 [|p1 [|p2 [|p3 rest]]]]; try done.
  destruct (jwt.DecodeSegment p0) as [hb|e0]; [|by destruct (strings.HasPrefix _ _)].
  destruct (jwt.json_Unmarshal_header hb) as [hd|e1]; [|done].
  destruct (jwt.DecodeSegment p1) as [cb|e2]; [|done].
  destruct (jwt.json_Decode_claims cb SignedDetails_zero) as [c [e3|]]; [done|].
  destruct (hd !! "alg") as [[alg|]|]; try done.
  destruct (jwt.GetSigningMethod alg) as [m|] eqn:Hm; [|done].
  intros [= <- <-]. eauto.
Qed.

(** The errors of the signing methods have a text. *)
Lemma Verify_worded_any (alg : string) (m : jwt.SigningMethod)
    (signingString signature key : string) (e : error) :
  Worded →
  jwt.GetSigningMethod alg = Some m →
  jwt.Verify m signingString signature key = Some e → e ≠ "".
Proof.
  intros Hw. unfold jwt.GetSigningMethod. destruct (decide (alg = "HS256")) as [Halg|Halg].
  - intros [= <-]. cbn.
    destruct (jwt.DecodeSegment signature) as [sig|e0] eqn:Hd.
    + destruct jwt.sha256_Available; [destruct (decide _)|]; by intros [= <-].
    + intros Heq. assert (e = e0) as -> by congruence.
      by apply (DecodeSegment_worded Hw signature).
  - intros Hm. by apply (Verify_worded Hw alg).
Qed.

(** So does the verifying parse. *)
Lemma ParseWithClaims_worded (s key : string) (now : Z) token (e : jwt.ValidationError) :
  Worded →
  jwt.ParseWithClaims s SignedDetails_zero key now = (token, Some e) →
  jwt.Error e ≠ "".
Proof.
  intros Hw. unfold jwt.ParseWithClaims.
  destruct (jwt.ParseUnverified s SignedDetails_zero) as [[[tk|] parts] [err|]] eqn:HP.
  - intros [= <- <-]. by apply (ParseUnverified_worded _ _ _ _ Hw HP).
  - destruct (ParseUnverified_method _ _ _ HP) as (alg & m & Hm & Hg).
    cbn [jwt.Method jwt.Token_Claims]. rewrite Hm.
    destruct (jwt.Verify m _ _ key) as [ev|] eqn:Hv.
    + cbn. destruct (jwt.valid _); intros [= <- <-]. cbn.
      by apply (Verify_worded_any _ _ _ _ _ _ Hw Hg Hv).
    + destruct (jwt.Token_Claims tk) as [c|]; [|done].
      unfold jwt.Claims_Valid, SignedDetails_Claims.
      destruct (jwt.StandardClaims_Valid (StandardClaims c) now) as [e'|] eqn:HV; [|done].
      cbn. rewrite (StandardClaims_Valid_flagged _ _ _ HV). intros [= <- <-].
      by apply (StandardClaims_Valid_text _ _ _ HV).
  - intros [= <- <-]. by apply (ParseUnverified_worded _ _ _ _ Hw HP).
  - done.
Qed.

(** X1.  ValidateToken accepts a string, with the claims [cl], exactly when
    the parser reads a token with those claims out of it before anything
    is verified, and the clock is not past their [ExpiresAt].  The key,
    the signature, the signing method and the [nbf] and [iat] claims have
    no say: the error of [ParseWithClaims] only ever becomes the text of a
    rejection.  Every error of the primitives is taken to have a text. *)
Theorem ValidateToken_accepts_iff (s : string) (w : World) (cl : SignedDetails) :
  Worded →
  Accepted (ValidateToken s w).1 cl
  ↔ ∃ token parts err,
      jwt.ParseUnverified s SignedDetails_zero = (Some token, parts, err)
      ∧ jwt.Token_Claims token = Some cl
      ∧ clock w ≤ ExpiresAt cl.
Proof.
  intros Hw. unfold Accepted.
  pose proof (ParseWithClaims_claims s (SECRET_KEY w) (clock w)) as HP.
  destruct (jwt.ParseWithClaims s SignedDetails_zero (SECRET_KEY w) (clock w))
    as [tk e] eqn:HPW.
  destruct (jwt.ParseUnverified s SignedDetails_zero) as [[[token|] parts] err].
  - destruct HP as (token' & HP & HC). cbn in HP. subst tk.
    destruct (jwt.Token_Claims token) as [claims|] eqn:HT.
    + rewrite (ValidateToken_parsed _ _ _ _ _ HPW HC). cbn [fst].
      destruct (Z.ltb_spec (ExpiresAt claims) (clock w)) as [Hlt|Hge].
      * split.
        -- intros [= <- Hmsg]. destruct e as [e|]; [|done].
           by destruct (ParseWithClaims_worded _ _ _ _ _ Hw HPW).
        -- intros (t0 & p0 & e0 & [= <- <- <-] & HC' & Hexp).
           assert (claims = cl) as -> by congruence. lia.
      * split.
        -- intros [= <-]. eauto 10.
        -- intros (t0 & p0 & e0 & [= <- <- <-] & HC' & Hexp). congruence.
    + split.
      * unfold ValidateToken, mbind, M_bind, gets, time_Now; cbn.
        rewrite HPW, HC. done.
      * intros (t0 & p0 & e0 & [= <- <- <-] & HC' & Hexp). congruence.
  - cbn in HP. subst tk. split.
    + unfold ValidateToken, mbind, M_bind, gets, time_Now; cbn. by rewrite HPW.
    + by intros (t0 & p0 & e0 & [= ] & _).
Qed.
End token_service_more.

Section token_service_more2.
Context `{!jwt.Primitives SignedDetails}.

(** X2.  A correctly signed token without an [exp] claim, which the library
    accepts, is rejected by ValidateToken at any time after the epoch, with
    the message of line 170, [token is expired]: the comparison of line 169
    reads the missing claim as the instant 0. *)
Theorem ValidateToken_without_expiry (cl : SignedDetails) (tok : string) (w : World) :
  correctly_signed (SECRET_KEY w) tok cl →
  ExpiresAt cl = 0 →
  0 < clock w →
  jwt.IssuedAt (StandardClaims cl) ≤ clock w →
  jwt.NotBefore (StandardClaims cl) ≤ clock w →
  (jwt.ParseWithClaims tok SignedDetails_zero (SECRET_KEY w) (clock w)).2 = None
  ∧ ValidateToken tok w = (Returned (Some cl, "token is expired"), w).
Proof.
  intros Hs Hexp Hnow Hiat Hnbf.
  assert (jwt.StandardClaims_Valid (StandardClaims cl) (clock w) = None) as HV.
  { unfold jwt.StandardClaims_Valid, jwt.verifyExp, jwt.verifyIat, jwt.verifyNbf.
    unfold ExpiresAt in Hexp. rewrite Hexp. cbn.
    destruct (Z.eqb_spec (jwt.IssuedAt (StandardClaims cl)) 0);
      destruct (Z.eqb_spec (jwt.NotBefore (StandardClaims cl)) 0); cbn;
      rewrite ?(proj2 (Z.leb_le _ _)) by done; reflexivity. }
  split.
  - destruct (ParseWithClaims_correctly_signed _ _ _ (clock w) Hs) as (token & HP & _).
    by rewrite HP, HV.
  - rewrite (ValidateToken_correctly_signed _ _ _ Hs), HV, Hexp.
    by rewrite (proj2 (Z.ltb_lt _ _)) by done.
Qed.

(** X3.  A string of three segments whose first segment is not base64url is
    answered with nil claims and a message: the decoder's, or, when the
    string starts with [bearer ] in any letter case, the library's. *)
Theorem ValidateToken_undecodable_header (s p0 p1 p2 : string) (e : error) (w : World) :
  strings.Split s = [p0; p1; p2] →
  jwt.DecodeSegment p0 = Err e →
  ValidateToken s w
  = (Returned (None,
               if strings.HasPrefix (strings.ToLower s) "bearer "
               then "tokenstring should not contain 'bearer '" else e), w).
Proof.
  intros Hs Hd. unfold ValidateToken, mbind, M_bind, gets, time_Now; cbn.
  unfold jwt.ParseWithClaims, jwt.ParseUnverified. rewrite Hs, Hd.
  by destruct (strings.HasPrefix _ _).
Qed.

(** A signed token is not the empty string. *)
Lemma SignedString_nonempty (m : jwt.SigningMethod) (cl : SignedDetails) (key tok : string) :
  jwt.SignedString m cl key = Ok tok → tok ≠ "".
Proof.
  unfold jwt.SignedString.
  destruct (jwt.SigningString _ cl) as [sstr|]; [|done].
  destruct (jwt.Sign m sstr key) as [sig|]; [|done].
  intros [= <-]. cbn. by destruct sstr.
Qed.
End token_service_more2.

Section auth_gate_more.
Context `{!jwt.Primitives SignedDetails}.

(** What the gate does with a token that ValidateToken accepts. *)
Lemma Authentication_accepted (next : gin.Context → M gin.Context) (c : gin.Context)
    (w : World) (claims : SignedDetails) :
  http.Get (gin.Request_Header c) "token" ≠ "" →
  ValidateToken (http.Get (gin.Request_Header c) "token") w = (Returned (Some claims, ""), w) →
  Authentication next c w = next (identified claims c) w.
Proof.
  intros Hne Hv. unfold Authentication. rewrite decide_False by done.
  unfold mbind, M_bind. rewrite Hv. by rewrite decide_False by auto.
Qed.

(** X4.  The gate lets a refresh token through: up to 168 hours after
    GenerateAllTokens issued it, a request bearing it reaches the rest of
    the chain, with the four identity keys set to the empty string. *)
Theorem Authentication_refresh_token
    (email firstName lastName uid : string) (w w' : World)
    (next : gin.Context → M gin.Context) (c : gin.Context) :
  Lawful →
  ∃ token refreshToken,
    GenerateAllTokens email firstName lastName uid w
    = (Returned (token, refreshToken, None), w)
    ∧ (SECRET_KEY w' = SECRET_KEY w →
       clock w' ≤ clock w + hours 168 →
       http.Get (gin.Request_Header c) "token" = refreshToken →
       Authentication next c w'
       = next (gin.mkContext (gin.Request_Header c)
                 (<["uid" := ""]>
                    (<["last_name" := ""]>
                       (<["first_name" := ""]> (<["email" := ""]> (gin.Keys c)))))
                 (gin.Writer c) (gin.index c)) w').
Proof.
  intros laws.
  destruct (GenerateAllTokens_returns laws email firstName lastName uid w)
    as (token & refreshToken & HG & _ & Hr).
  exists token, refreshToken. split; [done|].
  intros Hkey Hnow Hget. rewrite <- Hkey in Hr.
  pose proof (SignedString_nonempty _ _ _ _ Hr) as Hne.
  rewrite (Authentication_accepted next c w'
             (mkSignedDetails "" "" "" "" (jwt.StandardClaims_exp (clock w + hours 168)))).
  - reflexivity.
  - by rewrite Hget.
  - rewrite Hget, (ValidateToken_signed laws _ _ _ Hr).
    unfold ExpiresAt; cbn. by rewrite (proj2 (Z.ltb_ge _ _)) by lia.
Qed.

(** X5.  A request bearing an issued access token after its 24 hours is
    answered by the gate with status 500 and the library's message,
    [token is expired by] and the time elapsed since; the chain is
    aborted and the keys are left as they were. *)
Theorem Authentication_expired_token
    (email firstName lastName uid : string) (w w' : World)
    (next : gin.Context → M gin.Context) (c : gin.Context) :
  Lawful →
  ∃ token refreshToken,
    GenerateAllTokens email firstName lastName uid w
    = (Returned (token, refreshToken, None), w)
    ∧ (SECRET_KEY w' = SECRET_KEY w →
       clock w + hours 24 < clock w' →
       clock w + hours 24 ≠ 0 →
       http.Get (gin.Request_Header c) "token" = token →
       Authentication next c w'
       = (Returned
            (gin.mkContext (gin.Request_Header c) (gin.Keys c)
               (gin.Writer c
                ++ [gin.mkResponse 500
                      {["error" := "token is expired by "
                                   +:+ jwt.fmt_Duration (clock w' - (clock w + hours 24))]}])
               63), w')).
Proof.
  intros laws.
  destruct (GenerateAllTokens_returns laws email firstName lastName uid w)
    as (token & refreshToken & HG & Ht & _).
  exists token, refreshToken. split; [done|].
  intros Hkey Hnow Hnz Hget. rewrite <- Hkey in Ht.
  pose proof (SignedString_nonempty _ _ _ _ Ht) as Hne.
  pose proof (ValidateToken_signed laws _ w' _ Ht) as Hv.
  unfold ExpiresAt, jwt.StandardClaims_Valid, jwt.verifyExp in Hv; cbn in Hv.
  rewrite (proj2 (Z.ltb_lt _ _)) in Hv by lia.
  rewrite (proj2 (Z.eqb_neq _ _)) in Hv by lia.
  rewrite (proj2 (Z.leb_gt _ _)) in Hv by lia.
  cbn in Hv.
  rewrite (Authentication_rejected next c w' _ _ ltac:(by rewrite Hget) ltac:(by rewrite Hget; exact Hv)).
  - reflexivity.
  - done.
Qed.

(** X6.  On a header value that is not empty and does not split into three
    segments the gate panics, whatever would follow it, and so does the
    loop that runs the chain: no response is written. *)
Theorem Authentication_wrong_segment_count
    (fuel : nat) (handlers : list gin.HandlerFunc) (c : gin.Context) (w : World) :
  let clientToken := http.Get (gin.Request_Header c) "token" in
  clientToken ≠ "" →
  length (strings.Split clientToken) ≠ 3%nat →
  0 ≤ gin.index c →
  handlers !! Z.to_nat (gin.index c) = Some Authentication →
  (∀ next, Authentication next c w = (Panicked nil_dereference, w))
  ∧ gin.run (S fuel) handlers c w = (Panicked nil_dereference, w).
Proof.
  intros clientToken Hne Hlen Hidx Hat.
  assert (∀ next, Authentication next c w = (Panicked nil_dereference, w)) as HA.
  { intros next. unfold Authentication. rewrite decide_False by done.
    unfold mbind, M_bind. fold clientToken.
    by rewrite (ValidateToken_segments _ _ Hlen). }
  split; [done|].
  pose proof (lookup_lt_Some _ _ _ Hat) as Hlt.
  cbn [gin.run]. rewrite (proj2 (Z.ltb_lt _ _)) by lia.
  rewrite (proj2 (Z.ltb_ge _ _)) by lia.
  match goal with
  | |- context [@lookup ?K ?A ?L ?I ?i ?l] =>
      change (@lookup K A L I i l) with (handlers !! Z.to_nat (gin.index c))
  end.
  rewrite Hat. unfold mbind at 1, M_bind. by rewrite HA.
Qed.

(** X7.  Of the values of the [token] header only the first is looked at:
    when it is empty, or the header is there without a value, the request
    is answered as if the header were missing, whatever values follow. *)
Theorem Authentication_empty_first_value
    (next : gin.Context → M gin.Context) (c : gin.Context) (w : World) (values : list string) :
  gin.Request_Header c !! "Token" = Some values →
  head values = None ∨ head values = Some "" →
  Authentication next c w
  = (Returned
       (gin.mkContext (gin.Request_Header c) (gin.Keys c)
          (gin.Writer c
           ++ [gin.mkResponse 500 {["error" := "No Authorization header provided"]}])
          63), w).
Proof.
  intros Hh Hv. rewrite Authentication_empty; [done|].
  unfold http.Get. change (http.CanonicalMIMEHeaderKey "token") with "Token".
  rewrite Hh. destruct values as [|v vs]; [done|]. destruct Hv as [Hv|Hv]; by simplify_eq/=.
Qed.
End auth_gate_more.

Section persistence_more.

(** [$set] of the token fields leaves every other field alone. *)
Lemma apply_set_other (tok rtok : string) (now : Z) (d : Document) (k : string) :
  k ≠ "token" → k ≠ "refresh_token" → k ≠ "updated_at" →
  mongo.apply_set (token_fields tok rtok now) d !! k = d !! k.
Proof.
  intros H1 H2 H3. unfold mongo.apply_set; cbn. by rewrite !lookup_insert_ne.
Qed.

(** The update changes the first match, in place. *)
Lemma update_first_position (filter fields : list (string * bson)) (docs docs' : list Document) :
  mongo.update_first filter fields docs = Some docs' →
  ∃ i d,
    docs !! i = Some d
    ∧ mongo.matches filter d = true
    ∧ (∀ j dj, (j < i)%nat → docs !! j = Some dj → mongo.matches filter dj = false)
    ∧ docs' = <[i := mongo.apply_set fields d]> docs.
Proof.
  revert docs'. induction docs as [|d docs IH]; intros docs'; cbn [mongo.update_first]; [done|].
  destruct (mongo.matches filter d) eqn:Hm.
  - intros Heq. apply (inj Some) in Heq. subst docs'.
    exists 0%nat, d. split; [done|]. split; [done|]. split; [intros j dj Hj; lia|done].
  - destruct (mongo.update_first filter fields docs) as [docs''|];
      cbn [fmap option_fmap option_map]; [|done].
    intros Heq. apply (inj Some) in Heq. subst docs'.
    destruct (IH _ eq_refl) as (i & d' & Hi & Hmi & Hbefore & ->).
    exists (S i), d'. split; [done|]. split; [done|]. split; [|done].
    intros [|j] dj Hj; cbn; [by intros [= <-]|]. apply Hbefore. lia.
Qed.

(** X8.  While the database answers, UpdateAllTokens keeps every document
    at its place and changes at most one, the first of the subject, and in
    it only [token], [refresh_token] and [updated_at]. *)
Theorem UpdateAllTokens_touches_one (tok rtok uid : string) (w : World) :
  db_fault w = None →
  ∃ docs',
    UpdateAllTokens tok rtok uid w
    = (Returned tt, mkWorld (SECRET_KEY w) (clock w) docs' None)
    ∧ ∀ i d, userCollection w !! i = Some d →
        ∃ d', docs' !! i = Some d'
          ∧ (∀ k, k ≠ "token" → k ≠ "refresh_token" → k ≠ "updated_at" →
                  d' !! k = d !! k)
          ∧ (d' ≠ d →
             d !! "user_id" = Some (BString uid)
             ∧ ∀ j dj, (j < i)%nat → userCollection w !! j = Some dj →
                       dj !! "user_id" ≠ Some (BString uid)).
Proof.
  intros Hdb.
  unfold UpdateAllTokens, mongo.UpdateOne, mbind, M_bind, gets, time_Now, modify; cbn.
  rewrite Hdb; cbn. fold (token_fields tok rtok (clock w)).
  destruct (mongo.update_first _ _ (userCollection w)) as [docs'|] eqn:Hu.
  - exists docs'. split; [by rewrite Hdb|].
    destruct (update_first_position _ _ _ _ Hu) as (i0 & d0 & Hi0 & Hm0 & Hbefore & ->).
    intros i d Hi. destruct (decide (i = i0)) as [->|Hne].
    + assert (d = d0) as -> by congruence.
      exists (mongo.apply_set (token_fields tok rtok (clock w)) d0).
      split; [apply list_lookup_insert_eq; by eapply lookup_lt_Some|].
      split; [intros k; apply apply_set_other|].
      intros _. split; [by apply matches_user_id|].
      intros j dj Hj Hdj Hid. apply matches_user_id in Hid.
      specialize (Hbefore j dj Hj Hdj). congruence.
    + exists d. split; [by rewrite list_lookup_insert_ne|]. split; [done|done].
  - exists (userCollection w ++ [mongo.apply_set (token_fields tok rtok (clock w))
                                   (mongo.apply_set [("user_id", BString uid)] ∅)])%list.
    split; [by rewrite Hdb|]. intros i d Hi. exists d.
    split; [by apply lookup_app_l_Some|]. split; done.
Qed.

(** X9.  For a subject without a document UpdateAllTokens appends one that
    holds the subject's [user_id] and the three fields it sets, and none
    of the other fields of a user. *)
Theorem UpdateAllTokens_upsert (tok rtok uid : string) (w : World) :
  db_fault w = None →
  records_of uid (userCollection w) = [] →
  UpdateAllTokens tok rtok uid w
  = (Returned tt,
     mkWorld (SECRET_KEY w) (clock w)
       (userCollection w
        ++ [ <["updated_at" := BDateTime (clock w)]>
               (<["refresh_token" := BString rtok]>
                  (<["token" := BString tok]> {["user_id" := BString uid]})) ])
       None).
Proof.
  intros Hdb Hnone.
  unfold UpdateAllTokens, mongo.UpdateOne, mbind, M_bind, gets, time_Now, modify; cbn.
  rewrite Hdb; cbn. fold (token_fields tok rtok (clock w)).
  destruct (mongo.update_first _ _ (userCollection w)) as [docs'|] eqn:Hu;
    [|by rewrite Hdb].
  destruct (update_first_Some _ _ _ _ _ _ Hu) as (_ & Hne & _). done.
Qed.

(** X10.  UpdateAllTokens panics exactly when the database reports an
    error, with that error and the state as it was; otherwise it returns. *)
Theorem UpdateAllTokens_panics_iff (tok rtok uid : string) (w : World) :
  match db_fault w with
  | Some e => UpdateAllTokens tok rtok uid w = (Panicked e, w)
  | None => ∃ w', UpdateAllTokens tok rtok uid w = (Returned tt, w')
  end.
Proof.
  destruct (db_fault w) as [e|] eqn:Hdb.
  - unfold UpdateAllTokens, mongo.UpdateOne, mbind, M_bind, gets, time_Now, modify; cbn.
    by rewrite Hdb.
  - destruct (UpdateAllTokens_once tok rtok uid w Hdb) as (docs' & HU & _). eauto.
Qed.
End persistence_more.

Section reference_worded.
Import reference.

Lemma set_member_error (acc : SignedDetails * option error) (m : string * jv) :
  (set_member acc m).2 = acc.2 ∨ (set_member acc m).2 = Some (type_error m.1).
Proof.
  destruct acc as [[e f l u [aud exp jti iat iss nbf sub]] err], m as [k v].
  unfold set_member. cbn [fst snd].
  destruct v; repeat (match goal with |- context [if ?b then _ else _] => destruct b end);
    cbn; auto; destruct err; cbn; auto.
Qed.

Lemma foldl_set_member_error (l : list (string * jv)) (acc : SignedDetails * option error) (e : error) :
  (foldl set_member acc l).2 = Some e →
  acc.2 = Some e ∨ ∃ k, e = type_error k.
Proof.
  revert acc. induction l as [|m l IH]; intros acc; cbn [foldl]; [auto|].
  intros He. destruct (IH _ He) as [Hacc|?]; [|auto].
  destruct (set_member_error acc m) as [Heq|Heq]; rewrite Heq in Hacc; [auto|].
  right. exists m.1. congruence.
Qed.

Lemma reference_worded : Worded (H := reference.primitives).
Proof.
  split.
  - intros seg e. cbn. unfold DecodeSegment. destruct (decode seg); [done|].
    by intros [= <-].
  - intros b e. cbn. unfold json_Unmarshal_header. destruct (parse_object b); [done|].
    by intros [= <-].
  - intros b c c' e. cbn. unfold json_Decode_claims.
    destruct (parse_object b) as [l|]; [|by intros [= _ <-]].
    intros Hf. destruct (foldl_set_member_error l (c, None) e) as [?|[k ->]]; [by rewrite Hf|done|done].
  - intros alg m ss sig key e. cbn. unfold registered.
    destruct (existsb _ _); [|done]. by intros [= <-] [= <-].
Qed.
End reference_worded.

(** ** The router *)

Section program_props.
Context `{!jwt.Primitives SignedDetails, !engine.Tree}.
Variables GetUsers GetUser SignUp Login : gin.HandlerFunc.

(** A registration that succeeds adds one route, at the absolute path,
    served by the middleware of the group and then the handlers given,
    and changes nothing else. *)
Lemma handle_returns (method path : string) (handlers : list gin.HandlerFunc)
    (router router' : engine.Engine) (w w' : World) :
  engine.handle method path handlers router w = (Returned router', w') →
  w' = w
  ∧ engine.Handlers router' = engine.Handlers router
  ∧ engine.allNoRoute router' = engine.allNoRoute router
  ∧ engine.trees router'
    = (engine.trees router
       ++ [(method, engine.calculateAbsolutePath path,
            engine.Handlers router ++ handlers)])%list.
Proof.
  unfold engine.handle, engine.combineHandlers, engine.addRoute, mbind, M_bind, mret, M_ret.
  destruct (gin.abortIndex <=? _); [done|].
  destruct (decide (_ = "")); [done|].
  destruct (negb _); [done|].
  destruct (decide (method = "")); [done|].
  destruct (decide (_ = [])); [done|].
  destruct (existsb _ _); [done|].
  destruct (engine.conflict _ _); [done|].
  by intros [= <- <-].
Qed.

Lemma register_returns (routes : list engine.Route) (router router' : engine.Engine)
    (w w' : World) :
  register routes router w = (Returned router', w') →
  w' = w
  ∧ engine.Handlers router' = engine.Handlers router
  ∧ engine.allNoRoute router' = engine.allNoRoute router
  ∧ engine.trees router'
    = (engine.trees router
       ++ ((λ r : engine.Route,
              (r.1.1, engine.calculateAbsolutePath r.1.2, engine.Handlers router ++ r.2)%list)
             <$> routes))%list.
Proof.
  revert router w. induction routes as [|[[method path] handlers] routes IH];
    intros router w; cbn [register].
  - intros [= <- <-]. by rewrite app_nil_r.
  - unfold mbind, M_bind.
    destruct (engine.handle method path handlers router w) as [[router1|v] w1] eqn:Hh;
      [|done].
    destruct (handle_returns _ _ _ _ _ _ _ Hh) as (-> & HH & HN & HT).
    intros Hr. destruct (IH _ _ Hr) as (-> & HH' & HN' & HT').
    split; [done|]. split; [congruence|]. split; [congruence|].
    rewrite HT', HT, HH. cbn [fmap list_fmap fst snd]. by rewrite <- app_assoc.
Qed.

(** UserRoutes is four registrations. *)
Lemma UserRoutes_register (router : engine.Engine) (w : World) :
  UserRoutes GetUsers GetUser SignUp Login router w
  = register [("GET", "/users", [GetUsers]); ("GET", "/users/:user_id", [GetUser]);
              ("POST", "/users/signup", [SignUp]); ("POST", "/users/login", [Login])]
      router w.
Proof.
  unfold UserRoutes, engine.GET, engine.POST. cbn [register].
  unfold mbind, M_bind.
  repeat match goal with
         | |- context [engine.handle ?m ?p ?h ?r ?w] =>
             destruct (engine.handle m p h r w) as [[?|?] ?]; try reflexivity
         end.
Qed.

(** X11.  The routes of the router [main] builds, when it builds one.  The
    four user routes, registered before the gate was attached, are each
    served by the logger and their controller alone, the two listings of
    users included; every route registered afterwards is served by the
    logger, the gate, and then its own handlers, in the order of
    registration; a request that matches no route runs the logger and the
    gate. *)
Theorem main_router_routes (protected : list engine.Route) (router : engine.Engine)
    (w w' : World) :
  main_router GetUsers GetUser SignUp Login protected w = (Returned router, w') →
  w' = w
  ∧ engine.allNoRoute router = [engine.Logger; Authentication]
  ∧ engine.trees router
    = ([("GET", "/users", [engine.Logger; GetUsers]);
        ("GET", "/users/:user_id", [engine.Logger; GetUser]);
        ("POST", "/users/signup", [engine.Logger; SignUp]);
        ("POST", "/users/login", [engine.Logger; Login])]
       ++ ((λ r : engine.Route,
              (r.1.1, engine.calculateAbsolutePath r.1.2,
               engine.Logger :: Authentication :: r.2))
             <$> protected))%list.
Proof.
  unfold main_router. unfold mbind at 1, M_bind at 1.
  change (engine.Use [engine.Logger] engine.New w)
    with (Returned (engine.mkEngine [engine.Logger] [] [engine.Logger]), w).
  cbv beta iota. unfold mbind at 1, M_bind at 1. rewrite UserRoutes_register.
  destruct (register _ _ w) as [[router1|v] w1] eqn:Huser; [|done].
  destruct (register_returns _ _ _ _ _ Huser) as (-> & HH1 & HN1 & HT1).
  cbn [engine.Handlers engine.trees engine.allNoRoute fmap list_fmap fst snd app] in *.
  unfold mbind at 1, M_bind at 1.
  unfold engine.Use, engine.combineHandlers. rewrite HH1. cbn [length app Nat.add].
  change (gin.abortIndex <=? Z.of_nat 2) with false. cbv beta iota.
  unfold mbind at 1, M_bind at 1, mret, M_ret. cbv beta iota.
  intros Hr.
  destruct (register_returns _ _ _ _ _ Hr) as (-> & _ & HN & HT).
  cbn [engine.Handlers engine.trees engine.allNoRoute] in *.
  split; [done|]. split; [by rewrite HN, app_nil_r|].
  rewrite HT, HT1. reflexivity.
Qed.
End program_props.

Section chain_steps.

(** One turn of the loop of [c.Next()]. *)
Lemma run_step (fuel : nat) (handlers : list gin.HandlerFunc) (c : gin.Context)
    (h : gin.HandlerFunc) :
  0 ≤ gin.index c →
  handlers !! Z.to_nat (gin.index c) = Some h →
  gin.run (S fuel) handlers c
  = (c ← h (λ c, gin.run fuel handlers (gin.advance c)) c;
     gin.run fuel handlers (gin.advance c)).
Proof.
  intros Hidx Hat. pose proof (lookup_lt_Some _ _ _ Hat) as Hlt.
  cbn [gin.run]. rewrite (proj2 (Z.ltb_lt _ _)) by lia.
  rewrite (proj2 (Z.ltb_ge _ _)) by lia.
  match goal with
  | |- context [@lookup ?K ?A ?L ?I ?i ?l] =>
      change (@lookup K A L I i l) with (handlers !! Z.to_nat (gin.index c))
  end.
  by rewrite Hat.
Qed.

(** Past the end of the chain the loop stops. *)
Lemma run_end (fuel : nat) (handlers : list gin.HandlerFunc) (c : gin.Context) :
  Z.of_nat (length handlers) ≤ gin.index c →
  gin.run fuel handlers c = mret c.
Proof.
  intros Hidx. destruct fuel; cbn [gin.run]; by rewrite (proj2 (Z.ltb_ge _ _)) by lia.
Qed.
End chain_steps.

Section unmatched.
Context `{!jwt.Primitives SignedDetails}.

(** X13.  A request that matches no route runs the logger and the gate.
    Without a token it is answered with the gate's status 500, not with the
    404 page; with a token ValidateToken accepts, it gets the 404 page. *)
Theorem unmatched_request (fuel : nat) (c : gin.Context) (w : World) :
  gin.Writer c = [] →
  let serve := engine.serveError (S (S fuel)) [engine.Logger; Authentication]
                 404 engine.default404Body c w in
  (http.Get (gin.Request_Header c) "token" = "" →
   serve
   = (Returned
        (gin.mkContext (gin.Request_Header c) (gin.Keys c)
           [gin.mkResponse 500 {["error" := "No Authorization header provided"]}] 65,
         None), w))
  ∧ (∀ claims,
       http.Get (gin.Request_Header c) "token" ≠ "" →
       ValidateToken (http.Get (gin.Request_Header c) "token") w
       = (Returned (Some claims, ""), w) →
       serve
       = (Returned
            (gin.mkContext (gin.Request_Header c)
               (<["uid" := Uid claims]>
                  (<["last_name" := Last_name claims]>
                     (<["first_name" := First_name claims]>
                        (<["email" := Email claims]> (gin.Keys c)))))
               [] 4,
             Some (404, "404 page not found")), w)).
Proof.
  intros HW serve. subst serve.
  unfold engine.serveError, gin.handleHTTPRequest, gin.Next.
  set (c0 := gin.advance _).
  rewrite (run_step _ _ c0 engine.Logger) by done.
  match goal with
  | |- context [engine.Logger ?next c0] => change (engine.Logger next c0) with (next c0)
  end.
  split.
  - intros Hget.
    rewrite (run_step _ _ (gin.advance c0) Authentication) by done.
    unfold mbind, M_bind.
    rewrite Authentication_empty by done.
    repeat (rewrite run_end by (cbn; unfold gin.abortIndex; lia);
            unfold mret at 1, M_ret at 1; cbv beta iota).
    unfold engine.Written, mret, M_ret. subst c0. unfold reject. cbn. rewrite HW.
    by rewrite bool_decide_true by done.
  - intros claims Hne Hv.
    rewrite (run_step _ _ (gin.advance c0) Authentication) by done.
    unfold mbind, M_bind.
    rewrite (Authentication_accepted _ _ _ claims) by done.
    repeat (rewrite run_end by (cbn; lia);
            unfold mret at 1, M_ret at 1; cbv beta iota).
    unfold engine.Written, mret, M_ret. subst c0. unfold identified. cbn. rewrite HW.
    by rewrite bool_decide_false by (intros Hx; by apply Hx).
Qed.
End unmatched.

(** ** The controller *)

Section driver_props.

Lemma lookup_set_pointer_ne (k k' : string) (p : option string) (d : Document) :
  k ≠ k' → driver.set_pointer k p d !! k' = d !! k'.
Proof. intros Hne. destruct p; cbn; [by rewrite lookup_insert_ne|done]. Qed.

Lemma lookup_set_pointer_eq (k : string) (p : option string) (d : Document) :
  d !! k = None → driver.set_pointer k p d !! k = BString <$> p.
Proof. intros Hd. destruct p; cbn; [by rewrite lookup_insert_eq|done]. Qed.

Ltac lookup_marshal :=
  unfold driver.Marshal;
  repeat first
    [ rewrite lookup_insert_eq
    | rewrite lookup_insert_ne by done
    | rewrite lookup_set_pointer_ne by done
    | rewrite lookup_set_pointer_eq
    | rewrite lookup_singleton_eq
    | rewrite lookup_singleton_ne by done ];
  try done.

Lemma Marshal_id (u : models.User) :
  driver.Marshal u !! "_id" = Some (BString (models.ID u)).
Proof. lookup_marshal. Qed.

Lemma Marshal_user_id (u : models.User) :
  driver.Marshal u !! "user_id" = Some (BString (models.User_id u)).
Proof. lookup_marshal. Qed.

Lemma Marshal_email (u : models.User) :
  driver.Marshal u !! "email" = BString <$> models.Email u.
Proof. lookup_marshal. Qed.

Lemma Marshal_pointers (u : models.User) :
  driver.Marshal u !! "first_name" = BString <$> models.First_name u
  ∧ driver.Marshal u !! "last_name" = BString <$> models.Last_name u
  ∧ driver.Marshal u !! "password" = BString <$> models.Password u
  ∧ driver.Marshal u !! "avatar" = BString <$> models.Avatar u
  ∧ driver.Marshal u !! "phone" = BString <$> models.Phone u
  ∧ driver.Marshal u !! "token" = BString <$> models.Token u
  ∧ driver.Marshal u !! "refresh_token" = BString <$> models.Refresh_Token u.
Proof. repeat split; lookup_marshal. Qed.

Lemma Marshal_instants (u : models.User) :
  driver.Marshal u !! "created_at" = Some (BDateTime (models.Created_at u))
  ∧ driver.Marshal u !! "updated_at" = Some (BDateTime (models.Updated_at u)).
Proof. split; lookup_marshal. Qed.

(** Decoding what was written gives the user back. *)
Lemma Unmarshal_Marshal (u : models.User) : driver.Unmarshal (driver.Marshal u) = Ok u.
Proof.
  unfold driver.Unmarshal, driver.string_field, driver.pointer_field, driver.time_field.
  destruct (Marshal_pointers u) as (H1 & H2 & H3 & H4 & H5 & H6 & H7).
  destruct (Marshal_instants u) as (H8 & H9).
  rewrite Marshal_id, Marshal_user_id, Marshal_email, H1, H2, H3, H4, H5, H6, H7, H8, H9.
  destruct u as [id fn ln pw em av ph tk rt ca ua uid]; cbn.
  by destruct fn, ln, pw, em, av, ph, tk, rt.
Qed.
End driver_props.

Section controller_props.
Context `{!jwt.Primitives SignedDetails, !controller.Primitives}.

Lemma CountDocuments_answers (filter : list (string * option bson)) (w : World) :
  db_fault w = None →
  driver.CountDocuments filter w
  = (Returned (Ok (Z.of_nat (length (List.filter (driver.matches filter) (userCollection w))))),
     w).
Proof.
  intros Hdb. unfold driver.CountDocuments, mbind, M_bind, gets. by rewrite Hdb.
Qed.

Lemma CountDocuments_fault (filter : list (string * option bson)) (w : World) (e : error) :
  db_fault w = Some e →
  driver.CountDocuments filter w = (Returned (Err e), w).
Proof.
  intros Hdb. unfold driver.CountDocuments, mbind, M_bind, gets. by rewrite Hdb.
Qed.

Lemma FindOne_Decode_answers (filter : list (string * option bson)) (w : World) :
  db_fault w = None →
  driver.FindOne_Decode filter w
  = (Returned match List.find (driver.matches filter) (userCollection w) with
              | Some d => driver.Unmarshal d
              | None => Err driver.ErrNoDocuments
              end, w).
Proof.
  intros Hdb. unfold driver.FindOne_Decode, mbind, M_bind, gets. rewrite Hdb.
  by destruct (List.find _ _).
Qed.

Lemma InsertOne_answers (u : models.User) (w : World) :
  db_fault w = None →
  (∀ d, d ∈ userCollection w → d !! "_id" ≠ Some (BString (models.ID u))) →
  driver.InsertOne u w
  = (Returned (Ok (models.ID u)),
     with_collection w (userCollection w ++ [driver.Marshal u])).
Proof.
  intros Hdb Hfresh. unfold driver.InsertOne, mbind, M_bind, gets. rewrite Hdb.
  destruct (existsb _ _) eqn:Hex; [|done].
  apply existsb_exists in Hex as (d & Hd & Hid).
  apply bool_decide_eq_true in Hid. destruct (Hfresh d); [|done].
  by apply list_elem_of_In.
Qed.

(** No document with the value: the count is zero and nothing is found. *)
Lemma filter_none (k : string) (v : bson) (docs : list Document) :
  (∀ d, d ∈ docs → d !! k ≠ Some v) →
  List.filter (driver.matches [(k, Some v)]) docs = [].
Proof.
  induction docs as [|d docs IH]; intros Hnone; cbn; [done|].
  unfold driver.matches at 1; cbn. rewrite bool_decide_false by (apply Hnone; left).
  cbn. apply IH. intros d' Hd'. apply Hnone. by right.
Qed.

(** X14.  VerifyPassword recognises what HashPassword produced, given as
    its second argument; HashPassword leaves the process state alone; and
    the boolean VerifyPassword returns is true exactly when its message is
    empty. *)
Theorem VerifyPassword_HashPassword (password : string) (w w' : World) (hash : string) :
  bcrypt_sound →
  controller.HashPassword password w = (Returned hash, w') →
  w' = w
  ∧ controller.VerifyPassword password hash = (true, "")
  ∧ ∀ other, (controller.VerifyPassword other hash).1 = true
              ↔ (controller.VerifyPassword other hash).2 = "".
Proof.
  intros Hsound. unfold controller.HashPassword, mbind, M_bind, gets.
  destruct (controller.bcrypt_GenerateFromPassword w password 14) as [h|e] eqn:Hg; [|done].
  intros [= -> <-]. split; [done|]. split.
  - unfold controller.VerifyPassword. by rewrite (Hsound _ _ _ Hg).
  - intros other. unfold controller.VerifyPassword.
    by destruct (controller.bcrypt_CompareHashAndPassword hash other).
Qed.

(** SignUp on a body that binds and validates, with a phone number and
    an [_id] that are new, once the tokens have been issued. *)
Lemma SignUp_run
    (c : controller.Context) (w : World) (user : models.User)
    (first_name last_name password email phone hash token refreshToken : string)
    (err : option error) :
  db_fault w = None →
  controller.BindJSON (controller.Request_Body c) = Ok user →
  controller.validate_Struct user = None →
  models.First_name user = Some first_name →
  models.Last_name user = Some last_name →
  models.Password user = Some password →
  models.Email user = Some email →
  models.Phone user = Some phone →
  controller.bcrypt_GenerateFromPassword w password 14 = Ok hash →
  (∀ d, d ∈ userCollection w → d !! "phone" ≠ Some (BString phone)) →
  (∀ d, d ∈ userCollection w → d !! "_id" ≠ Some (BString (controller.NewObjectID w))) →
  GenerateAllTokens email first_name last_name
    (controller.Hex (controller.NewObjectID w)) w
  = (Returned (token, refreshToken, err), w) →
  controller.SignUp c w
  = (Returned (controller.JSON 200
                 (controller.InsertedBody (controller.NewObjectID w)) c),
     with_collection w
       (userCollection w
        ++ [driver.Marshal (registered_user user w hash token refreshToken)])).
Proof.
  intros Hdb Hbind Hvalid Hfirst Hlast Hpw Hemail Hphone Hhash Hnew Hfresh HG.
  unfold controller.SignUp. rewrite Hbind, Hvalid, Hpw, Hemail, Hfirst, Hlast, Hphone.
  unfold controller.HashPassword, controller.deref, time_Now.
  unfold mbind, M_bind, mret, M_ret, gets.
  rewrite CountDocuments_answers by done. cbv beta iota. rewrite Hhash.
  rewrite CountDocuments_answers by done. cbv beta iota.
  cbn [driver.pointer fmap option_fmap option_map].
  rewrite filter_none by done. change (0 <? Z.of_nat (length [])) with false.
  cbv beta iota. rewrite HG. cbv beta iota.
  rewrite InsertOne_answers by done. cbv beta iota.
  unfold registered_user. by rewrite Hfirst, Hlast, Hemail, Hphone.
Qed.


(** A document with the value: the count is positive. *)
Lemma filter_some (k : string) (v : bson) (docs : list Document) (d : Document) :
  d ∈ docs → d !! k = Some v →
  (0 <? Z.of_nat (length (List.filter (driver.matches [(k, Some v)]) docs))) = true.
Proof.
  intros Hd Hk. apply Z.ltb_lt.
  assert (In d (List.filter (driver.matches [(k, Some v)]) docs)) as Hin.
  { apply filter_In. split; [by apply list_elem_of_In|].
    unfold driver.matches; cbn. by rewrite bool_decide_true. }
  destruct (List.filter _ docs); [done|cbn; lia].
Qed.

(** X16.  A sign-up with a phone number that is taken.  For a body that
    binds to a user with a password and a phone number and passes the
    validation, while the database answers, and with a stored document
    that holds the phone number: the password is hashed before the phone
    numbers are counted, so when bcrypt refuses the password SignUp panics
    with bcrypt's error, and otherwise it answers with status 500 and
    [this email or phone number already exsits]; either way the
    collection is left as it was. *)
Theorem SignUp_duplicate_phone
    (c : controller.Context) (w : World) (user : models.User)
    (password phone : string) (d : Document) :
  db_fault w = None →
  controller.BindJSON (controller.Request_Body c) = Ok user →
  controller.validate_Struct user = None →
  models.Password user = Some password →
  models.Phone user = Some phone →
  d ∈ userCollection w →
  d !! "phone" = Some (BString phone) →
  controller.SignUp c w
  = match controller.bcrypt_GenerateFromPassword w password 14 with
    | Ok _ =>
        (Returned (controller.JSON 500
                     (controller.ErrorBody "this email or phone number already exsits") c),
         w)
    | Err err => (Panicked err, w)
    end.
Proof.
  intros Hdb Hbind Hvalid Hpw Hphone Hd Hdp.
  unfold controller.SignUp. rewrite Hbind, Hvalid, Hpw, Hphone.
  unfold controller.HashPassword, controller.deref, time_Now.
  unfold mbind, M_bind, mret, M_ret, gets.
  rewrite CountDocuments_answers by done. cbv beta iota.
  destruct (controller.bcrypt_GenerateFromPassword w password 14) as [hash|err]; [|done].
  rewrite CountDocuments_answers by done. cbv beta iota.
  cbn [driver.pointer fmap option_fmap option_map].
  by rewrite (filter_some _ _ _ d).
Qed.

(** Issuing tokens leaves the process state alone, whatever comes of it. *)
Lemma GenerateAllTokens_state (email firstName lastName uid : string) (w : World) :
  (GenerateAllTokens email firstName lastName uid w).2 = w.
Proof.
  unfold GenerateAllTokens, mbind, M_bind, gets, time_Now. cbn -[jwt.SignedString].
  repeat match goal with
         | |- context [match ?x with Ok _ => _ | Err _ => _ end] => destruct x
         end; reflexivity.
Qed.

(** X17.  Whatever the request and the state, SignUp leaves the documents
    of the collection as they are and appends at most one; it appends one
    only when it answers with status 200 and the new id. *)
Theorem SignUp_appends_at_most_one (c : controller.Context) (w : World) :
  ∃ new,
    (controller.SignUp c w).2 = with_collection w (userCollection w ++ new)
    ∧ (length new ≤ 1)%nat
    ∧ (new ≠ [] →
       (controller.SignUp c w).1
       = Returned (controller.JSON 200
                     (controller.InsertedBody (controller.NewObjectID w)) c)).
Proof.
  assert (w = with_collection w (userCollection w ++ [])) as Hsame.
  { rewrite app_nil_r. by destruct w. }
  assert (∀ o : outcome controller.Context,
            ∃ new, (o, w).2 = with_collection w (userCollection w ++ new)
                   ∧ (length new ≤ 1)%nat
                   ∧ (new ≠ [] →
                      (o, w).1
                      = Returned (controller.JSON 200
                                    (controller.InsertedBody (controller.NewObjectID w)) c)))
    as Hunchanged.
  { intros o. exists []. split; [done|]. split; [cbn; lia|done]. }
  unfold controller.SignUp.
  destruct (controller.BindJSON _) as [user|e]; [|apply Hunchanged].
  destruct (controller.validate_Struct user) as [e|]; [apply Hunchanged|].
  unfold controller.HashPassword, controller.deref, time_Now, driver.CountDocuments.
  unfold mbind, M_bind, mret, M_ret, gets.
  destruct (db_fault w) as [e|] eqn:Hdb; cbv beta iota; [apply Hunchanged|].
  destruct (models.Password user) as [password|]; cbv beta iota; [|apply Hunchanged].
  destruct (controller.bcrypt_GenerateFromPassword w password 14) as [hash|e];
    cbv beta iota; [|apply Hunchanged].
  rewrite Hdb; cbv beta iota.
  match goal with |- context [if ?b then _ else _] => destruct b end;
    cbv beta iota; [apply Hunchanged|].
  destruct (models.Email user) as [email|]; cbv beta iota; [|apply Hunchanged].
  destruct (models.First_name user) as [first_name|]; cbv beta iota; [|apply Hunchanged].
  destruct (models.Last_name user) as [last_name|]; cbv beta iota; [|apply Hunchanged].
  pose proof (GenerateAllTokens_state email first_name last_name
                (controller.Hex (controller.NewObjectID w)) w) as HG.
  destruct (GenerateAllTokens email first_name last_name _ w)
    as [[[[token refreshToken] err]|v] w1]; cbn in HG; subst w1; cbv beta iota;
    [|apply Hunchanged].
  unfold driver.InsertOne, mbind, M_bind, mret, M_ret, gets, modify. rewrite Hdb.
  cbv beta iota.
  destruct (existsb _ _); cbv beta iota; [apply Hunchanged|].
  eexists [_]. split; [reflexivity|]. split; [cbn; lia|done].
Qed.

(** X18.  When the database reports an error SignUp panics at the first
    count: the response with status 500 that follows [log.Panic] in the
    source is never written. *)
Theorem SignUp_database_error
    (c : controller.Context) (w : World) (user : models.User) (e : error) :
  controller.BindJSON (controller.Request_Body c) = Ok user →
  controller.validate_Struct user = None →
  db_fault w = Some e →
  controller.SignUp c w = (Panicked e, w).
Proof.
  intros Hbind Hvalid Hdb. unfold controller.SignUp. rewrite Hbind, Hvalid.
  unfold mbind, M_bind. by rewrite (CountDocuments_fault _ _ e).
Qed.

Lemma and_then_Ok {A B : Type} (r : res A) (f : A → res B) (b : B) :
  driver.and_then r f = Ok b → ∃ a, r = Ok a ∧ f a = Ok b.
Proof. destruct r as [a|e]; cbn; [eauto|done]. Qed.

Lemma pointer_field_Ok (d : Document) (k : string) (p : option string) :
  driver.pointer_field d k = Ok p → d !! k = BString <$> p.
Proof.
  unfold driver.pointer_field. destruct (d !! k) as [[s|t]|]; [|done|]; by intros [= <-].
Qed.

(** What was decoded is what the document holds. *)
Lemma Unmarshal_fields (d : Document) (u : models.User) :
  driver.Unmarshal d = Ok u →
  d !! "token" = BString <$> models.Token u
  ∧ d !! "refresh_token" = BString <$> models.Refresh_Token u
  ∧ d !! "password" = BString <$> models.Password u
  ∧ d !! "email" = BString <$> models.Email u.
Proof.
  unfold driver.Unmarshal. intros Hu.
  apply and_then_Ok in Hu as (id & _ & Hu).
  apply and_then_Ok in Hu as (fn & _ & Hu).
  apply and_then_Ok in Hu as (ln & _ & Hu).
  apply and_then_Ok in Hu as (pw & Hpw & Hu).
  apply and_then_Ok in Hu as (em & Hem & Hu).
  apply and_then_Ok in Hu as (av & _ & Hu).
  apply and_then_Ok in Hu as (ph & _ & Hu).
  apply and_then_Ok in Hu as (tk & Htk & Hu).
  apply and_then_Ok in Hu as (rt & Hrt & Hu).
  apply and_then_Ok in Hu as (ca & _ & Hu).
  apply and_then_Ok in Hu as (ua & _ & Hu).
  apply and_then_Ok in Hu as (uid & _ & Hu).
  assert (u = models.mkUser id fn ln pw em av ph tk rt ca ua uid) as -> by congruence.
  cbn. auto using pointer_field_Ok.
Qed.

(** Login for a stored user whose password matches, once the tokens
    have been issued and stored. *)
Lemma Login_run
    (c : controller.Context) (w w' : World) (user foundUser : models.User) (d : Document)
    (password hash email first_name last_name token refreshToken : string)
    (err : option error) :
  db_fault w = None →
  controller.BindJSON (controller.Request_Body c) = Ok user →
  List.find (driver.matches [("email", driver.pointer (models.Email user))]) (userCollection w)
  = Some d →
  driver.Unmarshal d = Ok foundUser →
  models.Password user = Some password →
  models.Password foundUser = Some hash →
  controller.bcrypt_CompareHashAndPassword hash password = None →
  models.Email foundUser = Some email →
  models.First_name foundUser = Some first_name →
  models.Last_name foundUser = Some last_name →
  GenerateAllTokens email first_name last_name (models.User_id foundUser) w
  = (Returned (token, refreshToken, err), w) →
  UpdateAllTokens token refreshToken (models.User_id foundUser) w = (Returned tt, w') →
  controller.Login c w
  = (Returned (controller.JSON 200 (controller.UserBody foundUser) c), w').
Proof.
  intros Hdb Hbind Hfind Hdec Hpw Hhash Hcmp Hemail Hfirst Hlast HG HU.
  unfold controller.Login. rewrite Hbind.
  unfold controller.VerifyPassword, controller.deref.
  unfold mbind, M_bind, mret, M_ret.
  rewrite FindOne_Decode_answers by done. rewrite Hfind, Hdec. cbv beta iota.
  rewrite Hpw, Hhash, Hcmp, Hemail, Hfirst, Hlast. cbv beta iota. cbn [negb].
  rewrite HG. cbv beta iota. by rewrite HU.
Qed.

(** X19.  Login answers with status 200 and the user as the collection held
    it before the call: the token in the response is the one stored
    earlier, and the pair this login issues is only written to the
    collection. *)
Theorem Login_answers_stored_user
    (c : controller.Context) (w : World) (user foundUser : models.User) (d : Document)
    (password hash email first_name last_name : string) :
  Lawful →
  db_fault w = None →
  controller.BindJSON (controller.Request_Body c) = Ok user →
  List.find (driver.matches [("email", driver.pointer (models.Email user))]) (userCollection w)
  = Some d →
  driver.Unmarshal d = Ok foundUser →
  models.Password user = Some password →
  models.Password foundUser = Some hash →
  controller.bcrypt_CompareHashAndPassword hash password = None →
  models.Email foundUser = Some email →
  models.First_name foundUser = Some first_name →
  models.Last_name foundUser = Some last_name →
  ∃ token refreshToken w',
    GenerateAllTokens email first_name last_name (models.User_id foundUser) w
    = (Returned (token, refreshToken, None), w)
    ∧ controller.Login c w
      = (Returned (controller.JSON 200 (controller.UserBody foundUser) c), w')
    ∧ BString <$> models.Token foundUser = d !! "token"
    ∧ ∃ d' rest,
        records_of (models.User_id foundUser) (userCollection w') = d' :: rest
        ∧ holds_pair token refreshToken d'.
Proof.
  intros laws Hdb Hbind Hfind Hdec Hpw Hhash Hcmp Hemail Hfirst Hlast.
  destruct (GenerateAllTokens_returns laws email first_name last_name
              (models.User_id foundUser) w) as (token & refreshToken & HG & _ & _).
  destruct (UpdateAllTokens_once token refreshToken (models.User_id foundUser) w Hdb)
    as (docs' & HU & _ & _ & Hpair).
  exists token, refreshToken, (mkWorld (SECRET_KEY w) (clock w) docs' None).
  split; [done|]. split; [by eapply Login_run|]. split; [|done].
  by destruct (Unmarshal_fields _ _ Hdec) as (-> & _).
Qed.

(** X20.  A login whose body carries no password, or that finds a stored
    user without one, panics on the nil pointer after the lookup. *)
Theorem Login_nil_password
    (c : controller.Context) (w : World) (user foundUser : models.User) (d : Document) :
  db_fault w = None →
  controller.BindJSON (controller.Request_Body c) = Ok user →
  List.find (driver.matches [("email", driver.pointer (models.Email user))]) (userCollection w)
  = Some d →
  driver.Unmarshal d = Ok foundUser →
  models.Password user = None ∨ models.Password foundUser = None →
  controller.Login c w = (Panicked nil_dereference, w).
Proof.
  intros Hdb Hbind Hfind Hdec Hnil.
  unfold controller.Login. rewrite Hbind.
  unfold controller.deref. unfold mbind, M_bind, mret, M_ret.
  rewrite FindOne_Decode_answers by done. rewrite Hfind, Hdec. cbv beta iota.
  destruct Hnil as [-> | ->]; [done|]. by destruct (models.Password user).
Qed.

(** X21.  Login answers with status 500 and leaves the state as it was when
    no user has the e-mail address or the database fails, and when bcrypt
    rejects the password; the two messages differ. *)
Theorem Login_refuses (c : controller.Context) (w : World) (user : models.User) :
  controller.BindJSON (controller.Request_Body c) = Ok user →
  let filter := [("email", driver.pointer (models.Email user))] in
  ((db_fault w ≠ None ∨ List.find (driver.matches filter) (userCollection w) = None) →
   controller.Login c w
   = (Returned (controller.JSON 500
                  (controller.ErrorBody "user not found, login seems to be incorrect") c),
      w))
  ∧ (∀ d foundUser password hash,
       db_fault w = None →
       List.find (driver.matches filter) (userCollection w) = Some d →
       driver.Unmarshal d = Ok foundUser →
       models.Password user = Some password →
       models.Password foundUser = Some hash →
       controller.bcrypt_CompareHashAndPassword hash password ≠ None →
       controller.Login c w
       = (Returned (controller.JSON 500
                      (controller.ErrorBody "login or password is incorrect") c), w)).
Proof.
  intros Hbind filter. split.
  - intros Hnone. unfold controller.Login. rewrite Hbind.
    unfold mbind, M_bind, mret, M_ret.
    destruct (db_fault w) as [e|] eqn:Hdb.
    + unfold driver.FindOne_Decode, mbind, M_bind, gets, mret, M_ret. by rewrite Hdb.
    + destruct Hnone as [?|Hfind]; [done|].
      rewrite FindOne_Decode_answers by done. fold filter. by rewrite Hfind.
  - intros d foundUser password hash Hdb Hfind Hdec Hpw Hhash Hcmp.
    unfold controller.Login. rewrite Hbind.
    unfold controller.VerifyPassword, controller.deref.
    unfold mbind, M_bind, mret, M_ret.
    rewrite FindOne_Decode_answers by done. fold filter. rewrite Hfind, Hdec. cbv beta iota.
    rewrite Hpw, Hhash. cbv beta iota.
    by destruct (controller.bcrypt_CompareHashAndPassword hash password).
Qed.

(** X23.  GetUser goes on after a lookup that failed: it calls [c.JSON]
    twice, with status 500 and the error, then with status 200 and a zero
    user. *)
Theorem GetUser_not_found (c : controller.Context) (w : World) :
  (db_fault w ≠ None
   ∨ ∀ d, d ∈ userCollection w →
          d !! "user_id" ≠ Some (BString (controller.Param c "user_id"))) →
  controller.GetUser c w
  = (Returned
       (controller.mkContext (controller.Request_Body c) (controller.Params c)
          (controller.Request_Query c)
          (controller.Writer c
           ++ [controller.mkReply 500
                 (controller.ErrorBody "error occured while listing user items");
               controller.mkReply 200 (controller.UserBody models.User_zero)])), w).
Proof.
  intros Hnone. unfold controller.GetUser. unfold mbind, M_bind, mret, M_ret.
  assert (∃ e, driver.FindOne_Decode
                 [("user_id", Some (BString (controller.Param c "user_id")))] w
               = (Returned (Err e), w)) as (e & ->).
  { destruct (db_fault w) as [e|] eqn:Hdb.
    - exists e. unfold driver.FindOne_Decode, mbind, M_bind, gets, mret, M_ret.
      by rewrite Hdb.
    - destruct Hnone as [?|Hnone]; [done|]. exists driver.ErrNoDocuments.
      rewrite FindOne_Decode_answers by done.
      destruct (List.find _ _) as [d|] eqn:Hfind; [|done].
      apply find_some in Hfind as [Hin Hm]. unfold driver.matches in Hm; cbn in Hm.
      rewrite andb_true_r in Hm. apply bool_decide_eq_true in Hm.
      destruct (Hnone d); [by apply list_elem_of_In|done]. }
  cbv beta iota. unfold controller.JSON; cbn. by rewrite <- app_assoc.
Qed.

(** The first match is the appended document when no earlier one matches. *)
Lemma find_app_new (filter : list (string * option bson)) (docs : list Document) (d : Document) :
  (∀ d', d' ∈ docs → driver.matches filter d' = false) →
  driver.matches filter d = true →
  List.find (driver.matches filter) (docs ++ [d]) = Some d.
Proof.
  intros Hnone Hd. induction docs as [|d0 docs IH]; cbn.
  - by rewrite Hd.
  - rewrite (Hnone d0) by left. apply IH. intros d' Hd'. apply Hnone. by right.
Qed.

(** Signing up and then logging in with the same e-mail address and
    password, at any later time: what the two handlers answer, with the
    access token of the sign-up as it was signed. *)
Lemma SignUp_Login_run
    (c c' : controller.Context) (w : World) (now : Z) (user login : models.User)
    (first_name last_name password email phone hash : string) :
  Lawful →
  bcrypt_sound →
  db_fault w = None →
  controller.BindJSON (controller.Request_Body c) = Ok user →
  controller.validate_Struct user = None →
  models.First_name user = Some first_name →
  models.Last_name user = Some last_name →
  models.Password user = Some password →
  models.Email user = Some email →
  models.Phone user = Some phone →
  controller.bcrypt_GenerateFromPassword w password 14 = Ok hash →
  (∀ d, d ∈ userCollection w → d !! "phone" ≠ Some (BString phone)) →
  (∀ d, d ∈ userCollection w → d !! "_id" ≠ Some (BString (controller.NewObjectID w))) →
  (∀ d, d ∈ userCollection w → d !! "email" ≠ Some (BString email)) →
  controller.BindJSON (controller.Request_Body c') = Ok login →
  models.Email login = Some email →
  models.Password login = Some password →
  ∃ token refreshToken w2,
    GenerateAllTokens email first_name last_name
      (controller.Hex (controller.NewObjectID w)) w
    = (Returned (token, refreshToken, None), w)
    ∧ jwt.SignedString jwt.SigningMethodHS256
        (mkSignedDetails email first_name last_name
           (controller.Hex (controller.NewObjectID w))
           (jwt.StandardClaims_exp (clock w + hours 24))) (SECRET_KEY w) = Ok token
    ∧ (controller.SignUp c w).1
      = Returned (controller.JSON 200
                    (controller.InsertedBody (controller.NewObjectID w)) c)
    ∧ controller.Login c'
        (mkWorld (SECRET_KEY w) now (userCollection (controller.SignUp c w).2) None)
      = (Returned
           (controller.JSON 200
              (controller.UserBody (registered_user user w hash token refreshToken)) c'),
         w2).
Proof.
  intros laws Hsound Hdb Hbind Hvalid Hfirst Hlast Hpw Hemail Hphone Hhash Hnew Hfresh
    Hunused Hbind' Hemail' Hpw'.
  destruct (GenerateAllTokens_returns laws email first_name last_name
              (controller.Hex (controller.NewObjectID w)) w)
    as (token & refreshToken & HG & Hsigned & _).
  set (stored := registered_user user w hash token refreshToken).
  set (w1 := with_collection w (userCollection w ++ [driver.Marshal stored])).
  set (w1' := mkWorld (SECRET_KEY w1) now (userCollection w1) None).
  destruct (GenerateAllTokens_returns laws email first_name last_name
              (models.User_id stored) w1') as (token' & refreshToken' & HG' & _ & _).
  destruct (UpdateAllTokens_once token' refreshToken' (models.User_id stored) w1' eq_refl)
    as (docs' & HU & _).
  exists token, refreshToken, (mkWorld (SECRET_KEY w1') (clock w1') docs' None).
  rewrite (SignUp_run c w user first_name last_name password email phone hash
             token refreshToken None) by done.
  split; [done|]. split; [done|]. split; [done|].
  change (mkWorld (SECRET_KEY w) now _ None) with w1'.
  eapply (Login_run c' w1' _ login stored (driver.Marshal stored) password hash
            email first_name last_name token' refreshToken' None);
    try done.
  - rewrite Hemail'. subst w1' w1. cbn [userCollection with_collection].
    apply find_app_new.
    + intros d Hd. unfold driver.matches; cbn.
      by rewrite bool_decide_false by (by apply Hunused).
    + unfold driver.matches; cbn. rewrite Marshal_email. subst stored; cbn.
      rewrite Hemail. cbn. by rewrite bool_decide_true.
  - apply Unmarshal_Marshal.
  - by eapply Hsound.
Qed.

(** X22.  After a sign-up that succeeded, a login with the same e-mail
    address and password, at any later time, answers with status 200 and
    the user the sign-up stored. *)
Theorem Login_after_SignUp
    (c c' : controller.Context) (w : World) (now : Z) (user login : models.User)
    (first_name last_name password email phone hash : string) :
  Lawful →
  bcrypt_sound →
  db_fault w = None →
  controller.BindJSON (controller.Request_Body c) = Ok user →
  controller.validate_Struct user = None →
  models.First_name user = Some first_name →
  models.Last_name user = Some last_name →
  models.Password user = Some password →
  models.Email user = Some email →
  models.Phone user = Some phone →
  controller.bcrypt_GenerateFromPassword w password 14 = Ok hash →
  (∀ d, d ∈ userCollection w → d !! "phone" ≠ Some (BString phone)) →
  (∀ d, d ∈ userCollection w → d !! "_id" ≠ Some (BString (controller.NewObjectID w))) →
  (∀ d, d ∈ userCollection w → d !! "email" ≠ Some (BString email)) →
  controller.BindJSON (controller.Request_Body c') = Ok login →
  models.Email login = Some email →
  models.Password login = Some password →
  ∃ token refreshToken w2,
    GenerateAllTokens email first_name last_name
      (controller.Hex (controller.NewObjectID w)) w
    = (Returned (token, refreshToken, None), w)
    ∧ (controller.SignUp c w).1
      = Returned (controller.JSON 200
                    (controller.InsertedBody (controller.NewObjectID w)) c)
    ∧ controller.Login c'
        (mkWorld (SECRET_KEY w) now (userCollection (controller.SignUp c w).2) None)
      = (Returned
           (controller.JSON 200
              (controller.UserBody (registered_user user w hash token refreshToken)) c'),
         w2).
Proof.
  intros laws Hsound Hdb Hbind Hvalid Hfirst Hlast Hpw Hemail Hphone Hhash Hnew Hfresh
    Hunused Hbind' Hemail' Hpw'.
  destruct (SignUp_Login_run c c' w now user login first_name last_name password email
              phone hash laws Hsound Hdb Hbind Hvalid Hfirst Hlast Hpw Hemail Hphone Hhash
              Hnew Hfresh Hunused Hbind' Hemail' Hpw')
    as (token & refreshToken & w2 & HG & _ & HS & HL).
  eauto 10.
Qed.

(** X26.  A login more than 24 hours after the sign-up hands out the access
    token of the sign-up, which ValidateToken then rejects as expired. *)
Theorem Login_answers_expired_token
    (c c' : controller.Context) (w : World) (now : Z) (user login : models.User)
    (first_name last_name password email phone hash : string) :
  Lawful →
  bcrypt_sound →
  db_fault w = None →
  controller.BindJSON (controller.Request_Body c) = Ok user →
  controller.validate_Struct user = None →
  models.First_name user = Some first_name →
  models.Last_name user = Some last_name →
  models.Password user = Some password →
  models.Email user = Some email →
  models.Phone user = Some phone →
  controller.bcrypt_GenerateFromPassword w password 14 = Ok hash →
  (∀ d, d ∈ userCollection w → d !! "phone" ≠ Some (BString phone)) →
  (∀ d, d ∈ userCollection w → d !! "_id" ≠ Some (BString (controller.NewObjectID w))) →
  (∀ d, d ∈ userCollection w → d !! "email" ≠ Some (BString email)) →
  controller.BindJSON (controller.Request_Body c') = Ok login →
  models.Email login = Some email →
  models.Password login = Some password →
  clock w + hours 24 < now →
  clock w + hours 24 ≠ 0 →
  let later := mkWorld (SECRET_KEY w) now (userCollection (controller.SignUp c w).2) None in
  ∃ answered token claims w2,
    controller.Login c' later
    = (Returned (controller.JSON 200 (controller.UserBody answered) c'), w2)
    ∧ models.Token answered = Some token
    ∧ ValidateToken token later
      = (Returned (Some claims,
                   "token is expired by "
                   +:+ jwt.fmt_Duration (now - (clock w + hours 24))), later).
Proof.
  intros laws Hsound Hdb Hbind Hvalid Hfirst Hlast Hpw Hemail Hphone Hhash Hnew Hfresh
    Hunused Hbind' Hemail' Hpw' Hlate Hnz later.
  destruct (SignUp_Login_run c c' w now user login first_name last_name password email
              phone hash laws Hsound Hdb Hbind Hvalid Hfirst Hlast Hpw Hemail Hphone Hhash
              Hnew Hfresh Hunused Hbind' Hemail' Hpw')
    as (token & refreshToken & w2 & HG & Hsigned & HS & HL).
  eexists _, token, _, w2. split; [exact HL|]. split; [done|].
  rewrite (ValidateToken_signed laws _ later _ Hsigned).
  unfold ExpiresAt, jwt.StandardClaims_Valid, jwt.verifyExp; cbn.
  rewrite (proj2 (Z.ltb_lt _ _)) by lia.
  rewrite (proj2 (Z.eqb_neq _ _)) by lia.
  rewrite (proj2 (Z.leb_gt _ _)) by lia.
  reflexivity.
Qed.

(** X24.  The [page] parameter has no effect on GetUsers: the start index
    computed from it is overwritten before the pipeline is built. *)
Theorem GetUsers_ignores_page (c : controller.Context) (page : string) (w : World) :
  let c' := controller.mkContext (controller.Request_Body c) (controller.Params c)
              (<["page" := page]> (controller.Request_Query c)) (controller.Writer c) in
  match controller.GetUsers c w, controller.GetUsers c' w with
  | (Returned (inl r), w1), (Returned (inl r'), w1') =>
      controller.Writer r = controller.Writer r' ∧ w1 = w1'
  | (Returned (inr e), w1), (Returned (inr e'), w1') => e = e' ∧ w1 = w1'
  | (Panicked v, w1), (Panicked v', w1') => v = v' ∧ w1 = w1'
  | _, _ => False
  end.
Proof.
  intros c'. unfold controller.GetUsers, controller.Query. subst c'.
  cbn [controller.Request_Query]. rewrite !lookup_insert_ne by done.
  destruct (strconv.Atoi (default "" (controller.Request_Query c !! "recordPerPage")))
    as [recordPerPage err].
  destruct (strconv.Atoi (default "" (controller.Request_Query c !! "page"))) as [p err1].
  destruct (strconv.Atoi (default "" (<["page":=page]> (controller.Request_Query c) !! "page")))
    as [p' err1'].
  rewrite !lookup_insert_ne by done.
  destruct (strconv.Atoi (default "" (controller.Request_Query c !! "startIndex")))
    as [startIndex err2].
  unfold mbind, M_bind, gets, mret, M_ret.
  destruct (controller.Aggregate w startIndex _) as [[[|row rows]|e]|e]; done.
Qed.

(** X25.  GetUsers panics when the aggregation fails, on the nil cursor,
    and when it yields no row, on the index 0. *)
Theorem GetUsers_panics (c : controller.Context) (w : World) :
  ((∃ e, ∀ startIndex recordPerPage,
           controller.Aggregate w startIndex recordPerPage = Err e) →
   controller.GetUsers c w = (Panicked nil_dereference, w))
  ∧ ((∀ startIndex recordPerPage,
        controller.Aggregate w startIndex recordPerPage = Ok (Ok [])) →
     controller.GetUsers c w
     = (Panicked "runtime error: index out of range [0] with length 0", w)).
Proof.
  split.
  - intros (e & He). unfold controller.GetUsers.
    repeat destruct (strconv.Atoi _) as [? ?].
    unfold mbind, M_bind, gets. by rewrite He.
  - intros He. unfold controller.GetUsers.
    repeat destruct (strconv.Atoi _) as [? ?].
    unfold mbind, M_bind, gets. by rewrite He.
Qed.
End controller_props.

(** ** Further runs on the reference instance *)

Section more_runs.
Import reference.

Lemma stand_in_sound : bcrypt_sound.
Proof.
  intros w password hash. cbn. unfold stand_in.bcrypt_GenerateFromPassword.
  destruct (72 <? String.length password)%nat; [done|]. intros [= <-].
  unfold stand_in.bcrypt_CompareHashAndPassword. by rewrite String.eqb_refl.
Qed.

Lemma ValidateToken_accepts_iff_witness :
  Accepted (ValidateToken (ann_signing_string +:+ ".AAAA") world).1 ann
  ↔ ∃ token parts err,
      jwt.ParseUnverified (ann_signing_string +:+ ".AAAA") SignedDetails_zero
      = (Some token, parts, err)
      ∧ jwt.Token_Claims token = Some ann
      ∧ clock world ≤ ExpiresAt ann.
Proof.
  apply (ValidateToken_accepts_iff (ann_signing_string +:+ ".AAAA") world ann).
  apply reference_worded.
Defined.

Lemma ValidateToken_without_expiry_witness :
  (jwt.ParseWithClaims scenario.undated_token SignedDetails_zero
     (SECRET_KEY world) (clock world)).2 = None
  ∧ ValidateToken scenario.undated_token world
    = (Returned (Some scenario.undated, "token is expired"), world).
Proof.
  apply (ValidateToken_without_expiry scenario.undated scenario.undated_token world).
  - apply (SignedString_correctly_signed reference_lawful). vm_compute. reflexivity.
  - reflexivity.
  - vm_compute. reflexivity.
  - vm_compute. discriminate.
  - vm_compute. discriminate.
Defined.

Lemma ValidateToken_undecodable_header_witness :
  ValidateToken "Bearer a.b.c" world
  = (Returned (None, "tokenstring should not contain 'bearer '"), world).
Proof.
  apply (ValidateToken_undecodable_header "Bearer a.b.c" "Bearer a" "b" "c"
           "illegal base64 data at input byte 6" world).
  - vm_compute. reflexivity.
  - vm_compute. reflexivity.
Defined.

Lemma Authentication_refresh_token_witness :
  ∃ token refreshToken,
    GenerateAllTokens "a@b.c" "Ann" "Lee" "u1" world
    = (Returned (token, refreshToken, None), world)
    ∧ Authentication (λ c, mret c) (request refreshToken) (world_at 1700604800)
      = (Returned
           (gin.mkContext {["Token" := [refreshToken]]}
              (<["uid" := ""]>
                 (<["last_name" := ""]> (<["first_name" := ""]> (<["email" := ""]> ∅))))
              [] (-1)),
         world_at 1700604800).
Proof.
  destruct (Authentication_refresh_token "a@b.c" "Ann" "Lee" "u1" world
              (world_at 1700604800) (λ c, mret c) (request ann_refresh_token)
              reference_lawful)
    as (token & refreshToken & Hissue & Hgate).
  assert (refreshToken = ann_refresh_token) as ->.
  { pose proof ann_token_issued as Hann. congruence. }
  exists token, ann_refresh_token. split; [exact Hissue|].
  apply Hgate.
  - reflexivity.
  - vm_compute. discriminate.
  - vm_compute. reflexivity.
Defined.

Lemma Authentication_expired_token_witness :
  ∃ token refreshToken,
    GenerateAllTokens "a@b.c" "Ann" "Lee" "u1" world
    = (Returned (token, refreshToken, None), world)
    ∧ Authentication (λ c, mret c) (request token) (world_at 1700086460)
      = (Returned
           (gin.mkContext {["Token" := [token]]} ∅
              [gin.mkResponse 500 {["error" := "token is expired by 1m0s"]}] 63),
         world_at 1700086460).
Proof.
  destruct (Authentication_expired_token "a@b.c" "Ann" "Lee" "u1" world
              (world_at 1700086460) (λ c, mret c) (request ann_token) reference_lawful)
    as (token & refreshToken & Hissue & Hgate).
  assert (token = ann_token) as ->.
  { pose proof ann_token_issued as Hann. congruence. }
  exists ann_token, refreshToken. split; [exact Hissue|].
  apply Hgate.
  - reflexivity.
  - vm_compute. reflexivity.
  - vm_compute. discriminate.
  - vm_compute. reflexivity.
Defined.

Lemma Authentication_wrong_segment_count_witness :
  (∀ next, Authentication next (scenario.at_gate ["abc"]) world
           = (Panicked nil_dereference, world))
  ∧ gin.run 1 chain (scenario.at_gate ["abc"]) world = (Panicked nil_dereference, world).
Proof.
  apply (Authentication_wrong_segment_count 0 chain (scenario.at_gate ["abc"]) world).
  - vm_compute. discriminate.
  - vm_compute. discriminate.
  - vm_compute. discriminate.
  - reflexivity.
Defined.

Lemma Authentication_empty_first_value_witness :
  Authentication (λ c, mret c) (scenario.at_gate [""; ann_token]) world
  = (Returned
       (gin.mkContext {["Token" := [""; ann_token]]} ∅
          [gin.mkResponse 500 {["error" := "No Authorization header provided"]}] 63),
     world).
Proof.
  apply (Authentication_empty_first_value (λ c, mret c)
           (scenario.at_gate [""; ann_token]) world [""; ann_token]).
  - reflexivity.
  - right. reflexivity.
Defined.

Lemma UpdateAllTokens_touches_one_witness :
  ∃ docs',
    UpdateAllTokens "t1" "r1" "u1" scenario.stored
    = (Returned tt, mkWorld "secret" 1700000000 docs' None)
    ∧ ∀ i d, userCollection scenario.stored !! i = Some d →
        ∃ d', docs' !! i = Some d'
          ∧ (∀ k, k ≠ "token" → k ≠ "refresh_token" → k ≠ "updated_at" →
                  d' !! k = d !! k)
          ∧ (d' ≠ d →
             d !! "user_id" = Some (BString "u1")
             ∧ ∀ j dj, (j < i)%nat → userCollection scenario.stored !! j = Some dj →
                       dj !! "user_id" ≠ Some (BString "u1")).
Proof.
  apply (UpdateAllTokens_touches_one "t1" "r1" "u1" scenario.stored).
  reflexivity.
Defined.

Lemma UpdateAllTokens_upsert_witness :
  UpdateAllTokens "t1" "r1" "u1" world
  = (Returned tt,
     mkWorld "secret" 1700000000
       [ <["updated_at" := BDateTime 1700000000]>
           (<["refresh_token" := BString "r1"]>
              (<["token" := BString "t1"]> {["user_id" := BString "u1"]})) ]
       None).
Proof.
  apply (UpdateAllTokens_upsert "t1" "r1" "u1" world).
  - reflexivity.
  - reflexivity.
Defined.

Lemma main_router_routes_witness :
  ∃ router,
    main_router handler handler handler handler [("GET", "/foods", [handler])] world
    = (Returned router, world)
    ∧ engine.allNoRoute router = [engine.Logger; Authentication]
    ∧ engine.trees router
      = [("GET", "/users", [engine.Logger; handler]);
         ("GET", "/users/:user_id", [engine.Logger; handler]);
         ("POST", "/users/signup", [engine.Logger; handler]);
         ("POST", "/users/login", [engine.Logger; handler]);
         ("GET", "/foods", [engine.Logger; Authentication; handler])].
Proof.
  pose (router :=
          engine.mkEngine [engine.Logger; Authentication]
            [("GET", "/users", [engine.Logger; handler]);
             ("GET", "/users/:user_id", [engine.Logger; handler]);
             ("POST", "/users/signup", [engine.Logger; handler]);
             ("POST", "/users/login", [engine.Logger; handler]);
             ("GET", "/foods", [engine.Logger; Authentication; handler])]
            [engine.Logger; Authentication]).
  assert (main_router handler handler handler handler [("GET", "/foods", [handler])] world
          = (Returned router, world)) as Hbuilt by reflexivity.
  exists router. split; [exact Hbuilt|].
  destruct (main_router_routes handler handler handler handler
              [("GET", "/foods", [handler])] router world world Hbuilt)
    as (_ & Hunmatched & Hroutes).
  split; [exact Hunmatched|exact Hroutes].
Defined.

Lemma unmatched_request_witness :
  engine.serveError 2 [engine.Logger; Authentication] 404 engine.default404Body
    bare_request world
  = (Returned
       (gin.mkContext {["Accept" := ["*/*"]]} ∅
          [gin.mkResponse 500 {["error" := "No Authorization header provided"]}] 65,
        None), world)
  ∧ engine.serveError 2 [engine.Logger; Authentication] 404 engine.default404Body
      (request ann_token) world
    = (Returned
         (gin.mkContext {["Token" := [ann_token]]}
            (<["uid" := "u1"]>
               (<["last_name" := "Lee"]>
                  (<["first_name" := "Ann"]> (<["email" := "a@b.c"]> ∅))))
            [] 4,
          Some (404, "404 page not found")), world).
Proof.
  split.
  - destruct (unmatched_request 0 bare_request world eq_refl) as [Hmissing _].
    apply Hmissing. vm_compute. reflexivity.
  - destruct (unmatched_request 0 (request ann_token) world eq_refl) as [_ Hvalid].
    apply (Hvalid ann).
    + vm_compute. discriminate.
    + vm_compute. reflexivity.
Defined.

Lemma VerifyPassword_HashPassword_witness :
  controller.HashPassword "s3cret!" world = (Returned (stand_in.digest "s3cret!"), world)
  ∧ controller.VerifyPassword "s3cret!" (stand_in.digest "s3cret!") = (true, "")
  ∧ ∀ other,
      (controller.VerifyPassword other (stand_in.digest "s3cret!")).1 = true
      ↔ (controller.VerifyPassword other (stand_in.digest "s3cret!")).2 = "".
Proof.
  split; [reflexivity|].
  destruct (VerifyPassword_HashPassword "s3cret!" world world (stand_in.digest "s3cret!")
              stand_in_sound eq_refl) as (_ & Hverify & Hagree).
  split; [exact Hverify|exact Hagree].
Defined.


Lemma SignUp_duplicate_phone_witness :
  controller.SignUp (scenario.post scenario.signup_body) scenario.phone_taken
  = (Returned (controller.JSON 500
                 (controller.ErrorBody "this email or phone number already exsits")
                 (scenario.post scenario.signup_body)), scenario.phone_taken)
  ∧ controller.SignUp (scenario.post scenario.long_signup_body) scenario.phone_taken
    = (Panicked "bcrypt: password length exceeds 72 bytes", scenario.phone_taken).
Proof.
  split.
  - etransitivity.
    + apply (SignUp_duplicate_phone (scenario.post scenario.signup_body)
               scenario.phone_taken scenario.ann_user "s3cret!" "555-0100"
               {["phone" := BString "555-0100"]}).
      * reflexivity.
      * vm_compute. reflexivity.
      * vm_compute. reflexivity.
      * reflexivity.
      * reflexivity.
      * apply list_elem_of_here.
      * reflexivity.
    + reflexivity.
  - etransitivity.
    + apply (SignUp_duplicate_phone (scenario.post scenario.long_signup_body)
               scenario.phone_taken scenario.ann_long scenario.long_password "555-0100"
               {["phone" := BString "555-0100"]}).
      * reflexivity.
      * vm_compute. reflexivity.
      * vm_compute. reflexivity.
      * reflexivity.
      * reflexivity.
      * apply list_elem_of_here.
      * reflexivity.
    + reflexivity.
Defined.

Lemma SignUp_database_error_witness :
  controller.SignUp (scenario.post scenario.signup_body) scenario.offline
  = (Panicked "server selection error", scenario.offline).
Proof.
  apply (SignUp_database_error (scenario.post scenario.signup_body) scenario.offline
           scenario.ann_user "server selection error").
  - vm_compute. reflexivity.
  - vm_compute. reflexivity.
  - reflexivity.
Defined.

Lemma Login_answers_stored_user_witness :
  ∃ token refreshToken w',
    GenerateAllTokens "a@b.c" "Ann" "Lee" (models.User_id scenario.ann_stored)
      scenario.next_day
    = (Returned (token, refreshToken, None), scenario.next_day)
    ∧ controller.Login (scenario.post (scenario.login_body "s3cret!")) scenario.next_day
      = (Returned (controller.JSON 200 (controller.UserBody scenario.ann_stored)
                     (scenario.post (scenario.login_body "s3cret!"))), w')
    ∧ BString <$> models.Token scenario.ann_stored = scenario.ann_document !! "token"
    ∧ ∃ d' rest,
        records_of (models.User_id scenario.ann_stored) (userCollection w') = d' :: rest
        ∧ holds_pair token refreshToken d'.
Proof.
  apply (Login_answers_stored_user (scenario.post (scenario.login_body "s3cret!"))
           scenario.next_day
           (models.mkUser models.NilObjectID None None (Some "s3cret!") (Some "a@b.c")
              None None None None models.zero_time models.zero_time "")
           scenario.ann_stored scenario.ann_document
           "s3cret!" (stand_in.digest "s3cret!") "a@b.c" "Ann" "Lee" reference_lawful).
  - reflexivity.
  - vm_compute. reflexivity.
  - reflexivity.
  - reflexivity.
  - reflexivity.
  - vm_compute. reflexivity.
  - vm_compute. reflexivity.
  - reflexivity.
  - reflexivity.
  - reflexivity.
Defined.

Lemma Login_nil_password_witness :
  controller.Login
    (scenario.post (render_object [("email", JS "a@b.c")])) scenario.next_day
  = (Panicked nil_dereference, scenario.next_day).
Proof.
  apply (Login_nil_password (scenario.post (render_object [("email", JS "a@b.c")]))
           scenario.next_day
           (models.mkUser models.NilObjectID None None None (Some "a@b.c")
              None None None None models.zero_time models.zero_time "")
           scenario.ann_stored scenario.ann_document).
  - reflexivity.
  - vm_compute. reflexivity.
  - reflexivity.
  - reflexivity.
  - left. reflexivity.
Defined.

Lemma Login_refuses_witness :
  controller.Login (scenario.post (scenario.login_body "s3cret!")) world
  = (Returned (controller.JSON 500
                 (controller.ErrorBody "user not found, login seems to be incorrect")
                 (scenario.post (scenario.login_body "s3cret!"))), world)
  ∧ controller.Login (scenario.post (scenario.login_body "letmein")) scenario.next_day
    = (Returned (controller.JSON 500
                   (controller.ErrorBody "login or password is incorrect")
                   (scenario.post (scenario.login_body "letmein"))), scenario.next_day).
Proof.
  split.
  - destruct (Login_refuses (scenario.post (scenario.login_body "s3cret!")) world
                (models.mkUser models.NilObjectID None None (Some "s3cret!") (Some "a@b.c")
                   None None None None models.zero_time models.zero_time ""))
      as [Hunknown _]; [vm_compute; reflexivity|].
    apply Hunknown. right. reflexivity.
  - destruct (Login_refuses (scenario.post (scenario.login_body "letmein")) scenario.next_day
                (models.mkUser models.NilObjectID None None (Some "letmein") (Some "a@b.c")
                   None None None None models.zero_time models.zero_time ""))
      as [_ Hwrong]; [vm_compute; reflexivity|].
    apply (Hwrong scenario.ann_document scenario.ann_stored "letmein"
             (stand_in.digest "s3cret!")).
    + reflexivity.
    + reflexivity.
    + reflexivity.
    + reflexivity.
    + vm_compute. reflexivity.
    + vm_compute. discriminate.
Defined.

Lemma Login_after_SignUp_witness :
  ∃ token refreshToken w2,
    GenerateAllTokens "a@b.c" "Ann" "Lee" (controller.Hex (controller.NewObjectID world)) world
    = (Returned (token, refreshToken, None), world)
    ∧ (controller.SignUp (scenario.post scenario.signup_body) world).1
      = Returned (controller.JSON 200
                    (controller.InsertedBody (controller.NewObjectID world))
                    (scenario.post scenario.signup_body))
    ∧ controller.Login (scenario.post (scenario.login_body "s3cret!"))
        (mkWorld (SECRET_KEY world) 1700090000
           (userCollection (controller.SignUp (scenario.post scenario.signup_body) world).2)
           None)
      = (Returned
           (controller.JSON 200
              (controller.UserBody
                 (registered_user scenario.ann_user world (stand_in.digest "s3cret!")
                    token refreshToken))
              (scenario.post (scenario.login_body "s3cret!"))),
         w2).
Proof.
  apply (Login_after_SignUp (scenario.post scenario.signup_body)
           (scenario.post (scenario.login_body "s3cret!")) world 1700090000
           scenario.ann_user
           (models.mkUser models.NilObjectID None None (Some "s3cret!") (Some "a@b.c")
              None None None None models.zero_time models.zero_time "")
           "Ann" "Lee" "s3cret!" "a@b.c" "555-0100" (stand_in.digest "s3cret!")
           reference_lawful stand_in_sound).
  - reflexivity.
  - vm_compute. reflexivity.
  - vm_compute. reflexivity.
  - reflexivity.
  - reflexivity.
  - reflexivity.
  - reflexivity.
  - reflexivity.
  - reflexivity.
  - intros d Hd. by apply elem_of_nil in Hd.
  - intros d Hd. by apply elem_of_nil in Hd.
  - intros d Hd. by apply elem_of_nil in Hd.
  - vm_compute. reflexivity.
  - reflexivity.
  - reflexivity.
Defined.

Lemma Login_answers_expired_token_witness :
  ∃ answered token claims w2,
    controller.Login (scenario.post (scenario.login_body "s3cret!")) scenario.next_day
    = (Returned (controller.JSON 200 (controller.UserBody answered)
                   (scenario.post (scenario.login_body "s3cret!"))), w2)
    ∧ models.Token answered = Some token
    ∧ ValidateToken token scenario.next_day
      = (Returned (Some claims, "token is expired by 1h0m0s"), scenario.next_day).
Proof.
  apply (Login_answers_expired_token (scenario.post scenario.signup_body)
           (scenario.post (scenario.login_body "s3cret!")) world 1700090000
           scenario.ann_user
           (models.mkUser models.NilObjectID None None (Some "s3cret!") (Some "a@b.c")
              None None None None models.zero_time models.zero_time "")
           "Ann" "Lee" "s3cret!" "a@b.c" "555-0100" (stand_in.digest "s3cret!")
           reference_lawful stand_in_sound).
  - reflexivity.
  - vm_compute. reflexivity.
  - vm_compute. reflexivity.
  - reflexivity.
  - reflexivity.
  - reflexivity.
  - reflexivity.
  - reflexivity.
  - reflexivity.
  - intros d Hd. by apply elem_of_nil in Hd.
  - intros d Hd. by apply elem_of_nil in Hd.
  - intros d Hd. by apply elem_of_nil in Hd.
  - vm_compute. reflexivity.
  - reflexivity.
  - reflexivity.
  - vm_compute. reflexivity.
  - vm_compute. discriminate.
Defined.

Lemma GetUser_not_found_witness :
  controller.GetUser (scenario.get {["user_id" := "nobody"]} ∅) scenario.stored
  = (Returned
       (controller.mkContext "" {["user_id" := "nobody"]} ∅
          [controller.mkReply 500
             (controller.ErrorBody "error occured while listing user items");
           controller.mkReply 200 (controller.UserBody models.User_zero)]),
     scenario.stored).
Proof.
  assert (∀ d, d ∈ userCollection scenario.stored →
               d !! "user_id" ≠ Some (BString "nobody")) as Hnone.
  { intros d Hd. apply list_elem_of_In in Hd. cbn in Hd.
    repeat (destruct Hd as [Hd|Hd]; [subst d; vm_compute; discriminate|]). destruct Hd. }
  exact (GetUser_not_found (scenario.get {["user_id" := "nobody"]} ∅) scenario.stored
           (or_intror Hnone)).
Defined.

Lemma GetUsers_panics_witness :
  controller.GetUsers (scenario.get ∅ {["page" := "2"]}) scenario.offline
  = (Panicked nil_dereference, scenario.offline)
  ∧ controller.GetUsers (scenario.get ∅ {["page" := "2"]}) world
    = (Panicked "runtime error: index out of range [0] with length 0", world).
Proof.
  split.
  - destruct (GetUsers_panics (scenario.get ∅ {["page" := "2"]}) scenario.offline)
      as [Hfails _].
    apply Hfails. exists "server selection error". reflexivity.
  - destruct (GetUsers_panics (scenario.get ∅ {["page" := "2"]}) world) as [_ Hempty].
    apply Hempty. reflexivity.
Defined.
End more_runs.
